(** * dbt context providers: resolvers, dispatch, stored results, parse config

    A shallow embedding of [core/dbt/context/providers.py].  Python objects
    become records, [Optional[T]] becomes [option], dictionaries become
    [gmap]s (or association lists where the iteration order is observed),
    raised exceptions become the [Raise] case of [PyResult], and mutation of
    [self.model] / [self.sql_results] / [self.context_config] becomes explicit
    state passing. *)

From Stdlib Require Import ZArith String Ascii List Bool Lia.
From stdpp Require Import base option gmap strings list fin_maps.
Import ListNotations.
Open Scope string_scope.
Open Scope list_scope.
Open Scope Z_scope.

(** ** Python values that reach the resolvers from a template *)

Module Py.

(** The dynamically typed arguments a Jinja template can pass.  A float is
    kept as a dyadic [mantissa * 2 ^ exponent]; only its class and its
    truth value are observed by the code below. *)
Inductive PyVal : Type :=
| VNone
| VBool (b : bool)
| VInt (n : Z)
| VFloat (mantissa exponent : Z)
| VStr (s : string)
| VList (items : list PyVal).

(** [bool(v)] *)
Definition truthy (v : PyVal) : bool :=
  match v with
  | VNone => false
  | VBool b => b
  | VInt n => negb (n =? 0)
  | VFloat m _ => negb (m =? 0)
  | VStr s => negb (String.eqb s "")
  | VList l => match l with [] => false | _ => true end
  end.

(** [a or b] *)
Definition py_or (a b : PyVal) : PyVal := if truthy a then a else b.

(** [v is None] *)
Definition is_none (v : PyVal) : bool :=
  match v with VNone => true | _ => false end.

(** [isinstance(v, str)] *)
Definition isinstance_str (v : PyVal) : bool :=
  match v with VStr _ => true | _ => false end.

(** [isinstance(v, (str, int, float))]; [bool] is a subclass of [int]. *)
Definition isinstance_str_int_float (v : PyVal) : bool :=
  match v with
  | VStr _ | VInt _ | VBool _ | VFloat _ _ => true
  | _ => false
  end.

(** [kwargs.get(key)] on a keyword dictionary *)
Definition dict_get (kwargs : gmap string PyVal) (key : string) : PyVal :=
  default VNone (kwargs !! key).

End Py.
Export Py.

(** ** Exceptions *)

(** The text of each [CompilationError] raised in this file is fixed by its
    constructor; the fields are the values interpolated into the message. *)
Inductive CompilationMsg : Type :=
| DispatchDottedName (macro_name suggest_macro_name suggest_macro_namespace : string)
| DispatchNamespaceType (macro_namespace : PyVal)
| DispatchNoMacro (macro_name : string) (macro_namespace : PyVal) (searched : list string)
| RefNameNotStr (name : PyVal)
| RefPackageNotStr (package : PyVal)
| RefVersionBadType (version : PyVal).

Inductive AccessType : Type := Private | Protected | Public.

(** [node=self.model] is recorded by the node's [unique_id].
    [ConfigAttributeError a] is Python's [AttributeError] for reading the
    attribute [a] of a [target.config] whose class does not declare it. *)
Inductive Exn : Type :=
| CompilationError (msg : CompilationMsg)
| MacroDispatchArgError (macro_name : string)
| RefArgsError (node : string) (args : list PyVal)
| TargetNotFoundError (node : string) (target_name : PyVal) (target_kind : string)
                      (target_package target_version : PyVal) (disabled : bool)
| DbtReferenceError (unique_id ref_unique_id : string) (access : AccessType) (scope : string)
| RefBadContextError (node : string) (name package version : PyVal)
| OperationsCannotRefEphemeralNodesError (target_name : string) (node : string)
| MacroResultAlreadyLoadedError (result_name : string)
| InlineModelConfigError (node : string)
| ConflictingConfigKeysError (oldkey newkey : string) (node : string)
| DbtRuntimeError (msg : string)
| UnboundLocalError (variable : string)
| ConfigAttributeError (attribute : string)
| TypeError (msg : string).

Inductive PyResult (A : Type) : Type :=
| Ok (a : A)
| Raise (e : Exn).
Arguments Ok {A} a.
Arguments Raise {A} e.

Definition bind {A B : Type} (r : PyResult A) (k : A -> PyResult B) : PyResult B :=
  match r with
  | Ok a => k a
  | Raise e => Raise e
  end.

Notation "x <- r ;; k" := (bind r (fun x => k))
  (at level 100, r at next level, right associativity).

(** ** Data read by the resolvers *)

Module ColumnInfo.
Record t : Type := mk
  { name : string;
    data_type : option string;
    quote : option bool }.
End ColumnInfo.

(** [dbt.adapters.base.column.Column], the class imported at the top of
    the module.  The resolver always builds this base class, never the
    adapter's own column class. *)
Module Column.

(** The type [Column.translate_type] computes from the label handed to
    [Column.create]; it is kept as the call, nothing below reads it. *)
Inductive Dtype : Type := translate_type (label_or_dtype : string).

Record t : Type := mk
  { column : string;
    dtype : Dtype }.

(** [Column.create(name, label_or_dtype)] *)
Definition create (name label_or_dtype : string) : t :=
  mk name (translate_type label_or_dtype).

(** The one-character string holding a double quote. *)
Definition double_quote : string := String (ascii_of_nat 34) EmptyString.

(** The property [quoted] of the base class: the name between double
    quotes. *)
Definition quoted (c : t) : string :=
  double_quote +:+ column c +:+ double_quote.

End Column.

Module Quoting.
Record t : Type := mk { column : option bool }.
End Quoting.

(** The class of [target.config], as far as [isinstance] observes it.
    [NodeConfig], [SeedConfig] and [SourceConfig] declare the attribute
    [event_time]; [OtherConfig] stands for a config class outside these
    three (the config of a generic test, say), which does not declare it. *)
Inductive ConfigClass : Type := NodeConfig | SeedConfig | SourceConfig | OtherConfig.

(** [event_time] is the value of the attribute for the three classes that
    declare it; for [OtherConfig] the attribute does not exist and the field
    is never read (see [BaseResolver.config_event_time]). *)
Module TargetConfig.
Record t : Type := mk
  { cls : ConfigClass;
    event_time : option string }.
End TargetConfig.

Module DeferRelation.
Record t : Type := mk
  { database : option string;
    schema : string;
    alias : string }.
End DeferRelation.

(** A resolved node or source.  [columns] keeps the dictionary's insertion
    order, which the scan in [_resolve_event_time_field_name] observes.
    [quoting] is [None] for targets without that attribute (only source
    definitions carry it); [defer_relation] is [None] both when the
    attribute is missing and when it is [None]. *)
Module Target.
Record t : Type := mk
  { unique_id : string;
    name : string;
    package_name : string;
    group : option string;
    database : option string;
    schema : string;
    identifier : string;
    config : TargetConfig.t;
    columns : list (string * ColumnInfo.t);
    quoting : option Quoting.t;
    is_ephemeral_model : bool;
    defer_relation : option DeferRelation.t }.
End Target.

(** The class of the requesting resource [self.model]. *)
Inductive NodeClass : Type :=
| ModelNode | SnapshotNode | SeedNode | UnitTestNode | HookNode | MacroNode | OtherNode.

Module Batch.
Record t : Type := mk
  { event_time_start : Z;
    event_time_end : Z }.
End Batch.

Module RefArgs.
Record t : Type := mk
  { package : PyVal;
    name : PyVal;
    version : PyVal }.
End RefArgs.

(** The requesting resource [self.model].  [refs] is the part the parse-phase
    resolver mutates; [set_cte] is recorded as an effect (see [Effect]). *)
Module Node.
Record t : Type := mk
  { cls : NodeClass;
    unique_id : string;
    package_name : string;
    materialized : string;
    incremental_strategy : option string;
    batch : option Batch.t;
    depends_on_nodes : list string;
    refs : list RefArgs.t }.
End Node.

Module Sample.
Record t : Type := mk
  { start : Z;
    end_ : Z }.
End Sample.

(** [self.config]: the run configuration with the flags read through
    [self.config.args].  [EMPTY] is [getattr(args, "EMPTY", False)] and
    [sample] is [getattr(args, "sample", None)]. *)
Module RuntimeConfig.
Record t : Type := mk
  { project_name : string;
    dependencies : list string;
    EMPTY : bool;
    sample : option Sample.t;
    defer : bool;
    favor_state : bool }.
End RuntimeConfig.

Module EventTimeFilter.
Record t : Type := mk
  { field_name : option string;
    start : Z;
    end_ : Z }.
End EventTimeFilter.

(** What [manifest.resolve_ref] hands back. *)
Inductive ResolveRef : Type :=
| RefAbsent
| RefDisabled (target : Target.t)
| RefFound (target : Target.t).

(** The read-only collaborators of a resolver: the manifest and the adapter. *)
Module Manifest.
Record t : Type := mk
  { use_microbatch_batches : string -> bool;
    resolve_ref : Node.t -> PyVal -> PyVal -> PyVal -> string -> string -> ResolveRef;
    is_invalid_private_ref : Node.t -> Target.t -> list string -> bool;
    is_invalid_protected_ref : Node.t -> Target.t -> list string -> bool }.
End Manifest.

Module Adapter.
Record t : Type := mk
  { get_relation : option string -> string -> string -> bool }.
End Adapter.

(** ** BaseResolver: the event-time filter *)

Module BaseResolver.

Record t : Type := mk
  { adapter : Adapter.t;
    model : Node.t;
    config : RuntimeConfig.t;
    manifest : Manifest.t;
    (* the module global [selected_resources.SELECTED_RESOURCES] *)
    SELECTED_RESOURCES : list string }.

(** [isinstance(target.config, (NodeConfig, SeedConfig, SourceConfig))] *)
Definition has_event_time_config (target : Target.t) : bool :=
  match TargetConfig.cls (Target.config target) with
  | NodeConfig | SeedConfig | SourceConfig => true
  | OtherConfig => false
  end.

(** The read [target.config.event_time]: an [AttributeError] on a config
    whose class does not declare the attribute. *)
Definition config_event_time (target : Target.t) : PyResult (option string) :=
  if has_event_time_config target
  then Ok (TargetConfig.event_time (Target.config target))
  else Raise (ConfigAttributeError "event_time").

(** The loop of [_resolve_event_time_field_name]: the locals
    [should_quote] and [column] after scanning [columns] up to the [break].
    [column] stays unbound when no entry matches. *)
Fixpoint scan_columns (target_quoting : option Quoting.t)
         (event_time : option string) (columns : list (string * ColumnInfo.t))
  : bool * option Column.t :=
  match columns with
  | [] => (false, None)
  | (_, column_info) :: rest =>
      if decide (Some (ColumnInfo.name column_info) = event_time) then
        let column :=
          Column.create (ColumnInfo.name column_info)
            (match ColumnInfo.data_type column_info with
             | Some d => if String.eqb d "" then "" else d
             | None => ""
             end) in
        match ColumnInfo.quote column_info with
        | Some q => (q, Some column)
        | None =>
            match target_quoting with
            | Some tq =>
                match Quoting.column tq with
                | Some q => (q, Some column)
                | None => (false, Some column)
                end
            | None => (false, Some column)
            end
        end
      else scan_columns target_quoting event_time rest
  end.

(** [target.config.event_time] is read on every path: by the first
    comparison of the loop when there are columns, and by the final [return]
    when the loop found nothing to quote.  The read either fails at once or
    gives the same value each time, so it is done once, up front. *)
Definition _resolve_event_time_field_name (self : t) (target : Target.t)
  : PyResult (option string) :=
  event_time <- config_event_time target ;;
  let '(should_quote, column) :=
    scan_columns (Target.quoting target) event_time (Target.columns target) in
  if should_quote then
    match column with
    | Some c => Ok (Some (Column.quoted c))
    | None => Raise (UnboundLocalError "column")
    end
  else Ok event_time.

(** truth value of [target.config.event_time] *)
Definition event_time_truthy (target : Target.t) : bool :=
  match TargetConfig.event_time (Target.config target) with
  | Some s => negb (String.eqb s "")
  | None => false
  end.

(** [isinstance(self.model, (ModelNode, SnapshotNode))] *)
Definition is_model_or_snapshot (n : Node.t) : bool :=
  match Node.cls n with
  | ModelNode | SnapshotNode => true
  | _ => false
  end.

Definition is_model (n : Node.t) : bool :=
  match Node.cls n with ModelNode => true | _ => false end.

(** The condition guarding the "Handling of microbatch models" branch;
    [Some b] is the assigned batch when the branch is taken. *)
Definition microbatch_batch (self : t) : option Batch.t :=
  if is_model (model self)
     && String.eqb (Node.materialized (model self)) "incremental"
     && bool_decide (Node.incremental_strategy (model self) = Some "microbatch")
     && Manifest.use_microbatch_batches (manifest self)
          (RuntimeConfig.project_name (config self))
  then Node.batch (model self)
  else None.

Definition resolve_event_time_filter (self : t) (target : Target.t)
  : PyResult (option EventTimeFilter.t) :=
  let sample := RuntimeConfig.sample (config self) in
  field_name <- _resolve_event_time_field_name self target ;;
  if has_event_time_config target
     && event_time_truthy target
     && is_model_or_snapshot (model self)
  then
    match microbatch_batch self with
    | Some batch =>
        match sample with
        | Some s =>
            let start :=
              if Sample.start s >? Batch.event_time_start batch
              then Sample.start s else Batch.event_time_start batch in
            let end_ :=
              if Sample.end_ s <? Batch.event_time_end batch
              then Sample.end_ s else Batch.event_time_end batch in
            Ok (Some (EventTimeFilter.mk field_name start end_))
        | None =>
            Ok (Some (EventTimeFilter.mk field_name
                        (Batch.event_time_start batch)
                        (Batch.event_time_end batch)))
        end
    | None =>
        match sample with
        | Some s =>
            Ok (Some (EventTimeFilter.mk field_name (Sample.start s) (Sample.end_ s)))
        | None => Ok None
        end
    end
  else Ok None.

(** [resolve_limit] of the base class *)
Definition resolve_limit (self : t) : option Z :=
  if RuntimeConfig.EMPTY (config self) then Some 0 else None.

End BaseResolver.

(** ** Relations, as the calls that build them *)

(** The first argument of [Relation.create_from]: the object whose [quoting]
    is merged into the relation. *)
Inductive QuotingSource : Type :=
| RunQuoting (config : RuntimeConfig.t)
| SourceQuotingBaseConfig.

(** The object a relation is built from. *)
Inductive RelationConfig : Type :=
| OfModel (node : Node.t)
| OfTarget (target : Target.t)
| OfDeferRelation (defer_relation : DeferRelation.t).

Module Relation.
Inductive t : Type :=
| create_from (quoting : QuotingSource) (relation_config : RelationConfig)
              (limit : option Z) (event_time_filter : option EventTimeFilter.t)
| create_ephemeral_from (target : Target.t)
              (limit : option Z) (event_time_filter : option EventTimeFilter.t).

Definition limit (r : t) : option Z :=
  match r with
  | create_from _ _ l _ => l
  | create_ephemeral_from _ l _ => l
  end.

Definition event_time_filter (r : t) : option EventTimeFilter.t :=
  match r with
  | create_from _ _ _ f => f
  | create_ephemeral_from _ _ f => f
  end.
End Relation.

(** ** The [ref] resolvers *)

(** Calls that leave the resolver: manifest lookups, adapter probes and
    [self.model.set_cte]. *)
Inductive Effect : Type :=
| ManifestResolveRef (target_name target_package target_version : PyVal)
| AdapterGetRelation (database : option string) (schema identifier : string)
| ModelSetCte (cte_id : string).

Inductive RefResolverClass : Type :=
| ParseRefResolver
| RuntimeRefResolver
| OperationRefResolver
| RuntimeUnitTestRefResolver.

Module RefResolver.
Import BaseResolver.

(** What a call leaves behind: its result, the requesting node after the
    call, and the effects it performed in order. *)
Record Outcome (A : Type) : Type := mkOutcome
  { result : PyResult A;
    model_after : Node.t;
    effects : list Effect }.
Arguments mkOutcome {A} _ _ _.
Arguments result {A} _.
Arguments model_after {A} _.
Arguments effects {A} _.

Definition current_project (self : BaseResolver.t) : string :=
  RuntimeConfig.project_name (config self).

(** [resolve_limit], overridden by the unit-test resolver *)
Definition resolve_limit (cls : RefResolverClass) (self : BaseResolver.t) : option Z :=
  match cls with
  | RuntimeUnitTestRefResolver => None
  | _ => BaseResolver.resolve_limit self
  end.

Definition _repack_args (name package version : PyVal) : RefArgs.t :=
  RefArgs.mk package name version.

Definition validate_args (name package version : PyVal) : PyResult unit :=
  if negb (isinstance_str name) then
    Raise (CompilationError (RefNameNotStr name))
  else if negb (is_none package) && negb (isinstance_str package) then
    Raise (CompilationError (RefPackageNotStr package))
  else if negb (is_none version) && negb (isinstance_str_int_float version) then
    Raise (CompilationError (RefVersionBadType version))
  else Ok tt.

(** [ParseRefResolver.resolve] *)
Definition parse_resolve (self : BaseResolver.t) (name package version : PyVal)
  : Outcome Relation.t :=
  let m := model self in
  let m' := Node.mk (Node.cls m) (Node.unique_id m) (Node.package_name m)
              (Node.materialized m) (Node.incremental_strategy m) (Node.batch m)
              (Node.depends_on_nodes m)
              (Node.refs m ++ [_repack_args name package version]) in
  mkOutcome (Ok (Relation.create_from (RunQuoting (config self)) (OfModel m') None None))
            m' [].

(** [RuntimeRefResolver.validate], a no-op for operations *)
Definition validate (cls : RefResolverClass) (self : BaseResolver.t)
           (resolved : Target.t) (target_name target_package target_version : PyVal)
  : PyResult unit :=
  match cls with
  | OperationRefResolver => Ok tt
  | _ =>
      if bool_decide (Target.unique_id resolved ∈ Node.depends_on_nodes (model self))
      then Ok tt
      else Raise (RefBadContextError (Node.unique_id (model self))
                    target_name target_package target_version)
  end.

(** [RuntimeRefResolver.create_relation] *)
Definition runtime_create_relation (cls : RefResolverClass) (self : BaseResolver.t)
           (target_model : Target.t) : PyResult Relation.t * list Effect :=
  let limit := resolve_limit cls self in
  if Target.is_ephemeral_model target_model then
    (event_time_filter <- resolve_event_time_filter self target_model ;;
     Ok (Relation.create_ephemeral_from target_model limit event_time_filter),
     [ModelSetCte (Target.unique_id target_model)])
  else
    let probe :=
      AdapterGetRelation (Target.database target_model) (Target.schema target_model)
        (Target.identifier target_model) in
    let exists_ :=
      Adapter.get_relation (adapter self) (Target.database target_model)
        (Target.schema target_model) (Target.identifier target_model) in
    let unselected :=
      RuntimeConfig.favor_state (config self)
      && negb (bool_decide (Target.unique_id target_model ∈ SELECTED_RESOURCES self)) in
    match Target.defer_relation target_model with
    | Some defer_relation =>
        if RuntimeConfig.defer (config self) then
          if unselected then
            (event_time_filter <- resolve_event_time_filter self target_model ;;
             Ok (Relation.create_from (RunQuoting (config self))
                   (OfDeferRelation defer_relation) limit event_time_filter),
             [])
          else if negb exists_ then
            (event_time_filter <- resolve_event_time_filter self target_model ;;
             Ok (Relation.create_from (RunQuoting (config self))
                   (OfDeferRelation defer_relation) limit event_time_filter),
             [probe])
          else
            (event_time_filter <- resolve_event_time_filter self target_model ;;
             Ok (Relation.create_from (RunQuoting (config self))
                   (OfTarget target_model) limit event_time_filter),
             [probe])
        else
          (event_time_filter <- resolve_event_time_filter self target_model ;;
           Ok (Relation.create_from (RunQuoting (config self))
                 (OfTarget target_model) limit event_time_filter),
           [])
    | None =>
        (event_time_filter <- resolve_event_time_filter self target_model ;;
         Ok (Relation.create_from (RunQuoting (config self))
               (OfTarget target_model) limit event_time_filter),
         [])
    end.

(** [create_relation], with the override of [OperationRefResolver] *)
Definition create_relation (cls : RefResolverClass) (self : BaseResolver.t)
           (target_model : Target.t) : PyResult Relation.t * list Effect :=
  match cls with
  | OperationRefResolver =>
      if Target.is_ephemeral_model target_model then
        (Raise (OperationsCannotRefEphemeralNodesError (Target.name target_model)
                  (Node.unique_id (model self))), [])
      else runtime_create_relation cls self target_model
  | _ => runtime_create_relation cls self target_model
  end.

(** [cast_to_str] *)
Definition cast_to_str (s : option string) : string := default "" s.

(** [RuntimeRefResolver.resolve], inherited by the operation and unit-test
    resolvers *)
Definition runtime_resolve (cls : RefResolverClass) (self : BaseResolver.t)
           (target_name target_package target_version : PyVal) : Outcome Relation.t :=
  let m := model self in
  let lookup := ManifestResolveRef target_name target_package target_version in
  let not_found (disabled : bool) :=
    mkOutcome (Raise (TargetNotFoundError (Node.unique_id m) target_name "node"
                        target_package target_version disabled)) m [lookup] in
  match Manifest.resolve_ref (manifest self) m target_name target_package
          target_version (current_project self) (Node.package_name m) with
  | RefAbsent => not_found false
  | RefDisabled _ => not_found true
  | RefFound target_model =>
      if Manifest.is_invalid_private_ref (manifest self) m target_model
           (RuntimeConfig.dependencies (config self)) then
        mkOutcome (Raise (DbtReferenceError (Node.unique_id m)
                            (Target.unique_id target_model) Private
                            (cast_to_str (Target.group target_model)))) m [lookup]
      else if Manifest.is_invalid_protected_ref (manifest self) m target_model
                (RuntimeConfig.dependencies (config self)) then
        mkOutcome (Raise (DbtReferenceError (Node.unique_id m)
                            (Target.unique_id target_model) Protected
                            (Target.package_name target_model))) m [lookup]
      else
        match validate cls self target_model target_name target_package target_version with
        | Raise e => mkOutcome (Raise e) m [lookup]
        | Ok _ =>
            let '(r, effs) := create_relation cls self target_model in
            mkOutcome r m (lookup :: effs)
        end
  end.

Definition resolve (cls : RefResolverClass) (self : BaseResolver.t)
           (name package version : PyVal) : Outcome Relation.t :=
  match cls with
  | ParseRefResolver => parse_resolve self name package version
  | _ => runtime_resolve cls self name package version
  end.

(** [BaseRefResolver.__call__] *)
Definition __call__ (cls : RefResolverClass) (self : BaseResolver.t)
           (args : list PyVal) (kwargs : gmap string PyVal) : Outcome Relation.t :=
  let raise (e : Exn) := mkOutcome (Raise e) (model self) [] in
  let go (name package : PyVal) :=
    let version := py_or (dict_get kwargs "version") (dict_get kwargs "v") in
    match validate_args name package version with
    | Raise e => raise e
    | Ok _ => resolve cls self name package version
    end in
  match args with
  | [name] => go name VNone
  | [package; name] => go name package
  | _ => raise (RefArgsError (Node.unique_id (model self)) args)
  end.

End RefResolver.

(** ** ProviderContext: stored query results *)

Module ProviderContext.

(** [agate.Table] and the two [agate_helper] functions [store_result] uses
    belong to other packages; they are taken as parameters. *)
Record AgateHelper : Type := mkAgateHelper
  { Table : Type;
    Matrix : Type;
    empty_table : Table;
    as_matrix : Table -> Matrix }.

(** The [AttrDict] built by [store_result]. *)
Record AttrDict (h : AgateHelper) : Type := mkAttrDict
  { response : PyVal;
    data : Matrix h;
    table : Table h }.
Arguments mkAttrDict {h} _ _ _.
Arguments response {h} _.
Arguments data {h} _.
Arguments table {h} _.

(** [self.sql_results : Dict[str, Optional[AttrDict]]].  A key mapped to
    [None] is a different state from a key that is not in the map. *)
Abbreviation sql_results h := (gmap string (option (AttrDict h))).

Definition load_result {h : AgateHelper} (name : string) (results : sql_results h)
  : PyResult (option (AttrDict h)) * sql_results h :=
  match results !! name with
  | Some slot =>
      if String.eqb name "main" then
        (Ok slot, results)
      else
        match slot with
        | None => (Raise (MacroResultAlreadyLoadedError name), results)
        | Some ret_val => (Ok (Some ret_val), <[name := None]> results)
        end
  | None => (Ok None, results)
  end.

Definition store_result {h : AgateHelper} (name : string) (response : PyVal)
           (agate_table : option (Table h)) (results : sql_results h)
  : string * sql_results h :=
  let agate_table :=
    match agate_table with
    | None => empty_table h
    | Some t => t
    end in
  ("", <[name := Some (mkAttrDict response (as_matrix h agate_table) agate_table)]> results).

(** The value [store_result] puts under the key. *)
Definition stored_value {h : AgateHelper} (response : PyVal) (agate_table : option (Table h))
  : AttrDict h :=
  let agate_table := default (empty_table h) agate_table in
  mkAttrDict response (as_matrix h agate_table) agate_table.

(** A template's calls on the stored results, for reasoning about what may
    happen between two loads. *)
Inductive ResultCall (h : AgateHelper) : Type :=
| LoadResult (name : string)
| StoreResult (name : string) (response : PyVal) (agate_table : option (Table h)).
Arguments LoadResult {h} _.
Arguments StoreResult {h} _ _ _.

Definition run_call {h : AgateHelper} (c : ResultCall h) (results : sql_results h)
  : sql_results h :=
  match c with
  | LoadResult name => snd (load_result name results)
  | StoreResult name response agate_table =>
      snd (store_result name response agate_table results)
  end.

Definition run_calls {h : AgateHelper} (cs : list (ResultCall h)) (results : sql_results h)
  : sql_results h :=
  fold_left (fun r c => run_call c r) cs results.

Definition stores_to {h : AgateHelper} (key : string) (c : ResultCall h) : bool :=
  match c with
  | StoreResult name _ _ => String.eqb name key
  | LoadResult _ => false
  end.

End ProviderContext.

(** ** BaseDatabaseWrapper: macro dispatch *)

Inductive MacroGenerator : Type := MacroGen (unique_id : string).

(** The three ways [self._namespace.get_from_package] ends: a macro, [None],
    or the [CompilationError] it raises for an unknown package. *)
Inductive NamespaceLookup : Type :=
| LookupMacro (macro : MacroGenerator)
| LookupNone
| LookupCompilationError.

Module BaseDatabaseWrapper.

(** The wrapper with what it reads from its adapter and namespace:
    [adapter_type_names] is [get_adapter_type_names(self._adapter.type())],
    [get_macro_search_order] and [dependencies] are read from
    [self._adapter.config]; [dependencies] holds the keys of that mapping, or
    [None] while the dependencies are not loaded. *)
Record t : Type := mk
  { adapter_type_names : list string;
    project_name : string;
    get_macro_search_order : string -> option (list string);
    dependencies : option (list string);
    get_from_package : option string -> string -> NamespaceLookup }.

Definition _get_adapter_macro_prefixes (self : t) : list string :=
  adapter_type_names self ++ ["default"].

Definition _get_search_packages (self : t) (namespace : PyVal)
  : PyResult (list (option string)) :=
  match namespace with
  | VNone => Ok [None]
  | VStr namespace =>
      match get_macro_search_order self namespace with
      | Some (p :: ps) => Ok (map Some (p :: ps))
      | _ =>
          match dependencies self with
          | Some deps =>
              if bool_decide (namespace ∈ deps)
              then Ok [Some (project_name self); Some namespace]
              else Ok [None]
          | None => Raise (TypeError "argument of type 'NoneType' is not iterable")
          end
      end
  | _ => Raise (CompilationError (DispatchNamespaceType namespace))
  end.

(** ["." in s] *)
Fixpoint contains_dot (s : string) : bool :=
  match s with
  | EmptyString => false
  | String c rest => if Ascii.eqb c "."%char then true else contains_dot rest
  end.

(** [s.split(".", 1)] for a string that contains a dot *)
Fixpoint split_first_dot (s : string) : string * string :=
  match s with
  | EmptyString => (EmptyString, EmptyString)
  | String c rest =>
      if Ascii.eqb c "."%char then (EmptyString, rest)
      else let '(a, b) := split_first_dot rest in (String c a, b)
  end.

(** The entry appended to [attempts] for one lookup. *)
Definition attempt (package_name : option string) (search_name : string) : string :=
  match package_name with
  | None => search_name
  | Some p => p +:+ "." +:+ search_name
  end.

(** The inner loop, over the prefixes, for one package.  The result is the
    macro returned from inside the loop, if any, and [attempts] as the loop
    leaves it. *)
Fixpoint dispatch_prefixes (self : t) (macro_name : string) (package_name : option string)
         (prefixes : list string) (attempts : list string)
  : option MacroGenerator * list string :=
  match prefixes with
  | [] => (None, attempts)
  | prefix :: rest =>
      let search_name := prefix +:+ "__" +:+ macro_name in
      let macro :=
        match get_from_package self package_name search_name with
        | LookupMacro m => Some m
        | LookupNone => None
        | LookupCompilationError => None
        end in
      let attempts := attempts ++ [attempt package_name search_name] in
      match macro with
      | Some m => (Some m, attempts)
      | None => dispatch_prefixes self macro_name package_name rest attempts
      end
  end.

(** The outer loop, over the search packages. *)
Fixpoint dispatch_packages (self : t) (macro_name : string)
         (search_packages : list (option string)) (attempts : list string)
  : option MacroGenerator * list string :=
  match search_packages with
  | [] => (None, attempts)
  | package_name :: rest =>
      match dispatch_prefixes self macro_name package_name
              (_get_adapter_macro_prefixes self) attempts with
      | (Some m, attempts) => (Some m, attempts)
      | (None, attempts) => dispatch_packages self macro_name rest attempts
      end
  end.

Definition dispatch (self : t) (macro_name : string) (macro_namespace : PyVal)
           (packages : option (list string)) : PyResult MacroGenerator :=
  if contains_dot macro_name then
    let '(suggest_macro_namespace, suggest_macro_name) := split_first_dot macro_name in
    Raise (CompilationError
             (DispatchDottedName macro_name suggest_macro_name suggest_macro_namespace))
  else
    match packages with
    | Some _ => Raise (MacroDispatchArgError macro_name)
    | None =>
        search_packages <- _get_search_packages self macro_namespace ;;
        match dispatch_packages self macro_name search_packages [] with
        | (Some macro, _) => Ok macro
        | (None, attempts) =>
            Raise (CompilationError (DispatchNoMacro macro_name macro_namespace attempts))
        end
    end.

End BaseDatabaseWrapper.

(** ** ParseConfigObject: [config(...)] at parse time *)

Module ContextConfig.
(** The calls received by [add_config_call] and
    [add_unrendered_config_call], oldest first. *)
Record t : Type := mk
  { config_calls : list (gmap string PyVal);
    unrendered_config_calls : list (gmap string PyVal) }.

Definition add_config_call (opts : gmap string PyVal) (c : t) : t :=
  mk (config_calls c ++ [opts]) (unrendered_config_calls c).

Definition add_unrendered_config_call (opts : gmap string PyVal) (c : t) : t :=
  mk (config_calls c) (unrendered_config_calls c ++ [opts]).
End ContextConfig.

Module ParseConfigObject.

(** [unrendered_config] stands for
    [statically_parse_unrendered_config(self.model.raw_code)] and
    [state_modified_compare_more_unrendered_values] for the flag of that name
    in [get_flags()]. *)
Record t : Type := mk
  { model : string;
    context_config : option ContextConfig.t;
    state_modified_compare_more_unrendered_values : bool;
    unrendered_config : option (gmap string PyVal) }.

(** [oldkey.replace("_", "-")] *)
Fixpoint replace_underscore (s : string) : string :=
  match s with
  | EmptyString => EmptyString
  | String c rest =>
      String (if Ascii.eqb c "_"%char then "-"%char else c) (replace_underscore rest)
  end.

(** One iteration of the loop of [_transform_config]. *)
Definition transform_key (self : t) (oldkey : string) (config : gmap string PyVal)
  : PyResult (gmap string PyVal) :=
  match config !! oldkey with
  | Some v =>
      let newkey := replace_underscore oldkey in
      match config !! newkey with
      | Some _ => Raise (ConflictingConfigKeysError oldkey newkey (model self))
      | None => Ok (<[newkey := v]> (delete oldkey config))
      end
  | None => Ok config
  end.

Fixpoint transform_keys (self : t) (oldkeys : list string) (config : gmap string PyVal)
  : PyResult (gmap string PyVal) :=
  match oldkeys with
  | [] => Ok config
  | oldkey :: rest =>
      config <- transform_key self oldkey config ;;
      transform_keys self rest config
  end.

Definition _transform_config (self : t) (config : gmap string PyVal)
  : PyResult (gmap string PyVal) :=
  transform_keys self ["pre_hook"; "post_hook"] config.

(** [__call__]: the result and the context config afterwards.  A positional
    argument is a mapping, as in [config({...})]. *)
Definition __call__ (self : t) (args : list (gmap string PyVal))
           (kwargs : gmap string PyVal)
  : PyResult string * option ContextConfig.t :=
  let chosen : PyResult (gmap string PyVal) :=
    match args with
    | [opts] =>
        if bool_decide (size kwargs = 0%nat) then Ok opts
        else Raise (InlineModelConfigError (model self))
    | [] =>
        if bool_decide (size kwargs = 0%nat)
        then Raise (InlineModelConfigError (model self))
        else Ok kwargs
    | _ => Raise (InlineModelConfigError (model self))
    end in
  match (opts <- chosen ;; _transform_config self opts) with
  | Raise e => (Raise e, context_config self)
  | Ok opts =>
      match context_config self with
      | None =>
          (Raise (DbtRuntimeError "At parse time, did not receive a context config"), None)
      | Some cc =>
          let cc :=
            if state_modified_compare_more_unrendered_values self then
              match unrendered_config self with
              | Some u =>
                  if bool_decide (size u = 0%nat) then cc
                  else ContextConfig.add_unrendered_config_call u cc
              | None => cc
              end
            else cc in
          (Ok "", Some (ContextConfig.add_config_call opts cc))
      end
  end.

End ParseConfigObject.

(** ** Specification-level readings and sample inputs *)

(** The first entry of [target.columns] named like the event-time column. *)
Definition event_time_column (target : Target.t) : option ColumnInfo.t :=
  snd <$> find (fun kc : string * ColumnInfo.t =>
                  bool_decide (Some (ColumnInfo.name (snd kc))
                               = TargetConfig.event_time (Target.config target)))
               (Target.columns target).

(** The target's own quoting-policy default for columns, when it has one. *)
Definition target_column_quoting (target : Target.t) : option bool :=
  Target.quoting target ≫= Quoting.column.

(** The quoted spelling of a matching column entry. *)
Definition quoted_name (c : ColumnInfo.t) : string :=
  Column.quoted
    (Column.create (ColumnInfo.name c) (default "" (ColumnInfo.data_type c))).

(** The field name as the specification words it: quoted when the column's
    setting is present and true, else when the target's default is present
    and true, else unquoted. *)
Definition field_name_as_worded (target : Target.t) : option string :=
  match event_time_column target with
  | Some c =>
      if bool_decide (ColumnInfo.quote c = Some true) then Some (quoted_name c)
      else if bool_decide (target_column_quoting target = Some true)
           then Some (quoted_name c)
           else TargetConfig.event_time (Target.config target)
  | None => TargetConfig.event_time (Target.config target)
  end.

(** The same with the column's explicit setting deciding whenever it is
    present, and the target's default consulted only when it is absent. *)
Definition field_name_column_first (target : Target.t) : option string :=
  match event_time_column target with
  | Some c =>
      match ColumnInfo.quote c with
      | Some true => Some (quoted_name c)
      | Some false => TargetConfig.event_time (Target.config target)
      | None =>
          if bool_decide (target_column_quoting target = Some true)
          then Some (quoted_name c)
          else TargetConfig.event_time (Target.config target)
      end
  | None => TargetConfig.event_time (Target.config target)
  end.

(** Every (package, prefixed name) pair in the order of the search:
    packages outermost, prefixes innermost. *)
Definition candidates (self : BaseDatabaseWrapper.t) (macro_name : string)
           (search_packages : list (option string)) : list (option string * string) :=
  flat_map (fun package_name =>
              map (fun prefix => (package_name, prefix +:+ "__" +:+ macro_name))
                  (BaseDatabaseWrapper._get_adapter_macro_prefixes self))
           search_packages.

(** Whether a pair names a macro of the namespace. *)
Definition found (self : BaseDatabaseWrapper.t) (c : option string * string)
  : option MacroGenerator :=
  match BaseDatabaseWrapper.get_from_package self (fst c) (snd c) with
  | LookupMacro m => Some m
  | _ => None
  end.

(** A single scan over a list of pairs, stopping at the first match. *)
Fixpoint scan (self : BaseDatabaseWrapper.t) (cands : list (option string * string))
         (attempts : list string) : option MacroGenerator * list string :=
  match cands with
  | [] => (None, attempts)
  | c :: rest =>
      match found self c with
      | Some m => (Some m, attempts ++ [BaseDatabaseWrapper.attempt (fst c) (snd c)])
      | None => scan self rest (attempts ++ [BaseDatabaseWrapper.attempt (fst c) (snd c)])
      end
  end.

(** Both the underscore spelling [oldkey] and its hyphenated spelling are
    keys of the options. *)
Definition hook_conflict (opts : gmap string PyVal) (oldkey : string) : bool :=
  bool_decide (is_Some (opts !! oldkey))
  && bool_decide (is_Some (opts !! ParseConfigObject.replace_underscore oldkey)).

(** The value of an option after the hook keys are normalized: the
    underscore spellings are gone, each hyphenated spelling holds what was
    given under either spelling, every other key is as given. *)
Definition normalized_lookup (opts : gmap string PyVal) (key : string) : option PyVal :=
  if String.eqb key "pre_hook" || String.eqb key "post_hook" then None
  else if String.eqb key "pre-hook" then
    match opts !! "pre_hook" with Some v => Some v | None => opts !! "pre-hook" end
  else if String.eqb key "post-hook" then
    match opts !! "post_hook" with Some v => Some v | None => opts !! "post-hook" end
  else opts !! key.

(** The two call shapes [config(...)] accepts, with the options they carry. *)
Definition accepted_shape (args : list (gmap string PyVal)) (kwargs opts : gmap string PyVal)
  : Prop :=
  (args = [opts] /\ kwargs = ∅) \/ (args = [] /\ kwargs <> ∅ /\ opts = kwargs).

Module Fixtures.

(** An adapter that finds every relation it is asked for. *)
Definition finding_adapter : Adapter.t :=
  Adapter.mk (fun _ _ _ => true).

(** The four characters of [ts] between double quotes. *)
Definition quoted_ts : string :=
  String (ascii_of_nat 34) ("ts" +:+ String (ascii_of_nat 34) EmptyString).

Definition empty_manifest (batches : bool) : Manifest.t :=
  Manifest.mk (fun _ => batches) (fun _ _ _ _ _ _ => RefAbsent)
    (fun _ _ _ => false) (fun _ _ _ => false).

Definition node (cls : NodeClass) (unique_id : string) (strategy : option string)
           (batch : option Batch.t) : Node.t :=
  Node.mk cls unique_id "proj" "incremental" strategy batch [] [].

Definition run_config (sample : option Sample.t) (empty : bool) : RuntimeConfig.t :=
  RuntimeConfig.mk "proj" [] empty sample false false.

Definition resolver (m : Manifest.t) (n : Node.t) (c : RuntimeConfig.t) : BaseResolver.t :=
  BaseResolver.mk finding_adapter n c m [].

(** A source with event-time column [ts]; [column_quote] is the [quote] of
    its [ts] column entry and [source_quote] the source's [quoting.column]. *)
Definition events (column_quote source_quote : option bool) : Target.t :=
  Target.mk "source.proj.raw.events" "events" "proj" None (Some "db") "raw" "events"
    (TargetConfig.mk SourceConfig (Some "ts"))
    [("id", ColumnInfo.mk "id" (Some "int") None);
     ("ts", ColumnInfo.mk "ts" None column_quote)]
    (Some (Quoting.mk source_quote)) false None.

(** A generic test node: its configuration is a test configuration, which
    is none of the three classes of the guard and declares no
    [event_time]. *)
Definition not_null_test : Target.t :=
  Target.mk "test.proj.not_null_events_id" "not_null_events_id" "proj" None
    (Some "db") "main_dbt_test__audit" "not_null_events_id"
    (TargetConfig.mk OtherConfig None) [] None false None.

(** An adapter that finds none of the relations it is asked for. *)
Definition missing_adapter : Adapter.t :=
  Adapter.mk (fun _ _ _ => false).

(** The counterpart of [orders] in the deferred-to state. *)
Definition prod_orders : DeferRelation.t :=
  DeferRelation.mk (Some "prod") "main" "orders".

(** A model with a deferred counterpart and no event-time configuration. *)
Definition orders : Target.t :=
  Target.mk "model.proj.orders" "orders" "proj" None (Some "db") "main" "orders"
    (TargetConfig.mk NodeConfig None) [] None false (Some prod_orders).

(** An ephemeral model with a deferred counterpart. *)
Definition eph : Target.t :=
  Target.mk "model.proj.eph" "eph" "proj" None (Some "db") "main" "eph"
    (TargetConfig.mk NodeConfig None) [] None true (Some prod_orders).

(** A run with [--defer], with or without [--favor-state]. *)
Definition deferring_config (favor_state : bool) : RuntimeConfig.t :=
  RuntimeConfig.mk "proj" [] false None true favor_state.

(** A model of a deferring run that depends on [target], which every
    reference resolves to; [selected] are the selected resources. *)
Definition deferring_resolver (a : Adapter.t) (selected : list string)
           (target : Target.t) (favor_state : bool) : BaseResolver.t :=
  BaseResolver.mk a
    (Node.mk ModelNode "model.proj.requester" "proj" "view" None None
       [Target.unique_id target] [])
    (deferring_config favor_state)
    (Manifest.mk (fun _ => true) (fun _ _ _ _ _ _ => RefFound target)
       (fun _ _ _ => false) (fun _ _ _ => false))
    selected.

(** A model without any event-time configuration. *)
Definition plain_model : Target.t :=
  Target.mk "model.proj.plain" "plain" "proj" None (Some "db") "main" "plain"
    (TargetConfig.mk NodeConfig None) [] None false None.

(** A resolver whose manifest resolves every reference to [target] and whose
    requester declares it as a dependency. *)
Definition resolver_for (target : Target.t) (cls : NodeClass) (c : RuntimeConfig.t)
  : BaseResolver.t :=
  BaseResolver.mk finding_adapter
    (Node.mk cls "model.proj.requester" "proj" "view" None None
       [Target.unique_id target] [])
    c
    (Manifest.mk (fun _ => true) (fun _ _ _ _ _ _ => RefFound target)
       (fun _ _ _ => false) (fun _ _ _ => false))
    [].

(** Tables as lists of rows, for running the stored-result calls. *)
Definition rows_helper : ProviderContext.AgateHelper :=
  ProviderContext.mkAgateHelper (list (list PyVal)) (list (list PyVal)) [] (fun t => t).

(** A postgres wrapper in project [proj] with dependency [utils]; the only
    macros are [default__some_macro] in the unqualified namespace and
    [postgres__other] in package [utils]. *)
Definition postgres_wrapper : BaseDatabaseWrapper.t :=
  BaseDatabaseWrapper.mk ["postgres"] "proj" (fun _ => None) (Some ["utils"])
    (fun package_name search_name =>
       match package_name with
       | None =>
           if String.eqb search_name "default__some_macro"
           then LookupMacro (MacroGen "macro.dbt.default__some_macro") else LookupNone
       | Some p =>
           if String.eqb p "utils" then
             if String.eqb search_name "postgres__other"
             then LookupMacro (MacroGen "macro.utils.postgres__other") else LookupNone
           else LookupCompilationError
       end).

End Fixtures.

(** ** Further members of the file *)

(** A wrapper whose namespace answers [None] where the given one raises the
    compilation error for an unknown package. *)
Definition quiet_namespace (self : BaseDatabaseWrapper.t) : BaseDatabaseWrapper.t :=
  BaseDatabaseWrapper.mk
    (BaseDatabaseWrapper.adapter_type_names self)
    (BaseDatabaseWrapper.project_name self)
    (BaseDatabaseWrapper.get_macro_search_order self)
    (BaseDatabaseWrapper.dependencies self)
    (fun package_name search_name =>
       match BaseDatabaseWrapper.get_from_package self package_name search_name with
       | LookupCompilationError => LookupNone
       | answer => answer
       end).

(** The other members of [ParseConfigObject]. *)
Module ParseConfigMembers.

(** [set(name, value)]: [self.__call__({name: value})] *)
Definition set (self : ParseConfigObject.t) (name : string) (value : PyVal)
  : PyResult string * option ContextConfig.t :=
  ParseConfigObject.__call__ self [{[ name := value ]}] ∅.

End ParseConfigMembers.

(** A configuration value: a mapping, as [persist_docs] should be, or
    anything else. *)
Inductive ConfigVal : Type :=
| CScalar (v : PyVal)
| CDict (d : gmap string PyVal).

(** Exceptions raised by the members below: those that [Exn] lists, under
    [Earlier], and the others.  A keyword argument of [TargetNotFound] that
    the call site does not pass is [None]. *)
Inductive MemberExn : Type :=
| NumberSourceArgsError (args : list PyVal) (node : string)
| MetricArgsError (node : string) (args : list PyVal)
| Earlier (e : Exn)
| SourceNameNotStr (source_name : PyVal)
| SourceTableNotStr (table_name : PyVal)
| MetricNameNotStr (name : PyVal)
| MetricPackageNotStr (package : PyVal)
| TargetNotFound (node : string) (target_name : string) (target_kind : string)
                 (target_package : option PyVal) (disabled : option bool)
| ParsingError (original_file_path : string)
| MissingConfigError (unique_id name : string)
| PersistDocsValueTypeError (persist_docs : ConfigVal)
| DbtValidationError (msg : string)
| SecretEnvVarLocationError (var : string)
| EnvVarMissingError (var : string)
| AttributeError (class_name attribute : string).

Inductive Res (A : Type) : Type :=
| Returns (a : A)
| Raises (e : MemberExn).
Arguments Returns {A} a.
Arguments Raises {A} e.

(** ** RuntimeConfigObject: [config] at execution time *)

Module RuntimeConfigObject.

(** [config] is [None] for a model without a [config] attribute (a macro);
    otherwise it answers [self.model.config.get(name, default)] as a
    mapping. *)
Record t : Type := mk
  { unique_id : string;
    config : option (gmap string ConfigVal) }.

(** The [default] parameter of [_lookup]: the sentinel [_MISSING] or a
    value. *)
Inductive Default : Type :=
| _MISSING
| Given (v : ConfigVal).

(** A validator either accepts the value or raises. *)
Definition Validator : Type := ConfigVal -> option MemberExn.

Definition __call__ (self : t) (args : list (gmap string PyVal))
           (kwargs : gmap string PyVal) : string := "".

Definition set (self : t) (name : string) (value : PyVal) : string :=
  __call__ self [{[ name := value ]}] ∅.

Definition _validate (validator : Validator) (value : ConfigVal) : Res unit :=
  match validator value with
  | Some e => Raises e
  | None => Returns tt
  end.

Definition _lookup (self : t) (name : string) (default : Default) : Res ConfigVal :=
  let result :=
    match config self with
    | None => default
    | Some c =>
        match c !! name with
        | Some v => Given v
        | None => default
        end
    end in
  match result with
  | _MISSING => Raises (MissingConfigError (unique_id self) name)
  | Given v => Returns v
  end.

Definition require (self : t) (name : string) (validator : option Validator)
  : Res ConfigVal :=
  match _lookup self name _MISSING with
  | Raises e => Raises e
  | Returns to_return =>
      match validator with
      | Some validator =>
          match _validate validator to_return with
          | Raises e => Raises e
          | Returns _ => Returns to_return
          end
      | None => Returns to_return
      end
  end.

(** [default is not None] *)
Definition default_is_not_none (default : ConfigVal) : bool :=
  match default with
  | CScalar VNone => false
  | _ => true
  end.

Definition get (self : t) (name : string) (default : ConfigVal)
           (validator : option Validator) : Res ConfigVal :=
  match _lookup self name (Given default) with
  | Raises e => Raises e
  | Returns to_return =>
      match validator with
      | Some validator =>
          if default_is_not_none default then
            match _validate validator to_return with
            | Raises e => Raises e
            | Returns _ => Returns to_return
            end
          else Returns to_return
      | None => Returns to_return
      end
  end.

(** The shared body of [persist_relation_docs] and [persist_column_docs]. *)
Definition persist_docs_flag (self : t) (key : string) : Res PyVal :=
  match get self "persist_docs" (CDict ∅) None with
  | Raises e => Raises e
  | Returns persist_docs =>
      match persist_docs with
      | CDict d => Returns (default (VBool false) (d !! key))
      | CScalar _ => Raises (PersistDocsValueTypeError persist_docs)
      end
  end.

Definition persist_relation_docs (self : t) : Res PyVal :=
  persist_docs_flag self "relation".

Definition persist_column_docs (self : t) : Res PyVal :=
  persist_docs_flag self "columns".

End RuntimeConfigObject.

(** ** The [source] resolvers *)

Inductive SourceResolverClass : Type :=
| ParseSourceResolver
| RuntimeSourceResolver
| RuntimeUnitTestSourceResolver.

(** Calls that leave a [source] or [metric] resolver. *)
Inductive LookupEffect : Type :=
| ManifestResolveSource (source_name table_name : string)
| ManifestResolveMetric (target_name : string) (target_package : PyVal)
| SetCte (cte_id : string).

Module SourceResolver.

(** A source resolver: the resolver base, [manifest.resolve_source] and the
    requesting node's [sources] list. *)
Record t : Type := mk
  { base : BaseResolver.t;
    resolve_source : string -> string -> string -> string -> ResolveRef;
    sources : list (list PyVal) }.

Record Outcome : Type := mkOutcome
  { result : Res Relation.t;
    sources_after : list (list PyVal);
    effects : list LookupEffect }.

Definition node (self : t) : string := Node.unique_id (BaseResolver.model (base self)).

Definition validate_args (source_name table_name : PyVal) : Res unit :=
  if negb (isinstance_str source_name) then Raises (SourceNameNotStr source_name)
  else if negb (isinstance_str table_name) then Raises (SourceTableNotStr table_name)
  else Returns tt.

(** [ParseSourceResolver.resolve] *)
Definition parse_resolve (self : t) (source_name table_name : string) : Outcome :=
  mkOutcome
    (Returns (Relation.create_from (RunQuoting (BaseResolver.config (base self)))
                (OfModel (BaseResolver.model (base self))) None None))
    (sources self ++ [[VStr source_name; VStr table_name]])
    [].

(** The lookup both runtime resolvers start with, and the error they raise
    when it finds nothing usable. *)
Definition lookup (self : t) (source_name table_name : string) : ResolveRef :=
  resolve_source self source_name table_name
    (RuntimeConfig.project_name (BaseResolver.config (base self)))
    (Node.package_name (BaseResolver.model (base self))).

Definition not_found (self : t) (source_name table_name : string) (disabled : bool)
  : Outcome :=
  mkOutcome
    (Raises (TargetNotFound (node self) (source_name +:+ "." +:+ table_name) "source"
               None (Some disabled)))
    (sources self)
    [ManifestResolveSource source_name table_name].

(** [RuntimeSourceResolver.resolve] *)
Definition runtime_resolve (self : t) (source_name table_name : string) : Outcome :=
  match lookup self source_name table_name with
  | RefAbsent => not_found self source_name table_name false
  | RefDisabled _ => not_found self source_name table_name true
  | RefFound target_source =>
      mkOutcome
        (match BaseResolver.resolve_event_time_filter (base self) target_source with
         | Ok event_time_filter =>
             Returns (Relation.create_from SourceQuotingBaseConfig (OfTarget target_source)
                        (BaseResolver.resolve_limit (base self)) event_time_filter)
         | Raise e => Raises (Earlier e)
         end)
        (sources self)
        [ManifestResolveSource source_name table_name]
  end.

(** [RuntimeUnitTestSourceResolver.resolve] *)
Definition unit_test_resolve (self : t) (source_name table_name : string) : Outcome :=
  match lookup self source_name table_name with
  | RefAbsent => not_found self source_name table_name false
  | RefDisabled _ => not_found self source_name table_name true
  | RefFound target_source =>
      mkOutcome
        (Returns (Relation.create_ephemeral_from target_source None None))
        (sources self)
        [ManifestResolveSource source_name table_name;
         SetCte (Target.unique_id target_source)]
  end.

Definition resolve (cls : SourceResolverClass) (self : t) (source_name table_name : string)
  : Outcome :=
  match cls with
  | ParseSourceResolver => parse_resolve self source_name table_name
  | RuntimeSourceResolver => runtime_resolve self source_name table_name
  | RuntimeUnitTestSourceResolver => unit_test_resolve self source_name table_name
  end.

(** [BaseSourceResolver.__call__] *)
Definition __call__ (cls : SourceResolverClass) (self : t) (args : list PyVal) : Outcome :=
  let raise (e : MemberExn) := mkOutcome (Raises e) (sources self) [] in
  match args with
  | [a0; a1] =>
      match validate_args a0 a1 with
      | Raises e => raise e
      | Returns _ =>
          match a0, a1 with
          | VStr source_name, VStr table_name => resolve cls self source_name table_name
          | _, _ => raise (SourceNameNotStr a0)
          end
      end
  | _ => raise (NumberSourceArgsError args (node self))
  end.

End SourceResolver.

(** ** The [metric] resolvers *)

Module Metric.
Record t : Type := mk
  { unique_id : string;
    name : string;
    package_name : string }.
End Metric.

Inductive ResolveMetric : Type :=
| MetricAbsent
| MetricDisabled (target : Metric.t)
| MetricFound (target : Metric.t).

(** What [metric(...)] returns. *)
Inductive MetricHandle : Type :=
| MetricReference (name : string) (package : PyVal)
| ResolvedMetricReference (target : Metric.t).

Inductive MetricResolverClass : Type :=
| ParseMetricResolver
| RuntimeMetricResolver.

Module MetricResolver.

Record t : Type := mk
  { base : BaseResolver.t;
    resolve_metric : string -> PyVal -> string -> string -> ResolveMetric;
    metrics : list (list PyVal) }.

Record Outcome : Type := mkOutcome
  { result : Res MetricHandle;
    metrics_after : list (list PyVal);
    effects : list LookupEffect }.

Definition node (self : t) : string := Node.unique_id (BaseResolver.model (base self)).

Definition _repack_args (name : string) (package : PyVal) : list PyVal :=
  if is_none package then [VStr name] else [package; VStr name].

Definition validate_args (name package : PyVal) : Res unit :=
  if negb (isinstance_str name) then Raises (MetricNameNotStr name)
  else if negb (is_none package) && negb (isinstance_str package)
       then Raises (MetricPackageNotStr package)
       else Returns tt.

(** [ParseMetricResolver.resolve] *)
Definition parse_resolve (self : t) (name : string) (package : PyVal) : Outcome :=
  mkOutcome (Returns (MetricReference name package))
    (metrics self ++ [_repack_args name package]) [].

(** [RuntimeMetricResolver.resolve] *)
Definition runtime_resolve (self : t) (target_name : string) (target_package : PyVal)
  : Outcome :=
  let effs := [ManifestResolveMetric target_name target_package] in
  let not_found :=
    mkOutcome (Raises (TargetNotFound (node self) target_name "metric"
                         (Some target_package) None))
      (metrics self) effs in
  match resolve_metric self target_name target_package
          (RuntimeConfig.project_name (BaseResolver.config (base self)))
          (Node.package_name (BaseResolver.model (base self))) with
  | MetricAbsent => not_found
  | MetricDisabled _ => not_found
  | MetricFound target_metric =>
      mkOutcome (Returns (ResolvedMetricReference target_metric)) (metrics self) effs
  end.

Definition resolve (cls : MetricResolverClass) (self : t) (name : string) (package : PyVal)
  : Outcome :=
  match cls with
  | ParseMetricResolver => parse_resolve self name package
  | RuntimeMetricResolver => runtime_resolve self name package
  end.

(** [BaseMetricResolver.__call__] *)
Definition __call__ (cls : MetricResolverClass) (self : t) (args : list PyVal) : Outcome :=
  let raise (e : MemberExn) := mkOutcome (Raises e) (metrics self) [] in
  let go (name package : PyVal) :=
    match validate_args name package with
    | Raises e => raise e
    | Returns _ =>
        match name with
        | VStr name => resolve cls self name package
        | _ => raise (MetricNameNotStr name)
        end
    end in
  match args with
  | [name] => go name VNone
  | [package; name] => go name package
  | _ => raise (MetricArgsError (node self) args)
  end.

End MetricResolver.

(** ** The resolvers of exposures and semantic models *)

Module ExposureResolvers.

(** The lists of the exposure, or semantic model, that the calls extend. *)
Record t : Type := mk
  { node : string;
    original_file_path : string;
    refs : list RefArgs.t;
    sources : list (list PyVal);
    metrics : list (list PyVal) }.

Definition version_of (kwargs : gmap string PyVal) : PyVal :=
  py_or (dict_get kwargs "version") (dict_get kwargs "v").

Definition append_ref (self : t) (package name version : PyVal) : t :=
  mk (node self) (original_file_path self)
     (refs self ++ [RefArgs.mk package name version]) (sources self) (metrics self).

(** [ExposureRefResolver.__call__] *)
Definition ref (self : t) (args : list PyVal) (kwargs : gmap string PyVal)
  : Res string * t :=
  match args with
  | [name] => (Returns "", append_ref self VNone name (version_of kwargs))
  | [package; name] => (Returns "", append_ref self package name (version_of kwargs))
  | _ => (Raises (Earlier (RefArgsError (node self) args)), self)
  end.

(** [ExposureSourceResolver.__call__] *)
Definition source (self : t) (args : list PyVal) : Res string * t :=
  if bool_decide (length args = 2%nat) then
    (Returns "",
     mk (node self) (original_file_path self) (refs self) (sources self ++ [args])
        (metrics self))
  else (Raises (NumberSourceArgsError args (node self)), self).

(** [ExposureMetricResolver.__call__] *)
Definition metric (self : t) (args : list PyVal) : Res string * t :=
  if bool_decide (length args = 1%nat) || bool_decide (length args = 2%nat) then
    (Returns "",
     mk (node self) (original_file_path self) (refs self) (sources self)
        (metrics self ++ [args]))
  else (Raises (MetricArgsError (node self) args), self).

(** [SemanticModelRefResolver.__call__], with its [validate_args] *)
Definition semantic_model_ref (self : t) (args : list PyVal) (kwargs : gmap string PyVal)
  : Res string * t :=
  let go (package name : PyVal) :=
    if negb (isinstance_str name)
    then (Raises (ParsingError (original_file_path self)), self)
    else (Returns "", append_ref self package name (version_of kwargs)) in
  match args with
  | [name] => go VNone name
  | [package; name] => go package name
  | _ => (Raises (Earlier (RefArgsError (node self) args)), self)
  end.

End ExposureResolvers.

(** ** ProviderContext: [env_var] *)

Module EnvVar.

Module SourceFile.
Record t : Type := mk
  { parse_file_type : string;
    env_vars : list string }.
End SourceFile.

(** The parts of the manifest [env_var] writes to. *)
Module ManifestEnv.
Record t : Type := mk
  { env_vars : gmap string string;
    files : gmap string SourceFile.t }.
End ManifestEnv.

(** What [env_var] reads: the two constants it imports, the invocation's
    environment, whether the rendered node is already compiled
    ([getattr(self.model, "compiled", False) is True]) and the node's
    [file_id].  The node itself is an object and so always truthy. *)
Record t : Type := mk
  { SECRET_ENV_PREFIX : string;
    DEFAULT_ENV_PLACEHOLDER : string;
    env : gmap string string;
    compiled : bool;
    file_id : option string }.

(** The bookkeeping done for a value that is about to be returned. *)
Definition record_use (self : t) (var return_value : string) (manifest : ManifestEnv.t)
  : ManifestEnv.t :=
  if compiled self then manifest
  else
    let recorded :=
      match env self !! var with
      | Some _ => return_value
      | None => DEFAULT_ENV_PLACEHOLDER self
      end in
    let env_vars := <[var := recorded]> (ManifestEnv.env_vars manifest) in
    let files :=
      match file_id self with
      | Some fid =>
          match ManifestEnv.files manifest !! fid with
          | Some source_file =>
              if negb (String.eqb (SourceFile.parse_file_type source_file) "schema") then
                <[fid := SourceFile.mk (SourceFile.parse_file_type source_file)
                           (SourceFile.env_vars source_file ++ [var])]>
                  (ManifestEnv.files manifest)
              else ManifestEnv.files manifest
          | None => ManifestEnv.files manifest
          end
      | None => ManifestEnv.files manifest
      end in
    ManifestEnv.mk env_vars files.

(** [ProviderContext.env_var] *)
Definition env_var (self : t) (var : string) (default : option string)
           (manifest : ManifestEnv.t) : Res string * ManifestEnv.t :=
  if String.prefix (SECRET_ENV_PREFIX self) var then
    (Raises (SecretEnvVarLocationError var), manifest)
  else
    let return_value :=
      match env self !! var with
      | Some value => Some value
      | None => default
      end in
    match return_value with
    | Some return_value => (Returns return_value, record_use self var return_value manifest)
    | None => (Raises (EnvVarMissingError var), manifest)
    end.

(** [UnitTestContext.env_var]; [overrides] is [None] when the unit test has
    no overrides, else its [overrides.env_vars]. *)
Definition unit_test_env_var (overrides : option (gmap string string)) (self : t)
           (var : string) (default : option string) (manifest : ManifestEnv.t)
  : Res string * ManifestEnv.t :=
  match overrides with
  | Some env_vars =>
      match env_vars !! var with
      | Some value => (Returns value, manifest)
      | None => env_var self var default manifest
      end
  | None => env_var self var default manifest
  end.

End EnvVar.

(** ** The database wrappers: attribute access *)

Inductive DatabaseWrapperClass : Type :=
| ParseDatabaseWrapper
| RuntimeDatabaseWrapper.

Module DatabaseWrapper.

(** The adapter as attribute access sees it: the names it marks available,
    its parse-time replacements and its own attributes. *)
Record Adapter : Type := mkAdapter
  { Attr : Type;
    _available_ : list string;
    _parse_replacements_ : gmap string Attr;
    getattr : string -> Attr }.

Definition class_name (cls : DatabaseWrapperClass) : string :=
  match cls with
  | ParseDatabaseWrapper => "ParseDatabaseWrapper"
  | RuntimeDatabaseWrapper => "RuntimeDatabaseWrapper"
  end.


End DatabaseWrapper.

(** The key a stored-result call names. *)
Definition result_call_name {h : ProviderContext.AgateHelper}
           (c : ProviderContext.ResultCall h) : string :=
  match c with
  | ProviderContext.LoadResult name => name
  | ProviderContext.StoreResult name _ _ => name
  end.

(** The key under which [config.set] ends up recording a value. *)
Definition recorded_config_key (name : string) : string :=
  if String.eqb name "pre_hook" || String.eqb name "post_hook"
  then ParseConfigObject.replace_underscore name
  else name.

(** ** TestContext: the macros of a test's namespace *)

Module TestContext.

Module Macro.
Record t : Type := mk
  { unique_id : string;
    depends_on_macros : list string }.
End Macro.

Module MacroResolver.
Record t : Type := mk
  { macros_by_name : gmap string Macro.t;
    macros : gmap string Macro.t }.
End MacroResolver.

(** The loop over [lookup_macros]: [depends_on_macros] grows while the
    copy taken before the loop is traversed. *)
Fixpoint extend_with_dependencies (macro_resolver : MacroResolver.t)
         (lookup_macros depends_on_macros : list string) : list string :=
  match lookup_macros with
  | [] => depends_on_macros
  | macro_unique_id :: rest =>
      match MacroResolver.macros macro_resolver !! macro_unique_id with
      | Some lookup_macro =>
          extend_with_dependencies macro_resolver rest
            (depends_on_macros ++ Macro.depends_on_macros lookup_macro)
      | None => extend_with_dependencies macro_resolver rest depends_on_macros
      end
  end.

(** The list [_build_test_namespace] hands to the test macro namespace.
    [model_macros] is [self.model.depends_on.macros], or [None] when the
    node has no [depends_on]. *)
Definition _build_test_namespace (macro_resolver : MacroResolver.t)
           (model_macros : option (list string)) : list string :=
  let depends_on_macros :=
    match MacroResolver.macros_by_name macro_resolver !! "get_where_subquery" with
    | Some get_where_subquery => [Macro.unique_id get_where_subquery]
    | None => []
    end in
  let depends_on_macros :=
    match model_macros with
    | Some (m :: ms) => depends_on_macros ++ m :: ms
    | _ => depends_on_macros
    end in
  extend_with_dependencies macro_resolver depends_on_macros depends_on_macros.

End TestContext.

(** * Theorems *)

(** ** Event-time field name *)

Section EventTimeFieldName.
Import BaseResolver.

Lemma scan_columns_find (tq : option Quoting.t) (event_time : option string)
      (columns : list (string * ColumnInfo.t)) :
  scan_columns tq event_time columns =
  match find (fun kc : string * ColumnInfo.t =>
                bool_decide (Some (ColumnInfo.name (snd kc)) = event_time)) columns with
  | Some (_, c) =>
      (match ColumnInfo.quote c with
       | Some q => q
       | None => default false (tq ≫= Quoting.column)
       end,
       Some (Column.create (ColumnInfo.name c) (default "" (ColumnInfo.data_type c))))
  | None => (false, None)
  end.
Proof.
  induction columns as [|[key c] rest IH]; simpl; [reflexivity|].
  destruct (decide (Some (ColumnInfo.name c) = event_time)) as [Heq|Hne].
  - rewrite bool_decide_eq_true_2 by exact Heq.
    assert (Hd : (match ColumnInfo.data_type c with
                  | Some d => if String.eqb d "" then "" else d
                  | None => ""
                  end) = default "" (ColumnInfo.data_type c)).
    { destruct (ColumnInfo.data_type c) as [d|]; simpl; [|reflexivity].
      destruct (String.eqb_spec d ""); congruence. }
    rewrite Hd.
    destruct (ColumnInfo.quote c) as [q|]; [reflexivity|].
    destruct tq as [t|]; simpl; [|reflexivity].
    destruct (Quoting.column t); reflexivity.
  - rewrite bool_decide_eq_false_2 by exact Hne. exact IH.
Qed.

(** Whenever the scan decides to quote, [column] has been bound. *)
Lemma scan_columns_bound (tq : option Quoting.t) (event_time : option string)
      (columns : list (string * ColumnInfo.t)) :
  fst (scan_columns tq event_time columns) = true ->
  is_Some (snd (scan_columns tq event_time columns)).
Proof.
  rewrite scan_columns_find.
  destruct (find _ columns) as [[key c]|]; simpl; [eauto|discriminate].
Qed.

(** On a config that declares [event_time] the field-name derivation does
    not raise: [column.quoted] is only read after [column] was assigned. *)
Lemma resolve_event_time_field_name_total (self : BaseResolver.t) (target : Target.t) :
  has_event_time_config target = true ->
  exists field_name, _resolve_event_time_field_name self target = Ok field_name.
Proof.
  intros Hcfg. unfold _resolve_event_time_field_name, config_event_time.
  rewrite Hcfg. simpl.
  pose proof (scan_columns_bound (Target.quoting target)
                (TargetConfig.event_time (Target.config target))
                (Target.columns target)) as Hb.
  destruct (scan_columns _ _ _) as [should_quote column]; simpl in Hb.
  destruct should_quote; [|eauto].
  destruct (Hb eq_refl) as [c ->]. eauto.
Qed.

(** On a config that does not declare [event_time] the derivation raises
    at its first read of the attribute. *)
Lemma resolve_event_time_field_name_no_attribute
      (self : BaseResolver.t) (target : Target.t) :
  has_event_time_config target = false ->
  _resolve_event_time_field_name self target
  = Raise (ConfigAttributeError "event_time").
Proof.
  intros Hcfg. unfold _resolve_event_time_field_name, config_event_time.
  rewrite Hcfg. reflexivity.
Qed.

(** C1 (as amended): for every target whose configuration carries the
    event-time setting, the event-time field name is taken
    from the first declared column named like the configured event-time
    column.  If there is one, the name is quoted when that column's explicit
    quote setting is present and true, unquoted when it is present and false,
    and, when it is absent, quoted exactly when the target's own
    quoting-policy default for columns is present and true.  If there is no
    such column, the raw configured field name is returned unquoted. *)
Theorem resolve_event_time_field_name_column_first
        (self : BaseResolver.t) (target : Target.t) :
  has_event_time_config target = true ->
  _resolve_event_time_field_name self target = Ok (field_name_column_first target).
Proof.
  intros Hcfg.
  unfold _resolve_event_time_field_name, config_event_time, field_name_column_first,
    event_time_column, quoted_name, target_column_quoting.
  rewrite Hcfg. simpl.
  rewrite scan_columns_find.
  destruct (find _ (Target.columns target)) as [[key c]|]; simpl; [|reflexivity].
  destruct (ColumnInfo.quote c) as [[|]|]; try reflexivity.
  destruct (Target.quoting target ≫= Quoting.column) as [[|]|]; reflexivity.
Qed.

Lemma resolve_event_time_field_name_column_first_witness :
  let self := Fixtures.resolver (Fixtures.empty_manifest false)
                (Fixtures.node ModelNode "model.proj.m" None None)
                (Fixtures.run_config None false) in
  _resolve_event_time_field_name self (Fixtures.events None (Some true))
  = Ok (Some Fixtures.quoted_ts)
  /\ _resolve_event_time_field_name self (Fixtures.events (Some false) (Some true))
     = Ok (Some "ts")
  /\ _resolve_event_time_field_name self Fixtures.plain_model = Ok None.
Proof.
  intros self. split; [|split].
  - exact (resolve_event_time_field_name_column_first self
             (Fixtures.events None (Some true)) eq_refl).
  - exact (resolve_event_time_field_name_column_first self
             (Fixtures.events (Some false) (Some true)) eq_refl).
  - exact (resolve_event_time_field_name_column_first self Fixtures.plain_model eq_refl).
Defined.

(** C1 (counterexample to the wording): a source whose [ts] column sets
    [quote: false] while the source's column quoting default is true.  The
    wording falls through to the default and quotes the name; the code keeps
    the column's explicit setting and returns the raw name. *)
Lemma resolve_event_time_field_name_not_as_worded :
  let self := Fixtures.resolver (Fixtures.empty_manifest false)
                (Fixtures.node ModelNode "model.proj.m" None None)
                (Fixtures.run_config None false) in
  let target := Fixtures.events (Some false) (Some true) in
  has_event_time_config target = true
  /\ field_name_as_worded target = Some Fixtures.quoted_ts
  /\ _resolve_event_time_field_name self target = Ok (Some "ts")
  /\ _resolve_event_time_field_name self target <> Ok (field_name_as_worded target).
Proof.
  vm_compute. repeat split; try reflexivity. discriminate.
Qed.

End EventTimeFieldName.

(** ** Event-time filter *)

Section EventTimeFilter.
Import BaseResolver.

(** On a config without the attribute the filter resolution raises on its
    second statement, before the guard is evaluated. *)
Lemma resolve_event_time_filter_no_attribute (self : BaseResolver.t) (target : Target.t) :
  has_event_time_config target = false ->
  resolve_event_time_filter self target = Raise (ConfigAttributeError "event_time").
Proof.
  intros Hcfg. unfold resolve_event_time_filter.
  rewrite (resolve_event_time_field_name_no_attribute self target Hcfg). reflexivity.
Qed.

(** A filter is only ever produced under the guard of
    [resolve_event_time_filter]. *)
Lemma resolve_event_time_filter_guard (self : BaseResolver.t) (target : Target.t)
      (f : EventTimeFilter.t) :
  resolve_event_time_filter self target = Ok (Some f) ->
  has_event_time_config target = true
  /\ event_time_truthy target = true
  /\ is_model_or_snapshot (model self) = true.
Proof.
  destruct (has_event_time_config target) eqn:Hcfg.
  - unfold resolve_event_time_filter.
    destruct (resolve_event_time_field_name_total self target Hcfg) as [fn ->]; simpl.
    rewrite Hcfg.
    destruct (event_time_truthy target), (is_model_or_snapshot (model self));
      simpl; try discriminate; auto.
  - rewrite (resolve_event_time_filter_no_attribute self target Hcfg). discriminate.
Qed.

(** On a config that declares [event_time], off the guard there is no
    filter, and nothing is raised on the way. *)
Lemma resolve_event_time_filter_off_guard (self : BaseResolver.t) (target : Target.t) :
  has_event_time_config target = true ->
  event_time_truthy target && is_model_or_snapshot (model self) = false ->
  resolve_event_time_filter self target = Ok None.
Proof.
  intros Hcfg Hguard. unfold resolve_event_time_filter.
  destruct (resolve_event_time_field_name_total self target Hcfg) as [fn ->]; simpl.
  rewrite Hcfg. simpl. rewrite Hguard. reflexivity.
Qed.

(** C2 (where the code diverges): on a target whose configuration does not
    declare [event_time] -- a target without an event-time column, for
    which [None] is expected and no error -- the resolution raises the
    attribute error of the read in [_resolve_event_time_field_name], which
    runs before the [isinstance] guard, whatever the requester.  On a
    target whose configuration is a node, seed or source configuration
    [None] is returned, and nothing raised, unless the event-time column is
    set and the requester is a model or a snapshot; in particular when no
    event-time column is set. *)
Theorem resolve_event_time_filter_reads_event_time_before_guard
        (self : BaseResolver.t) (target : Target.t) :
  (has_event_time_config target = false ->
   resolve_event_time_filter self target = Raise (ConfigAttributeError "event_time")
   /\ resolve_event_time_filter self target <> Ok None)
  /\ (has_event_time_config target = true ->
      (~ (event_time_truthy target = true /\ is_model_or_snapshot (model self) = true) ->
       resolve_event_time_filter self target = Ok None)
      /\ (TargetConfig.event_time (Target.config target) = None ->
          resolve_event_time_filter self target = Ok None)).
Proof.
  split.
  - intros Hcfg.
    rewrite (resolve_event_time_filter_no_attribute self target Hcfg).
    split; [reflexivity|discriminate].
  - intros Hcfg. split.
    + intros Hno. apply resolve_event_time_filter_off_guard; [exact Hcfg|].
      destruct (event_time_truthy target) eqn:Het,
               (is_model_or_snapshot (model self)) eqn:Hms; try reflexivity.
      exfalso. apply Hno. split; reflexivity.
    + intros Hnone. apply resolve_event_time_filter_off_guard; [exact Hcfg|].
      unfold event_time_truthy. rewrite Hnone. reflexivity.
Qed.

Lemma resolve_event_time_filter_reads_event_time_before_guard_witness :
  let seed_requester :=
    Fixtures.resolver (Fixtures.empty_manifest true)
      (Fixtures.node SeedNode "seed.proj.s" None None)
      (Fixtures.run_config (Some (Sample.mk 10 20)) false) in
  let model_requester :=
    Fixtures.resolver (Fixtures.empty_manifest true)
      (Fixtures.node ModelNode "model.proj.m" None None)
      (Fixtures.run_config (Some (Sample.mk 10 20)) false) in
  (resolve_event_time_filter seed_requester Fixtures.not_null_test
   = Raise (ConfigAttributeError "event_time")
   /\ resolve_event_time_filter seed_requester Fixtures.not_null_test <> Ok None)
  /\ resolve_event_time_filter model_requester Fixtures.not_null_test
     = Raise (ConfigAttributeError "event_time")
  /\ resolve_event_time_filter seed_requester (Fixtures.events None None) = Ok None
  /\ resolve_event_time_filter model_requester Fixtures.plain_model = Ok None.
Proof.
  intros seed_requester model_requester.
  split; [|split; [|split]].
  - exact (proj1 (resolve_event_time_filter_reads_event_time_before_guard
                    seed_requester Fixtures.not_null_test) eq_refl).
  - exact (proj1 (proj1 (resolve_event_time_filter_reads_event_time_before_guard
                           model_requester Fixtures.not_null_test) eq_refl)).
  - apply (proj1 (proj2 (resolve_event_time_filter_reads_event_time_before_guard
                           seed_requester (Fixtures.events None None)) eq_refl)).
    intros [_ H]. vm_compute in H. discriminate.
  - apply (proj2 (proj2 (resolve_event_time_filter_reads_event_time_before_guard
                           model_requester Fixtures.plain_model) eq_refl)).
    reflexivity.
Defined.

(** The same requester does get a filter once the guard holds, so the
    statement above is not about a function that never filters. *)
Example resolve_event_time_filter_sample_mode :
  resolve_event_time_filter
    (Fixtures.resolver (Fixtures.empty_manifest true)
       (Fixtures.node ModelNode "model.proj.m" None None)
       (Fixtures.run_config (Some (Sample.mk 10 20)) false))
    (Fixtures.events (Some true) None)
  = Ok (Some (EventTimeFilter.mk (Some Fixtures.quoted_ts) 10 20)).
Proof. reflexivity. Qed.

(** C3: for a microbatch incremental model with an assigned batch window
    [B0, B1) -- the requester is a model materialized [incremental] with
    strategy [microbatch], batches are in use for the project and a batch is
    assigned -- reading a target that declares an event-time column: in
    sampled mode with sample window [S, E) the filter window is
    [max S B0, min E B1), the sample start clamped upward to [B0] when
    [B0 > S] and the sample end clamped downward to [B1] when [B1 < E] (so
    [B0, E) when [S < B0 < E < B1]); outside sampled mode it is exactly
    [B0, B1). *)
Theorem microbatch_event_time_filter_window
        (self : BaseResolver.t) (target : Target.t) (batch : Batch.t) :
  Node.cls (model self) = ModelNode ->
  Node.materialized (model self) = "incremental" ->
  Node.incremental_strategy (model self) = Some "microbatch" ->
  Manifest.use_microbatch_batches (manifest self)
    (RuntimeConfig.project_name (config self)) = true ->
  Node.batch (model self) = Some batch ->
  has_event_time_config target = true ->
  event_time_truthy target = true ->
  let B0 := Batch.event_time_start batch in
  let B1 := Batch.event_time_end batch in
  exists field_name,
    _resolve_event_time_field_name self target = Ok field_name
    /\ (forall s, RuntimeConfig.sample (config self) = Some s ->
          let S := Sample.start s in
          let E := Sample.end_ s in
          resolve_event_time_filter self target
          = Ok (Some (EventTimeFilter.mk field_name (Z.max S B0) (Z.min E B1)))
          /\ (B0 > S -> Z.max S B0 = B0)
          /\ (B1 < E -> Z.min E B1 = B1)
          /\ (S < B0 < E /\ E < B1 ->
              resolve_event_time_filter self target
              = Ok (Some (EventTimeFilter.mk field_name B0 E))))
    /\ (RuntimeConfig.sample (config self) = None ->
        resolve_event_time_filter self target
        = Ok (Some (EventTimeFilter.mk field_name B0 B1))).
Proof.
  intros Hcls Hmat Hstrat Hbatches Hbatch Hcfg Het B0 B1.
  destruct (resolve_event_time_field_name_total self target Hcfg) as [fn Hfn].
  exists fn. split; [exact Hfn|].
  assert (Hmb : microbatch_batch self = Some batch).
  { unfold microbatch_batch, is_model.
    rewrite Hcls, Hmat, Hstrat, Hbatches.
    rewrite bool_decide_eq_true_2 by reflexivity. exact Hbatch. }
  assert (Hms : is_model_or_snapshot (model self) = true).
  { unfold is_model_or_snapshot. rewrite Hcls. reflexivity. }
  assert (Hsampled : forall s, RuntimeConfig.sample (config self) = Some s ->
            resolve_event_time_filter self target
            = Ok (Some (EventTimeFilter.mk fn (Z.max (Sample.start s) B0)
                          (Z.min (Sample.end_ s) B1)))).
  { intros s Hs. unfold resolve_event_time_filter.
    rewrite Hfn, Hcfg, Het, Hms, Hmb, Hs. simpl.
    do 3 f_equal.
    - destruct (Z.gtb_spec (Sample.start s) (Batch.event_time_start batch));
        subst B0; lia.
    - destruct (Z.ltb_spec (Sample.end_ s) (Batch.event_time_end batch));
        subst B1; lia. }
  split.
  - intros s Hs S E. split; [exact (Hsampled s Hs)|].
    split; [lia|]. split; [lia|].
    intros [[H1 H2] H3]. rewrite (Hsampled s Hs). do 3 f_equal; subst S E; lia.
  - intros Hs. unfold resolve_event_time_filter.
    rewrite Hfn, Hcfg, Het, Hms, Hmb, Hs. reflexivity.
Qed.

Lemma microbatch_event_time_filter_window_witness :
  let batch := Batch.mk 15 30 in
  let self :=
    Fixtures.resolver (Fixtures.empty_manifest true)
      (Fixtures.node ModelNode "model.proj.m" (Some "microbatch") (Some batch))
      (Fixtures.run_config (Some (Sample.mk 10 20)) false) in
  exists field_name,
    resolve_event_time_filter self (Fixtures.events (Some true) None)
    = Ok (Some (EventTimeFilter.mk field_name 15 20)).
Proof.
  intros batch self.
  destruct (microbatch_event_time_filter_window self (Fixtures.events (Some true) None) batch
              eq_refl eq_refl eq_refl eq_refl eq_refl eq_refl eq_refl)
    as [fn [_ [Hs _]]].
  exists fn.
  destruct (Hs (Sample.mk 10 20) eq_refl) as [_ [_ [_ H]]].
  apply H. simpl. lia.
Defined.

End EventTimeFilter.

(** ** The [ref] resolvers *)

Section RefResolvers.
Import BaseResolver RefResolver.

Lemma validate_args_ok (name package version : PyVal) :
  validate_args name package version = Ok tt <->
  isinstance_str name = true
  /\ (is_none package || isinstance_str package) = true
  /\ (is_none version || isinstance_str_int_float version) = true.
Proof.
  unfold validate_args.
  destruct (isinstance_str name); simpl; [|split; [discriminate|intros [? _]; discriminate]].
  destruct (is_none package), (isinstance_str package); simpl;
    destruct (is_none version), (isinstance_str_int_float version); simpl;
    split; intros H; try discriminate; try reflexivity; auto;
    destruct H as [_ [? ?]]; discriminate.
Qed.

(** The runtime resolvers do go to the manifest: their first effect is the
    lookup.  The effect log therefore tells the two phases apart. *)
Lemma runtime_resolve_looks_up (cls : RefResolverClass) (self : BaseResolver.t)
      (name package version : PyVal) :
  exists rest,
    effects (runtime_resolve cls self name package version)
    = ManifestResolveRef name package version :: rest.
Proof.
  unfold runtime_resolve.
  destruct (Manifest.resolve_ref _ _ _ _ _ _ _) as [|d|t]; simpl; eauto.
  destruct (Manifest.is_invalid_private_ref _ _ _ _); simpl; eauto.
  destruct (Manifest.is_invalid_protected_ref _ _ _ _); simpl; eauto.
  destruct (validate _ _ _ _ _ _); simpl; eauto.
  destruct (create_relation _ _ _); simpl; eauto.
Qed.

(** C4 (as amended): every call of the parse-phase [ref] resolver with one
    positional name, or a positional package and name, whose arguments pass
    the resolver's type validation (a string name, a string package if one is
    given, and a version -- the [version] keyword or else the [v] keyword --
    that is absent or a string, integer or float) performs no manifest lookup
    (no effect at all), appends exactly one entry recording
    (package, name, version) to the requesting node's reference list and
    changes nothing else on the node, and returns a relation built from the
    run configuration and the requesting node itself. *)
Theorem parse_ref_call_records_reference
        (self : BaseResolver.t) (args : list PyVal) (kwargs : gmap string PyVal)
        (name package : PyVal) :
  (args = [name] /\ package = VNone) \/ args = [package; name] ->
  let version := py_or (dict_get kwargs "version") (dict_get kwargs "v") in
  isinstance_str name = true ->
  (is_none package || isinstance_str package) = true ->
  (is_none version || isinstance_str_int_float version) = true ->
  let o := __call__ ParseRefResolver self args kwargs in
  effects o = []
  /\ Node.refs (model_after o) = Node.refs (model self) ++ [RefArgs.mk package name version]
  /\ length (Node.refs (model_after o)) = S (length (Node.refs (model self)))
  /\ Node.unique_id (model_after o) = Node.unique_id (model self)
  /\ Node.depends_on_nodes (model_after o) = Node.depends_on_nodes (model self)
  /\ result o
     = Ok (Relation.create_from (RunQuoting (config self)) (OfModel (model_after o))
             None None).
Proof.
  intros Hargs version Hname Hpkg Hver o.
  assert (Hval : validate_args name package version = Ok tt).
  { apply validate_args_ok. auto. }
  assert (Ho : o = parse_resolve self name package version).
  { subst o. unfold __call__.
    destruct Hargs as [[-> ->]| ->]; fold version; rewrite Hval; reflexivity. }
  rewrite Ho. unfold parse_resolve. simpl.
  repeat split; try reflexivity.
  rewrite length_app. simpl. lia.
Qed.

Lemma parse_ref_call_records_reference_witness :
  let self := Fixtures.resolver (Fixtures.empty_manifest false)
                (Fixtures.node ModelNode "model.proj.m" None None)
                (Fixtures.run_config None false) in
  let o := __call__ ParseRefResolver self [VStr "pkg"; VStr "orders"]
             {[ "v" := VInt 2 ]} in
  effects o = []
  /\ Node.refs (model_after o) = [RefArgs.mk (VStr "pkg") (VStr "orders") (VInt 2)].
Proof.
  intros self o.
  assert (Hversion : py_or (dict_get ({[ "v" := VInt 2 ]} : gmap string PyVal) "version")
                       (dict_get ({[ "v" := VInt 2 ]} : gmap string PyVal) "v") = VInt 2)
    by (vm_compute; reflexivity).
  pose proof (parse_ref_call_records_reference self [VStr "pkg"; VStr "orders"]
                {[ "v" := VInt 2 ]} (VStr "orders") (VStr "pkg")
                (or_intror eq_refl)) as H.
  simpl in H. rewrite Hversion in H.
  destruct (H eq_refl eq_refl eq_refl) as [He [Hr _]].
  split; [exact He|exact Hr].
Defined.

(** C4 (counterexample to the wording): calls of valid arity that the type
    validation rejects.  [ref(42)] and [ref("orders", version=[1])] raise a
    compilation error, append nothing and return no relation. *)
Lemma parse_ref_call_valid_arity_rejected :
  let self := Fixtures.resolver (Fixtures.empty_manifest false)
                (Fixtures.node ModelNode "model.proj.m" None None)
                (Fixtures.run_config None false) in
  let o1 := __call__ ParseRefResolver self [VInt 42] ∅ in
  let o2 := __call__ ParseRefResolver self [VStr "orders"]
              {[ "version" := VList [VInt 1] ]} in
  result o1 = Raise (CompilationError (RefNameNotStr (VInt 42)))
  /\ Node.refs (model_after o1) = Node.refs (model self)
  /\ result o2 = Raise (CompilationError (RefVersionBadType (VList [VInt 1])))
  /\ Node.refs (model_after o2) = Node.refs (model self).
Proof.
  vm_compute. repeat split; reflexivity.
Qed.

(** C7: when the manifest lookup of a runtime [ref] resolution yields no
    target or a disabled one, the resolution raises a target-not-found error
    of kind ["node"] carrying the attempted name, package and version, and
    its [disabled] flag is true exactly when the target was disabled. *)
Theorem runtime_ref_target_not_found
        (cls : RefResolverClass) (self : BaseResolver.t)
        (target_name target_package target_version : PyVal) :
  cls <> ParseRefResolver ->
  let looked_up :=
    Manifest.resolve_ref (manifest self) (model self) target_name target_package
      target_version (RuntimeConfig.project_name (config self))
      (Node.package_name (model self)) in
  looked_up = RefAbsent \/ (exists d, looked_up = RefDisabled d) ->
  exists disabled,
    result (resolve cls self target_name target_package target_version)
    = Raise (TargetNotFoundError (Node.unique_id (model self)) target_name "node"
               target_package target_version disabled)
    /\ (disabled = true <-> exists d, looked_up = RefDisabled d).
Proof.
  intros Hcls looked_up Hlook.
  assert (Hres : resolve cls self target_name target_package target_version
                 = runtime_resolve cls self target_name target_package target_version).
  { destruct cls; try reflexivity. congruence. }
  rewrite Hres. unfold runtime_resolve, current_project.
  unfold looked_up in *. clear looked_up.
  destruct Hlook as [Habs|[d Hdis]].
  - rewrite Habs. exists false. split; [reflexivity|].
    split; [discriminate|]. intros [d Hd]. discriminate.
  - rewrite Hdis. exists true. split; [reflexivity|].
    split; [eauto|reflexivity].
Qed.

Lemma runtime_ref_target_not_found_witness :
  let self := Fixtures.resolver (Fixtures.empty_manifest false)
                (Fixtures.node ModelNode "model.proj.m" None None)
                (Fixtures.run_config None false) in
  exists disabled,
    result (resolve RuntimeRefResolver self (VStr "missing") VNone (VInt 3))
    = Raise (TargetNotFoundError "model.proj.m" (VStr "missing") "node" VNone (VInt 3)
               disabled)
    /\ (disabled = true <->
        exists d, (RefAbsent : ResolveRef) = RefDisabled d).
Proof.
  intros self.
  apply (runtime_ref_target_not_found RuntimeRefResolver self
           (VStr "missing") VNone (VInt 3)).
  - discriminate.
  - left. reflexivity.
Defined.

(** The filter computed for a requester that is a unit-test node. *)
Lemma unit_test_requester_no_filter (self : BaseResolver.t) (target : Target.t)
      (filter : option EventTimeFilter.t) :
  Node.cls (model self) = UnitTestNode ->
  resolve_event_time_filter self target = Ok filter ->
  filter = None.
Proof.
  intros Hcls Hf.
  destruct filter as [f|]; [|reflexivity].
  destruct (resolve_event_time_filter_guard self target f Hf) as [_ [_ Hms]].
  unfold is_model_or_snapshot in Hms. rewrite Hcls in Hms. discriminate.
Qed.

(** C8: a relation produced by unit-test [ref] resolution -- the unit-test
    resolver rendering a unit-test node -- carries no result-row limit, also
    when the run was invoked with the empty flag, and no event-time filter,
    whatever the target's event-time configuration. *)
Theorem unit_test_ref_no_limit_no_filter
        (self : BaseResolver.t) (args : list PyVal) (kwargs : gmap string PyVal)
        (r : Relation.t) :
  Node.cls (model self) = UnitTestNode ->
  result (__call__ RuntimeUnitTestRefResolver self args kwargs) = Ok r ->
  resolve_limit RuntimeUnitTestRefResolver self = None
  /\ Relation.limit r = None
  /\ Relation.event_time_filter r = None.
Proof.
  intros Hcls Hr. split; [reflexivity|].
  assert (Hcreate : forall t effs,
            runtime_create_relation RuntimeUnitTestRefResolver self t = (Ok r, effs) ->
            Relation.limit r = None /\ Relation.event_time_filter r = None).
  { intros t effs. unfold runtime_create_relation.
    pose proof (unit_test_requester_no_filter self t) as Hnone.
    destruct (resolve_event_time_filter self t) as [filter|e]; simpl.
    - rewrite (Hnone filter Hcls eq_refl).
      destruct (Target.is_ephemeral_model t).
      + intros [= <- _]. split; reflexivity.
      + destruct (Target.defer_relation t) as [d|];
          [destruct (RuntimeConfig.defer (config self));
           [destruct (RuntimeConfig.favor_state (config self) && _);
            [|destruct (negb _)]|]|];
          intros [= <- _]; split; reflexivity.
    - destruct (Target.is_ephemeral_model t); [discriminate|].
      destruct (Target.defer_relation t) as [d|];
        [destruct (RuntimeConfig.defer (config self));
         [destruct (RuntimeConfig.favor_state (config self) && _);
          [|destruct (negb _)]|]|];
        discriminate. }
  revert Hr. unfold __call__.
  assert (Hresolve : forall n p v,
            result (resolve RuntimeUnitTestRefResolver self n p v) = Ok r ->
            Relation.limit r = None /\ Relation.event_time_filter r = None).
  { intros n p v. unfold resolve, runtime_resolve.
    destruct (Manifest.resolve_ref _ _ _ _ _ _ _) as [|d|t];
      cbn [result]; try discriminate.
    destruct (Manifest.is_invalid_private_ref _ _ _ _); cbn [result]; try discriminate.
    destruct (Manifest.is_invalid_protected_ref _ _ _ _); cbn [result]; try discriminate.
    destruct (validate _ _ _ _ _ _); cbn [result]; try discriminate.
    destruct (create_relation RuntimeUnitTestRefResolver self t) as [res effs] eqn:Hc.
    cbn [result]. intros ->. exact (Hcreate t effs Hc). }
  destruct args as [|a1 [|a2 [|a3 rest]]]; cbn [result]; try discriminate.
  - destruct (validate_args _ _ _); cbn [result]; [apply Hresolve|discriminate].
  - destruct (validate_args _ _ _); cbn [result]; [apply Hresolve|discriminate].
Qed.

Lemma unit_test_ref_no_limit_no_filter_witness :
  let target := Fixtures.events (Some true) None in
  let self := Fixtures.resolver_for target UnitTestNode
                (Fixtures.run_config (Some (Sample.mk 10 20)) true) in
  let r := Relation.create_from (RunQuoting (config self)) (OfTarget target) None None in
  result (__call__ RuntimeUnitTestRefResolver self [VStr "events"] ∅) = Ok r
  /\ Relation.limit r = None
  /\ Relation.event_time_filter r = None.
Proof.
  intros target self r.
  assert (Hr : result (__call__ RuntimeUnitTestRefResolver self [VStr "events"] ∅) = Ok r)
    by (vm_compute; reflexivity).
  split; [exact Hr|].
  exact (proj2 (unit_test_ref_no_limit_no_filter self [VStr "events"] ∅ r eq_refl Hr)).
Defined.

(** The runtime resolver rendering a model, on the same target and flags,
    does apply both the limit and the filter. *)
Example runtime_ref_applies_limit_and_filter :
  let target := Fixtures.events (Some true) None in
  let self := Fixtures.resolver_for target ModelNode
                (Fixtures.run_config (Some (Sample.mk 10 20)) true) in
  result (__call__ RuntimeRefResolver self [VStr "events"] ∅)
  = Ok (Relation.create_from (RunQuoting (config self)) (OfTarget target) (Some 0)
          (Some (EventTimeFilter.mk (Some Fixtures.quoted_ts) 10 20))).
Proof. vm_compute. reflexivity. Qed.

End RefResolvers.

(** ** Stored query results *)

Section StoredResults.
Import ProviderContext.

Lemma store_result_lookup {h : AgateHelper} (name : string) (response : PyVal)
      (agate_table : option (Table h)) (results : sql_results h) :
  snd (store_result name response agate_table results) !! name
  = Some (Some (stored_value response agate_table)).
Proof.
  unfold store_result, stored_value. simpl. rewrite lookup_insert_eq.
  destruct agate_table; reflexivity.
Qed.

Lemma load_result_absent {h : AgateHelper} (name : string) (results : sql_results h) :
  results !! name = None -> load_result name results = (Ok None, results).
Proof. intros H. unfold load_result. rewrite H. reflexivity. Qed.

Lemma load_result_available {h : AgateHelper} (name : string) (v : AttrDict h) (results : sql_results h) :
  name <> "main" ->
  results !! name = Some (Some v) ->
  load_result name results = (Ok (Some v), <[name := None]> results).
Proof.
  intros Hne H. unfold load_result. rewrite H.
  destruct (String.eqb_spec name "main"); [contradiction|reflexivity].
Qed.

Lemma load_result_consumed {h : AgateHelper} (name : string) (results : sql_results h) :
  name <> "main" ->
  results !! name = Some None ->
  load_result name results = (Raise (MacroResultAlreadyLoadedError name), results).
Proof.
  intros Hne H. unfold load_result. rewrite H.
  destruct (String.eqb_spec name "main"); [contradiction|reflexivity].
Qed.

Lemma load_result_main {h : AgateHelper} (slot : option (AttrDict h)) (results : sql_results h) :
  results !! "main" = Some slot ->
  load_result "main" results = (Ok slot, results).
Proof. intros H. unfold load_result. rewrite H. reflexivity. Qed.

(** A call that is not a store to [key] leaves a consumed [key] consumed. *)
Lemma run_call_keeps_consumed {h : AgateHelper} (key : string) (c : ResultCall h) (results : sql_results h) :
  stores_to key c = false ->
  results !! key = Some None ->
  run_call c results !! key = Some None.
Proof.
  intros Hc Hkey. destruct c as [name|name response agate_table]; simpl in *.
  - unfold load_result.
    destruct (results !! name) as [slot|] eqn:Hname; [|exact Hkey].
    destruct (String.eqb name "main"); [exact Hkey|].
    destruct slot as [v|]; [|exact Hkey]. simpl.
    destruct (decide (name = key)) as [->|Hne].
    + apply lookup_insert_eq.
    + rewrite lookup_insert_ne by exact Hne. exact Hkey.
  - destruct (String.eqb_spec name key) as [|Hne]; [discriminate|].
    rewrite lookup_insert_ne by exact Hne. exact Hkey.
Qed.

Lemma run_calls_keep_consumed {h : AgateHelper} (key : string) (cs : list (ResultCall h))
      (results : sql_results h) :
  forallb (fun c => negb (stores_to key c)) cs = true ->
  results !! key = Some None ->
  run_calls cs results !! key = Some None.
Proof.
  revert results. induction cs as [|c cs IH]; intros results Hcs Hkey; [exact Hkey|].
  simpl in Hcs. apply andb_prop in Hcs as [Hc Hcs].
  apply (IH (run_call c results) Hcs).
  apply run_call_keeps_consumed; [|exact Hkey].
  destruct (stores_to key c); [discriminate|reflexivity].
Qed.

(** A call that is not a store to ["main"] leaves the value under ["main"]
    in place: loading ["main"] never consumes it. *)
Lemma run_call_keeps_main {h : AgateHelper} (v : AttrDict h) (c : ResultCall h) (results : sql_results h) :
  stores_to "main" c = false ->
  results !! "main" = Some (Some v) ->
  run_call c results !! "main" = Some (Some v).
Proof.
  intros Hc Hmain. destruct c as [name|name response agate_table]; simpl in *.
  - unfold load_result.
    destruct (results !! name) as [slot|] eqn:Hname; [|exact Hmain].
    destruct (String.eqb_spec name "main") as [|Hne]; [exact Hmain|].
    destruct slot as [w|]; [|exact Hmain]. simpl.
    rewrite lookup_insert_ne by exact Hne. exact Hmain.
  - destruct (String.eqb_spec name "main") as [|Hne]; [discriminate|].
    rewrite lookup_insert_ne by exact Hne. exact Hmain.
Qed.

Lemma run_calls_keep_main {h : AgateHelper} (v : AttrDict h) (cs : list (ResultCall h))
      (results : sql_results h) :
  forallb (fun c => negb (stores_to "main" c)) cs = true ->
  results !! "main" = Some (Some v) ->
  run_calls cs results !! "main" = Some (Some v).
Proof.
  revert results. induction cs as [|c cs IH]; intros results Hcs Hmain; [exact Hmain|].
  simpl in Hcs. apply andb_prop in Hcs as [Hc Hcs].
  apply (IH (run_call c results) Hcs).
  apply run_call_keeps_main; [|exact Hmain].
  destruct (stores_to "main" c); [discriminate|reflexivity].
Qed.

(** C5 (as amended): for every key [x] other than ["main"]: after
    [store_result(x, resp, table)] the first [load_result(x)] returns the
    stored value and leaves [x] present and mapped to [None]; a later
    [load_result(x)], after any calls that do not store to [x] again, raises
    the already-loaded error naming [x]; [load_result] on a key that is not
    in the map returns [None] without error and changes nothing; so the
    consumed state (key present, mapped to [None]) and the absent key are
    two different states with different outcomes. *)
Theorem stored_result_consumed_once {h : AgateHelper}
        (x : string) (response : PyVal) (agate_table : option (Table h))
        (results : sql_results h) :
  x <> "main" ->
  let stored := snd (store_result x response agate_table results) in
  let first := load_result x stored in
  fst first = Ok (Some (stored_value response agate_table))
  /\ snd first !! x = Some None
  /\ (forall cs, forallb (fun c => negb (stores_to x c)) cs = true ->
        fst (load_result x (run_calls cs (snd first)))
        = Raise (MacroResultAlreadyLoadedError x))
  /\ (forall (y : string) (rs : sql_results h),
        rs !! y = None -> load_result y rs = (Ok None, rs))
  /\ snd first !! x <> None.
Proof.
  intros Hne stored first.
  assert (Hfirst : first = (Ok (Some (stored_value response agate_table)),
                            <[x := None]> stored)).
  { subst first. apply load_result_available; [exact Hne|].
    subst stored. apply store_result_lookup. }
  rewrite Hfirst. simpl.
  assert (Hx : (<[x := None]> stored : sql_results h) !! x = Some None)
    by apply lookup_insert_eq.
  split; [reflexivity|]. split; [exact Hx|]. split.
  - intros cs Hcs.
    rewrite (load_result_consumed x _ Hne (run_calls_keep_consumed x cs _ Hcs Hx)).
    reflexivity.
  - split; [exact load_result_absent|]. rewrite Hx. discriminate.
Qed.

Lemma stored_result_consumed_once_witness :
  let stored := snd (store_result (h := Fixtures.rows_helper) "x" (VStr "OK") None ∅) in
  let first := load_result "x" stored in
  fst first = Ok (Some (stored_value (h := Fixtures.rows_helper) (VStr "OK") None))
  /\ fst (load_result "x" (snd first)) = Raise (MacroResultAlreadyLoadedError "x").
Proof.
  intros stored first.
  destruct (stored_result_consumed_once (h := Fixtures.rows_helper)
              "x" (VStr "OK") None ∅ ltac:(discriminate))
    as [H1 [_ [H3 _]]].
  split; [exact H1|]. exact (H3 [] eq_refl).
Defined.

(** C5 (counterexample to the wording): the key ["main"].  After a store
    and a first load, ["main"] still holds the value, and the second load
    returns it instead of raising. *)
Lemma stored_result_main_not_consumed :
  let stored := snd (store_result (h := Fixtures.rows_helper) "main" (VStr "OK") None ∅) in
  let first := load_result "main" stored in
  let second := load_result "main" (snd first) in
  fst first = Ok (Some (stored_value (h := Fixtures.rows_helper) (VStr "OK") None))
  /\ snd first !! "main" <> Some None
  /\ fst second = Ok (Some (stored_value (h := Fixtures.rows_helper) (VStr "OK") None))
  /\ fst second <> Raise (MacroResultAlreadyLoadedError "main").
Proof.
  vm_compute. repeat split; try reflexivity; discriminate.
Qed.

(** C10: the key ["main"] is exempt from the consumed-once contract.  Once a
    result is stored under ["main"], every later [load_result("main")] --
    after any calls, loads of ["main"] included, that do not store to
    ["main"] again -- returns the stored value and leaves the stored results
    as they are, so it never raises the already-loaded error. *)
Theorem load_result_main_repeatable {h : AgateHelper}
        (response : PyVal) (agate_table : option (Table h))
        (results : sql_results h) (cs : list (ResultCall h)) :
  forallb (fun c => negb (stores_to "main" c)) cs = true ->
  let later := run_calls cs (snd (store_result "main" response agate_table results)) in
  load_result "main" later = (Ok (Some (stored_value response agate_table)), later).
Proof.
  intros Hcs later.
  apply load_result_main. subst later.
  apply run_calls_keep_main; [exact Hcs|].
  apply store_result_lookup.
Qed.

Lemma load_result_main_repeatable_witness :
  let later :=
    run_calls [LoadResult "main"; LoadResult "main"; StoreResult "x" VNone None;
               LoadResult "x"; LoadResult "main"]
      (snd (store_result (h := Fixtures.rows_helper) "main" (VStr "OK") None ∅)) in
  load_result "main" later
  = (Ok (Some (stored_value (h := Fixtures.rows_helper) (VStr "OK") None)), later).
Proof.
  exact (load_result_main_repeatable (h := Fixtures.rows_helper) (VStr "OK") None ∅
           [LoadResult "main"; LoadResult "main"; StoreResult "x" VNone None;
            LoadResult "x"; LoadResult "main"] eq_refl).
Defined.

End StoredResults.

(** ** Macro dispatch *)

Section Dispatch.
Import BaseDatabaseWrapper.

Lemma scan_app (self : BaseDatabaseWrapper.t) (l1 l2 : list (option string * string))
      (attempts : list string) :
  scan self (l1 ++ l2) attempts =
  match scan self l1 attempts with
  | (Some m, attempts') => (Some m, attempts')
  | (None, attempts') => scan self l2 attempts'
  end.
Proof.
  revert attempts. induction l1 as [|c l1 IH]; intros attempts; simpl; [reflexivity|].
  destruct (found self c); [reflexivity|apply IH].
Qed.

(** The inner loop is a scan of the package's pairs. *)
Lemma dispatch_prefixes_scan (self : BaseDatabaseWrapper.t) (macro_name : string)
      (package_name : option string) (prefixes attempts : list string) :
  dispatch_prefixes self macro_name package_name prefixes attempts
  = scan self (map (fun prefix => (package_name, prefix +:+ "__" +:+ macro_name)) prefixes)
      attempts.
Proof.
  revert attempts. induction prefixes as [|prefix rest IH]; intros attempts; simpl;
    [reflexivity|].
  unfold found. simpl.
  destruct (get_from_package self package_name (prefix +:+ "__" +:+ macro_name));
    try reflexivity; apply IH.
Qed.

(** The nested loops are one scan, package-major and prefix-minor. *)
Lemma dispatch_packages_scan (self : BaseDatabaseWrapper.t) (macro_name : string)
      (search_packages : list (option string)) (attempts : list string) :
  dispatch_packages self macro_name search_packages attempts
  = scan self (candidates self macro_name search_packages) attempts.
Proof.
  revert attempts.
  induction search_packages as [|package_name rest IH]; intros attempts; simpl;
    [reflexivity|].
  unfold candidates in *. simpl. rewrite scan_app, dispatch_prefixes_scan.
  destruct (scan self _ attempts) as [[m|] attempts']; [reflexivity|apply IH].
Qed.

Lemma scan_first_match (self : BaseDatabaseWrapper.t)
      (before after : list (option string * string)) (c : option string * string)
      (m : MacroGenerator) (attempts : list string) :
  Forall (fun c' => found self c' = None) before ->
  found self c = Some m ->
  scan self (before ++ c :: after) attempts
  = (Some m, attempts ++ map (fun c' => attempt (fst c') (snd c')) (before ++ [c])).
Proof.
  intros Hbefore Hc. revert attempts.
  induction Hbefore as [|c' before Hc' _ IH]; intros attempts; simpl.
  - rewrite Hc. reflexivity.
  - rewrite Hc', IH, <- app_assoc. reflexivity.
Qed.

Lemma scan_no_match (self : BaseDatabaseWrapper.t)
      (cands : list (option string * string)) (attempts : list string) :
  Forall (fun c => found self c = None) cands ->
  scan self cands attempts
  = (None, attempts ++ map (fun c => attempt (fst c) (snd c)) cands).
Proof.
  intros Hall. revert attempts.
  induction Hall as [|c cands Hc _ IH]; intros attempts; simpl.
  - rewrite app_nil_r. reflexivity.
  - rewrite Hc, IH, <- app_assoc. reflexivity.
Qed.

Lemma split_first_dot_spec (s : string) :
  contains_dot s = true ->
  s = fst (split_first_dot s) +:+ "." +:+ snd (split_first_dot s)
  /\ contains_dot (fst (split_first_dot s)) = false.
Proof.
  induction s as [|c rest IH]; simpl; [discriminate|].
  destruct (Ascii.eqb_spec c "."%char) as [->|Hne].
  - intros _. split; reflexivity.
  - intros Hrest. destruct (IH Hrest) as [Heq Hpre].
    destruct (split_first_dot rest) as [a b]. simpl in *. split.
    + rewrite Heq at 1. reflexivity.
    + destruct (Ascii.eqb_spec c "."%char); [contradiction|exact Hpre].
Qed.

(** C6: [adapter.dispatch(macro_name, namespace?)] searches package-major,
    prefix-minor.  With [cands] the pairs (package, ["{prefix}__{macro_name}"])
    for each search package in order and, inside it, each prefix of the
    adapter's type names in order followed by ["default"]: the macro of the
    first pair that names one is returned; if no pair names a macro the call
    raises a compilation error listing every attempted pair, in that order;
    and a [macro_name] containing ["."] is rejected before anything else,
    with the error suggesting the part after the first dot as macro name and
    the part before it as [macro_namespace]. *)
Theorem dispatch_searches_package_major
        (self : BaseDatabaseWrapper.t) (macro_name : string) (macro_namespace : PyVal) :
  _get_adapter_macro_prefixes self = adapter_type_names self ++ ["default"]
  /\ (contains_dot macro_name = false ->
      forall search_packages,
        _get_search_packages self macro_namespace = Ok search_packages ->
        let cands := candidates self macro_name search_packages in
        (forall before c after m,
            cands = before ++ c :: after ->
            Forall (fun c' => found self c' = None) before ->
            found self c = Some m ->
            dispatch self macro_name macro_namespace None = Ok m)
        /\ (Forall (fun c => found self c = None) cands ->
            dispatch self macro_name macro_namespace None
            = Raise (CompilationError
                       (DispatchNoMacro macro_name macro_namespace
                          (map (fun c => attempt (fst c) (snd c)) cands)))))
  /\ (contains_dot macro_name = true ->
      let suggest_macro_namespace := fst (split_first_dot macro_name) in
      let suggest_macro_name := snd (split_first_dot macro_name) in
      macro_name = suggest_macro_namespace +:+ "." +:+ suggest_macro_name
      /\ contains_dot suggest_macro_namespace = false
      /\ forall packages,
          dispatch self macro_name macro_namespace packages
          = Raise (CompilationError
                     (DispatchDottedName macro_name suggest_macro_name
                        suggest_macro_namespace))).
Proof.
  split; [reflexivity|]. split.
  - intros Hdot search_packages Hpk cands. unfold dispatch.
    rewrite Hdot, Hpk. simpl. rewrite dispatch_packages_scan. fold cands. split.
    + intros before c after m Hsplit Hbefore Hc.
      rewrite Hsplit, (scan_first_match self before after c m [] Hbefore Hc).
      reflexivity.
    + intros Hall. rewrite (scan_no_match self cands [] Hall). reflexivity.
  - intros Hdot. destruct (split_first_dot_spec macro_name Hdot) as [Heq Hpre].
    split; [exact Heq|]. split; [exact Hpre|].
    intros packages. unfold dispatch. rewrite Hdot.
    destruct (split_first_dot macro_name); reflexivity.
Qed.

Lemma dispatch_searches_package_major_witness :
  dispatch Fixtures.postgres_wrapper "other" (VStr "utils") None
  = Ok (MacroGen "macro.utils.postgres__other")
  /\ dispatch Fixtures.postgres_wrapper "missing" (VStr "utils") None
     = Raise (CompilationError
                (DispatchNoMacro "missing" (VStr "utils")
                   ["proj.postgres__missing"; "proj.default__missing";
                    "utils.postgres__missing"; "utils.default__missing"]))
  /\ dispatch Fixtures.postgres_wrapper "utils.other" VNone None
     = Raise (CompilationError (DispatchDottedName "utils.other" "other" "utils")).
Proof.
  destruct (dispatch_searches_package_major Fixtures.postgres_wrapper "other" (VStr "utils"))
    as [_ [Hfound _]].
  destruct (dispatch_searches_package_major Fixtures.postgres_wrapper "missing" (VStr "utils"))
    as [_ [Hmissing _]].
  destruct (dispatch_searches_package_major Fixtures.postgres_wrapper "utils.other" VNone)
    as [_ [_ Hdotted]].
  split; [|split].
  - destruct (Hfound eq_refl [Some "proj"; Some "utils"] eq_refl) as [H _].
    apply (H [(Some "proj", "postgres__other"); (Some "proj", "default__other")]
             (Some "utils", "postgres__other") [(Some "utils", "default__other")]).
    + reflexivity.
    + repeat constructor.
    + reflexivity.
  - destruct (Hmissing eq_refl [Some "proj"; Some "utils"] eq_refl) as [_ H].
    apply H. repeat constructor.
  - destruct (Hdotted eq_refl) as [_ [_ H]]. exact (H None).
Defined.

(** The spec's example: [postgres] falls back to [default__some_macro]. *)
Example dispatch_default_fallback :
  dispatch Fixtures.postgres_wrapper "some_macro" VNone None
  = Ok (MacroGen "macro.dbt.default__some_macro").
Proof. reflexivity. Qed.

End Dispatch.

(** ** Parse-phase config *)

Section ParseConfig.
Import ParseConfigObject.

Lemma transform_key_spec (self : ParseConfigObject.t) (oldkey : string)
      (opts : gmap string PyVal) :
  match transform_key self oldkey opts with
  | Raise e =>
      hook_conflict opts oldkey = true
      /\ e = ConflictingConfigKeysError oldkey (replace_underscore oldkey) (model self)
  | Ok renamed =>
      hook_conflict opts oldkey = false
      /\ forall key,
          renamed !! key =
          if decide (key = replace_underscore oldkey) then
            match opts !! oldkey with
            | Some v => Some v
            | None => opts !! replace_underscore oldkey
            end
          else if decide (key = oldkey) then None
          else opts !! key
  end.
Proof.
  unfold transform_key, hook_conflict.
  destruct (opts !! oldkey) as [v|] eqn:Hold.
  - destruct (opts !! replace_underscore oldkey) as [w|] eqn:Hnew.
    + split; [|reflexivity].
      rewrite !bool_decide_eq_true_2 by eauto. reflexivity.
    + split.
      * rewrite (bool_decide_eq_false_2 (is_Some None)) by (intros [? ?]; discriminate).
        apply andb_false_r.
      * intros key. destruct (decide (key = replace_underscore oldkey)) as [->|Hk].
        { apply lookup_insert_eq. }
        rewrite lookup_insert_ne by congruence.
        destruct (decide (key = oldkey)) as [->|Hk'].
        { apply lookup_delete_eq. }
        apply lookup_delete_ne. congruence.
  - split.
    + rewrite (bool_decide_eq_false_2 (is_Some None)) by (intros [? ?]; discriminate).
      reflexivity.
    + intros key. destruct (decide (key = replace_underscore oldkey)) as [->|Hk];
        [reflexivity|].
      destruct (decide (key = oldkey)) as [->|Hk']; [exact Hold|reflexivity].
Qed.

Lemma transform_config_spec (self : ParseConfigObject.t) (opts : gmap string PyVal) :
  match _transform_config self opts with
  | Raise e =>
      (hook_conflict opts "pre_hook" = true
       /\ e = ConflictingConfigKeysError "pre_hook" "pre-hook" (model self))
      \/ (hook_conflict opts "pre_hook" = false
          /\ hook_conflict opts "post_hook" = true
          /\ e = ConflictingConfigKeysError "post_hook" "post-hook" (model self))
  | Ok normalized =>
      hook_conflict opts "pre_hook" = false
      /\ hook_conflict opts "post_hook" = false
      /\ forall key, normalized !! key = normalized_lookup opts key
  end.
Proof.
  unfold _transform_config, transform_keys.
  pose proof (transform_key_spec self "pre_hook" opts) as Hpre.
  destruct (transform_key self "pre_hook" opts) as [renamed|e]; cbn [bind].
  2:{ left. exact Hpre. }
  destruct Hpre as [Hnopre Hrenamed].
  pose proof (transform_key_spec self "post_hook" renamed) as Hpost.
  assert (Hsame : hook_conflict renamed "post_hook" = hook_conflict opts "post_hook").
  { unfold hook_conflict. rewrite !Hrenamed. reflexivity. }
  rewrite Hsame in Hpost.
  destruct (transform_key self "post_hook" renamed) as [normalized|e].
  2:{ right. destruct Hpost as [Hc ->]. auto. }
  destruct Hpost as [Hnopost Hnormalized].
  split; [exact Hnopre|]. split; [exact Hnopost|].
  intros key. rewrite Hnormalized, !Hrenamed. unfold normalized_lookup.
  change (replace_underscore "pre_hook") with "pre-hook".
  change (replace_underscore "post_hook") with "post-hook".
  destruct (String.eqb_spec key "pre_hook") as [->|H1]; [reflexivity|].
  destruct (String.eqb_spec key "post_hook") as [->|H2]; [reflexivity|].
  destruct (String.eqb_spec key "pre-hook") as [->|H3]; [reflexivity|].
  destruct (String.eqb_spec key "post-hook") as [->|H4]; [reflexivity|].
  cbn [orb].
  rewrite !decide_False by assumption. reflexivity.
Qed.

Lemma lookup_some_non_empty (kwargs : gmap string PyVal) (key : string) (v : PyVal) :
  kwargs !! key = Some v -> kwargs <> ∅.
Proof. intros H ->. rewrite lookup_empty in H. discriminate. Qed.

Lemma size_zero_empty (kwargs : gmap string PyVal) :
  bool_decide (size kwargs = 0%nat) = bool_decide (kwargs = ∅).
Proof. apply bool_decide_ext. apply map_size_empty_iff. Qed.

(** The call on an accepted shape is [_transform_config] on the chosen
    options followed by the recording step. *)
Lemma call_accepted_shape (self : ParseConfigObject.t) (args : list (gmap string PyVal))
      (kwargs opts : gmap string PyVal) :
  accepted_shape args kwargs opts ->
  __call__ self args kwargs =
  match _transform_config self opts with
  | Raise e => (Raise e, context_config self)
  | Ok normalized =>
      match context_config self with
      | None =>
          (Raise (DbtRuntimeError "At parse time, did not receive a context config"), None)
      | Some cc =>
          (Ok "",
           Some (ContextConfig.add_config_call normalized
                   (if state_modified_compare_more_unrendered_values self then
                      match unrendered_config self with
                      | Some u =>
                          if bool_decide (size u = 0%nat) then cc
                          else ContextConfig.add_unrendered_config_call u cc
                      | None => cc
                      end
                    else cc)))
      end
  end.
Proof.
  intros [[-> ->]|[-> [Hne ->]]]; unfold __call__; rewrite size_zero_empty.
  - rewrite bool_decide_eq_true_2 by reflexivity. reflexivity.
  - rewrite bool_decide_eq_false_2 by exact Hne. reflexivity.
Qed.

(** C9 (as amended): for every parse-phase [config(...)] call: a positional
    argument together with keyword arguments, or neither, raises the shape
    error naming the node; on an accepted shape, options holding both an
    underscore hook key ([pre_hook] or [post_hook]) and its hyphenated
    spelling raise the conflicting-keys error for that pair; otherwise, when
    the config object has a context config, the underscore spellings are
    renamed to the hyphenated ones, the options are appended to the pending
    config calls and the call returns the empty string, and when it has no
    context config the call raises a runtime error. *)
Theorem parse_config_call
        (self : ParseConfigObject.t) (args : list (gmap string PyVal))
        (kwargs : gmap string PyVal) :
  ((exists opts, args = [opts] /\ kwargs <> ∅) \/ (args = [] /\ kwargs = ∅) ->
   __call__ self args kwargs
   = (Raise (InlineModelConfigError (model self)), context_config self))
  /\ (forall opts, accepted_shape args kwargs opts ->
      (hook_conflict opts "pre_hook" = true ->
       __call__ self args kwargs
       = (Raise (ConflictingConfigKeysError "pre_hook" "pre-hook" (model self)),
          context_config self))
      /\ (hook_conflict opts "pre_hook" = false ->
          hook_conflict opts "post_hook" = true ->
          __call__ self args kwargs
          = (Raise (ConflictingConfigKeysError "post_hook" "post-hook" (model self)),
             context_config self))
      /\ (hook_conflict opts "pre_hook" = false ->
          hook_conflict opts "post_hook" = false ->
          match context_config self with
          | Some cc =>
              exists normalized cc',
                __call__ self args kwargs = (Ok "", Some cc')
                /\ ContextConfig.config_calls cc'
                   = ContextConfig.config_calls cc ++ [normalized]
                /\ forall key, normalized !! key = normalized_lookup opts key
          | None =>
              __call__ self args kwargs
              = (Raise (DbtRuntimeError "At parse time, did not receive a context config"),
                 None)
          end)).
Proof.
  split.
  - intros [[opts [-> Hne]]|[-> ->]]; unfold __call__; rewrite size_zero_empty.
    + rewrite bool_decide_eq_false_2 by exact Hne. reflexivity.
    + rewrite bool_decide_eq_true_2 by reflexivity. reflexivity.
  - intros opts Hshape. rewrite (call_accepted_shape self args kwargs opts Hshape).
    pose proof (transform_config_spec self opts) as Hspec.
    destruct (_transform_config self opts) as [normalized|e].
    + destruct Hspec as [Hpre [Hpost Hlookup]].
      split; [congruence|]. split; [congruence|]. intros _ _.
      destruct (context_config self) as [cc|]; [|reflexivity].
      eexists normalized, _. split; [reflexivity|]. split; [|exact Hlookup].
      simpl. destruct (state_modified_compare_more_unrendered_values self);
        [|reflexivity].
      destruct (unrendered_config self) as [u|]; [|reflexivity].
      destruct (bool_decide (size u = 0%nat)); reflexivity.
    + destruct Hspec as [[Hpre ->]|[Hpre [Hpost ->]]].
      * split; [reflexivity|]. split; congruence.
      * split; [congruence|]. split; [reflexivity|congruence].
Qed.

Lemma parse_config_call_witness :
  let self := ParseConfigObject.mk "model.proj.m" (Some (ContextConfig.mk [] [])) false None in
  (ParseConfigObject.__call__ self [{[ "a" := VInt 1 ]}] {[ "b" := VInt 2 ]}
   = (Raise (InlineModelConfigError "model.proj.m"), Some (ContextConfig.mk [] [])))
  /\ (ParseConfigObject.__call__ self []
        {[ "pre_hook" := VStr "x"; "pre-hook" := VStr "y" ]}
      = (Raise (ConflictingConfigKeysError "pre_hook" "pre-hook" "model.proj.m"),
         Some (ContextConfig.mk [] [])))
  /\ (exists normalized cc',
         ParseConfigObject.__call__ self [] {[ "post_hook" := VStr "x" ]} = (Ok "", Some cc')
         /\ ContextConfig.config_calls cc' = [normalized]
         /\ normalized !! "post-hook" = Some (VStr "x")
         /\ normalized !! "post_hook" = None).
Proof.
  intros self.
  pose (kw1 := {[ "b" := VInt 2 ]} : gmap string PyVal).
  pose (kw2 := {[ "pre_hook" := VStr "x"; "pre-hook" := VStr "y" ]} : gmap string PyVal).
  pose (kw3 := {[ "post_hook" := VStr "x" ]} : gmap string PyVal).
  assert (Hne1 : kw1 <> ∅)
    by (apply (lookup_some_non_empty kw1 "b" (VInt 2)); vm_compute; reflexivity).
  assert (Hne2 : kw2 <> ∅)
    by (apply (lookup_some_non_empty kw2 "pre_hook" (VStr "x")); vm_compute; reflexivity).
  assert (Hne3 : kw3 <> ∅)
    by (apply (lookup_some_non_empty kw3 "post_hook" (VStr "x")); vm_compute; reflexivity).
  assert (Hc2 : hook_conflict kw2 "pre_hook" = true) by (vm_compute; reflexivity).
  assert (Hc3 : hook_conflict kw3 "pre_hook" = false) by (vm_compute; reflexivity).
  assert (Hc3' : hook_conflict kw3 "post_hook" = false) by (vm_compute; reflexivity).
  split; [|split].
  - apply (proj1 (parse_config_call self [{[ "a" := VInt 1 ]}] kw1)).
    left. eexists. split; [reflexivity|exact Hne1].
  - apply (proj1 (proj2 (parse_config_call self [] kw2) kw2
                    (or_intror (conj eq_refl (conj Hne2 eq_refl)))) Hc2).
  - destruct (proj2 (proj2 (proj2 (parse_config_call self [] kw3) kw3
                              (or_intror (conj eq_refl (conj Hne3 eq_refl))))) Hc3 Hc3')
      as [normalized [cc' [Hcall [Hcalls Hlookup]]]].
    exists normalized, cc'. split; [exact Hcall|]. split; [exact Hcalls|].
    split; rewrite Hlookup; vm_compute; reflexivity.
Defined.

(** C9 (counterexample to the wording): a config object without a context
    config.  The call [config(materialized="table")] has an accepted shape
    and no conflicting keys, yet it raises a runtime error: nothing is
    recorded and the empty string is not returned. *)
Lemma parse_config_call_without_context_config :
  let self := ParseConfigObject.mk "model.proj.m" None false None in
  let kwargs : gmap string PyVal := {[ "materialized" := VStr "table" ]} in
  accepted_shape [] kwargs kwargs
  /\ hook_conflict kwargs "pre_hook" = false
  /\ hook_conflict kwargs "post_hook" = false
  /\ ParseConfigObject.__call__ self [] kwargs
     = (Raise (DbtRuntimeError "At parse time, did not receive a context config"), None)
  /\ fst (ParseConfigObject.__call__ self [] kwargs) <> Ok "".
Proof.
  intros self kwargs. split; [|split; [|split; [|split]]].
  - right. split; [reflexivity|]. split; [|reflexivity].
    apply (lookup_some_non_empty kwargs "materialized" (VStr "table")).
    vm_compute. reflexivity.
  - vm_compute. reflexivity.
  - vm_compute. reflexivity.
  - vm_compute. reflexivity.
  - assert (H : fst (ParseConfigObject.__call__ self [] kwargs)
                = Raise (DbtRuntimeError "At parse time, did not receive a context config"))
      by (vm_compute; reflexivity).
    rewrite H. discriminate.
Qed.

End ParseConfig.

(** * Further properties *)

(** ** Event-time filter: the remaining cases *)

Section EventTimeFilterCases.
Import BaseResolver.

(** The assigned batch counts only when the whole microbatch condition
    holds. *)
Lemma microbatch_batch_some (self : BaseResolver.t) (batch : Batch.t) :
  microbatch_batch self = Some batch <->
  Node.cls (model self) = ModelNode
  /\ Node.materialized (model self) = "incremental"
  /\ Node.incremental_strategy (model self) = Some "microbatch"
  /\ Manifest.use_microbatch_batches (manifest self)
       (RuntimeConfig.project_name (config self)) = true
  /\ Node.batch (model self) = Some batch.
Proof.
  unfold microbatch_batch, is_model. split.
  - destruct (Node.cls (model self)) eqn:Hcls; simpl; try discriminate.
    destruct (String.eqb_spec (Node.materialized (model self)) "incremental") as [Hm|];
      simpl; [|discriminate].
    destruct (decide (Node.incremental_strategy (model self) = Some "microbatch")) as [Hs|Hs].
    + rewrite bool_decide_eq_true_2 by exact Hs. simpl.
      destruct (Manifest.use_microbatch_batches _ _) eqn:Hb; [|discriminate].
      intros Hbatch. auto.
    + rewrite bool_decide_eq_false_2 by exact Hs. discriminate.
  - intros [-> [-> [-> [-> Hbatch]]]].
    rewrite bool_decide_eq_true_2 by reflexivity. exact Hbatch.
Qed.

(** The field name the resolver hands to a filter. *)
Lemma resolve_event_time_field_name_cases (self : BaseResolver.t) (target : Target.t)
      (field_name : option string) :
  _resolve_event_time_field_name self target = Ok field_name ->
  field_name = TargetConfig.event_time (Target.config target)
  \/ exists name,
       TargetConfig.event_time (Target.config target) = Some name
       /\ field_name = Some (Column.double_quote +:+ name +:+ Column.double_quote).
Proof.
  unfold _resolve_event_time_field_name, config_event_time.
  destruct (has_event_time_config target); [|discriminate].
  simpl. rewrite scan_columns_find.
  destruct (find _ (Target.columns target)) as [[key c]|] eqn:Hfind.
  - apply find_some in Hfind as [_ Hname]. apply bool_decide_eq_true_1 in Hname.
    simpl in Hname.
    destruct (match ColumnInfo.quote c with
              | Some q => q
              | None => default false (Target.quoting target ≫= Quoting.column)
              end).
    + intros [= <-]. right. eexists. split; [symmetry; exact Hname|reflexivity].
    + intros [= <-]. left. reflexivity.
  - intros [= <-]. left. reflexivity.
Qed.

(** In sample mode, a model or snapshot outside the microbatch condition
    reads a target that declares an event-time column through the sample
    window itself, whatever batch the requester may carry. *)
Theorem sample_mode_filter_is_sample_window
        (self : BaseResolver.t) (target : Target.t) (s : Sample.t) :
  has_event_time_config target = true ->
  event_time_truthy target = true ->
  is_model_or_snapshot (model self) = true ->
  RuntimeConfig.sample (config self) = Some s ->
  (Node.cls (model self) <> ModelNode
   \/ Node.materialized (model self) <> "incremental"
   \/ Node.incremental_strategy (model self) <> Some "microbatch"
   \/ Manifest.use_microbatch_batches (manifest self)
        (RuntimeConfig.project_name (config self)) = false
   \/ Node.batch (model self) = None) ->
  exists field_name,
    resolve_event_time_filter self target
    = Ok (Some (EventTimeFilter.mk field_name (Sample.start s) (Sample.end_ s))).
Proof.
  intros Hcfg Het Hms Hs Hnot.
  assert (Hmb : microbatch_batch self = None).
  { destruct (microbatch_batch self) as [b|] eqn:Hb; [|reflexivity].
    apply microbatch_batch_some in Hb as [H1 [H2 [H3 [H4 H5]]]].
    destruct Hnot as [H|[H|[H|[H|H]]]]; congruence. }
  destruct (resolve_event_time_field_name_total self target Hcfg) as [fn Hfn].
  exists fn. unfold resolve_event_time_filter.
  rewrite Hfn, Hcfg, Het, Hms, Hmb, Hs. reflexivity.
Qed.

Lemma sample_mode_filter_is_sample_window_witness :
  exists field_name,
    resolve_event_time_filter
      (Fixtures.resolver (Fixtures.empty_manifest false)
         (Fixtures.node ModelNode "model.proj.m" (Some "microbatch")
            (Some (Batch.mk 15 30)))
         (Fixtures.run_config (Some (Sample.mk 10 20)) false))
      (Fixtures.events None None)
    = Ok (Some (EventTimeFilter.mk field_name 10 20)).
Proof.
  apply (sample_mode_filter_is_sample_window
           (Fixtures.resolver (Fixtures.empty_manifest false)
              (Fixtures.node ModelNode "model.proj.m" (Some "microbatch")
                 (Some (Batch.mk 15 30)))
              (Fixtures.run_config (Some (Sample.mk 10 20)) false))
           (Fixtures.events None None) (Sample.mk 10 20));
    try reflexivity.
  right. right. right. left. reflexivity.
Defined.

(** Every filter the resolver produces names a field: the target's
    non-empty event-time column, raw or between double quotes, the quoted
    spelling of the base [Column] class. *)
Theorem event_time_filter_names_event_time_column
        (self : BaseResolver.t) (target : Target.t) (f : EventTimeFilter.t) :
  resolve_event_time_filter self target = Ok (Some f) ->
  exists name,
    TargetConfig.event_time (Target.config target) = Some name
    /\ name <> ""
    /\ (EventTimeFilter.field_name f = Some name
        \/ EventTimeFilter.field_name f
           = Some (Column.double_quote +:+ name +:+ Column.double_quote)).
Proof.
  intros Hf.
  destruct (resolve_event_time_filter_guard self target f Hf) as [Hcfg [Het _]].
  unfold event_time_truthy in Het.
  destruct (TargetConfig.event_time (Target.config target)) as [name|] eqn:Hname;
    [|discriminate].
  exists name. split; [reflexivity|]. split.
  { intros ->. discriminate. }
  destruct (resolve_event_time_field_name_total self target Hcfg) as [fn Hfn].
  assert (Hfield : EventTimeFilter.field_name f = fn).
  { revert Hf. unfold resolve_event_time_filter. rewrite Hfn. simpl.
    destruct (_ && _ && _); [|discriminate].
    destruct (microbatch_batch self), (RuntimeConfig.sample (config self));
      intros [= <-]; reflexivity. }
  rewrite Hfield.
  destruct (resolve_event_time_field_name_cases self target fn Hfn)
    as [->|[name' [Hname' ->]]].
  - left. exact Hname.
  - right. rewrite Hname in Hname'. injection Hname' as <-. reflexivity.
Qed.

Lemma event_time_filter_names_event_time_column_witness :
  let self := Fixtures.resolver (Fixtures.empty_manifest true)
                (Fixtures.node ModelNode "model.proj.m" None None)
                (Fixtures.run_config (Some (Sample.mk 10 20)) false) in
  let quoted := EventTimeFilter.mk (Some Fixtures.quoted_ts) 10 20 in
  let raw := EventTimeFilter.mk (Some "ts") 10 20 in
  (resolve_event_time_filter self (Fixtures.events (Some true) None) = Ok (Some quoted)
   /\ exists name,
        Some "ts" = Some name
        /\ name <> ""
        /\ (EventTimeFilter.field_name quoted = Some name
            \/ EventTimeFilter.field_name quoted
               = Some (Column.double_quote +:+ name +:+ Column.double_quote)))
  /\ (resolve_event_time_filter self (Fixtures.events None None) = Ok (Some raw)
      /\ exists name,
           Some "ts" = Some name
           /\ name <> ""
           /\ (EventTimeFilter.field_name raw = Some name
               \/ EventTimeFilter.field_name raw
                  = Some (Column.double_quote +:+ name +:+ Column.double_quote))).
Proof.
  intros self quoted raw. split; (split; [reflexivity|]).
  - exact (event_time_filter_names_event_time_column self
             (Fixtures.events (Some true) None) quoted eq_refl).
  - exact (event_time_filter_names_event_time_column self
             (Fixtures.events None None) raw eq_refl).
Defined.

(** Outside sample mode only the microbatch condition produces a filter, and
    the filter is then the assigned batch's window. *)
Theorem unsampled_filter_only_for_microbatch
        (self : BaseResolver.t) (target : Target.t) (f : EventTimeFilter.t) :
  RuntimeConfig.sample (config self) = None ->
  resolve_event_time_filter self target = Ok (Some f) ->
  exists batch,
    Node.cls (model self) = ModelNode
    /\ Node.materialized (model self) = "incremental"
    /\ Node.incremental_strategy (model self) = Some "microbatch"
    /\ Manifest.use_microbatch_batches (manifest self)
         (RuntimeConfig.project_name (config self)) = true
    /\ Node.batch (model self) = Some batch
    /\ EventTimeFilter.start f = Batch.event_time_start batch
    /\ EventTimeFilter.end_ f = Batch.event_time_end batch.
Proof.
  intros Hs Hf.
  destruct (resolve_event_time_filter_guard self target f Hf) as [Hcfg _].
  revert Hf. unfold resolve_event_time_filter.
  destruct (resolve_event_time_field_name_total self target Hcfg) as [fn ->]. simpl.
  destruct (_ && _ && _); [|discriminate].
  destruct (microbatch_batch self) as [batch|] eqn:Hmb; rewrite Hs; [|discriminate].
  intros [= <-]. exists batch.
  apply microbatch_batch_some in Hmb as [H1 [H2 [H3 [H4 H5]]]].
  repeat split; assumption.
Qed.

Lemma unsampled_filter_only_for_microbatch_witness :
  exists batch,
    (ModelNode : NodeClass) = ModelNode
    /\ "incremental" = "incremental"
    /\ Some "microbatch" = Some "microbatch"
    /\ true = true
    /\ Some (Batch.mk 15 30) = Some batch
    /\ 15 = Batch.event_time_start batch
    /\ 30 = Batch.event_time_end batch.
Proof.
  exact (unsampled_filter_only_for_microbatch
           (Fixtures.resolver (Fixtures.empty_manifest true)
              (Fixtures.node ModelNode "model.proj.m" (Some "microbatch")
                 (Some (Batch.mk 15 30)))
              (Fixtures.run_config None false))
           (Fixtures.events None None)
           (EventTimeFilter.mk (Some "ts") 15 30) eq_refl eq_refl).
Defined.

(** For a sampled microbatch read -- the requester is a microbatch model
    with an assigned batch, the run has a sample window, and the target
    declares an event-time column -- a filter is returned and nothing is
    raised, and its window is the set intersection of the sample window and
    the batch window: an instant lies in it exactly when it lies in both.
    That holds also when the two windows are disjoint: the filter is still
    returned, with an empty window. *)
Theorem sampled_microbatch_window_is_intersection
        (self : BaseResolver.t) (target : Target.t) (batch : Batch.t) (s : Sample.t) :
  Node.cls (model self) = ModelNode ->
  Node.materialized (model self) = "incremental" ->
  Node.incremental_strategy (model self) = Some "microbatch" ->
  Manifest.use_microbatch_batches (manifest self)
    (RuntimeConfig.project_name (config self)) = true ->
  Node.batch (model self) = Some batch ->
  RuntimeConfig.sample (config self) = Some s ->
  has_event_time_config target = true ->
  event_time_truthy target = true ->
  exists f,
    resolve_event_time_filter self target = Ok (Some f)
    /\ (forall t : Z,
          EventTimeFilter.start f <= t < EventTimeFilter.end_ f <->
          (Sample.start s <= t < Sample.end_ s
           /\ Batch.event_time_start batch <= t < Batch.event_time_end batch))
    /\ (Sample.end_ s <= Batch.event_time_start batch
        \/ Batch.event_time_end batch <= Sample.start s ->
        EventTimeFilter.end_ f <= EventTimeFilter.start f).
Proof.
  intros Hcls Hmat Hstrat Hbatches Hbatch Hs Hcfg Het.
  assert (Hmb : microbatch_batch self = Some batch).
  { apply microbatch_batch_some. auto. }
  assert (Hms : is_model_or_snapshot (model self) = true).
  { unfold is_model_or_snapshot. rewrite Hcls. reflexivity. }
  destruct (resolve_event_time_field_name_total self target Hcfg) as [fn Hfn].
  unfold resolve_event_time_filter.
  rewrite Hfn, Hcfg, Het, Hms, Hmb, Hs. simpl.
  eexists. split; [reflexivity|]. simpl.
  destruct (Z.gtb_spec (Sample.start s) (Batch.event_time_start batch));
    destruct (Z.ltb_spec (Sample.end_ s) (Batch.event_time_end batch));
    split; try (intros t); lia.
Qed.

Lemma sampled_microbatch_window_is_intersection_witness :
  let self := Fixtures.resolver (Fixtures.empty_manifest true)
                (Fixtures.node ModelNode "model.proj.m" (Some "microbatch")
                   (Some (Batch.mk 15 30)))
                (Fixtures.run_config (Some (Sample.mk 10 12)) false) in
  let target := Fixtures.events None None in
  resolve_event_time_filter self target
  = Ok (Some (EventTimeFilter.mk (Some "ts") 15 12))
  /\ exists f,
       resolve_event_time_filter self target = Ok (Some f)
       /\ (forall t : Z,
             EventTimeFilter.start f <= t < EventTimeFilter.end_ f <->
             (10 <= t < 12 /\ 15 <= t < 30))
       /\ (12 <= 15 \/ 30 <= 10 ->
           EventTimeFilter.end_ f <= EventTimeFilter.start f).
Proof.
  intros self target. split; [reflexivity|].
  exact (sampled_microbatch_window_is_intersection self target
           (Batch.mk 15 30) (Sample.mk 10 12)
           eq_refl eq_refl eq_refl eq_refl eq_refl eq_refl eq_refl eq_refl).
Defined.

End EventTimeFilterCases.

(** ** The [ref] resolvers: validation, access and the relation built *)

Section RefResolverCases.
Import BaseResolver RefResolver.

Lemma resolve_event_time_filter_total (self : BaseResolver.t) (target : Target.t) :
  has_event_time_config target = true ->
  exists filter, resolve_event_time_filter self target = Ok filter.
Proof.
  intros Hcfg. unfold resolve_event_time_filter.
  destruct (resolve_event_time_field_name_total self target Hcfg) as [fn ->]. simpl.
  destruct (_ && _ && _); [|eauto].
  destruct (microbatch_batch self), (RuntimeConfig.sample (config self)); eauto.
Qed.

Lemma resolve_not_parse (cls : RefResolverClass) (self : BaseResolver.t)
      (name package version : PyVal) :
  cls <> ParseRefResolver ->
  resolve cls self name package version = runtime_resolve cls self name package version.
Proof. destruct cls; [congruence|reflexivity..]. Qed.

(** What a successful runtime resolution went through. *)
Lemma resolve_ok_inv (cls : RefResolverClass) (self : BaseResolver.t)
      (name package version : PyVal) (r : Relation.t) :
  cls <> ParseRefResolver ->
  result (resolve cls self name package version) = Ok r ->
  exists target effs,
    Manifest.resolve_ref (manifest self) (model self) name package version
      (RuntimeConfig.project_name (config self)) (Node.package_name (model self))
    = RefFound target
    /\ Manifest.is_invalid_private_ref (manifest self) (model self) target
         (RuntimeConfig.dependencies (config self)) = false
    /\ Manifest.is_invalid_protected_ref (manifest self) (model self) target
         (RuntimeConfig.dependencies (config self)) = false
    /\ validate cls self target name package version = Ok tt
    /\ create_relation cls self target = (Ok r, effs)
    /\ effects (resolve cls self name package version)
       = ManifestResolveRef name package version :: effs
    /\ model_after (resolve cls self name package version) = model self.
Proof.
  intros Hcls. rewrite (resolve_not_parse cls self name package version Hcls).
  unfold runtime_resolve, current_project.
  destruct (Manifest.resolve_ref _ _ _ _ _ _ _) as [|d|target];
    cbn [result]; try discriminate.
  destruct (Manifest.is_invalid_private_ref _ _ _ _) eqn:Hpriv;
    cbn [result]; try discriminate.
  destruct (Manifest.is_invalid_protected_ref _ _ _ _) eqn:Hprot;
    cbn [result]; try discriminate.
  destruct (validate cls self target name package version) as [[]|e] eqn:Hval;
    cbn [result]; try discriminate.
  destruct (create_relation cls self target) as [res effs] eqn:Hc.
  cbn [result effects model_after]. intros ->.
  exists target, effs. auto 10.
Qed.

(** The relation [create_relation] builds once the filter was computed. *)
Lemma runtime_create_relation_with_filter (cls : RefResolverClass) (self : BaseResolver.t)
      (target : Target.t) (filter : option EventTimeFilter.t) :
  resolve_event_time_filter self target = Ok filter ->
  runtime_create_relation cls self target =
  let limit := resolve_limit cls self in
  let here := Relation.create_from (RunQuoting (config self)) (OfTarget target)
                limit filter in
  let probe := AdapterGetRelation (Target.database target) (Target.schema target)
                 (Target.identifier target) in
  if Target.is_ephemeral_model target then
    (Ok (Relation.create_ephemeral_from target limit filter),
     [ModelSetCte (Target.unique_id target)])
  else
    match Target.defer_relation target with
    | Some d =>
        let there := Relation.create_from (RunQuoting (config self))
                       (OfDeferRelation d) limit filter in
        if RuntimeConfig.defer (config self) then
          if RuntimeConfig.favor_state (config self)
             && negb (bool_decide (Target.unique_id target ∈ SELECTED_RESOURCES self))
          then (Ok there, [])
          else if Adapter.get_relation (adapter self) (Target.database target)
                    (Target.schema target) (Target.identifier target)
               then (Ok here, [probe])
               else (Ok there, [probe])
        else (Ok here, [])
    | None => (Ok here, [])
    end.
Proof.
  intros Hf.
  unfold runtime_create_relation. rewrite Hf. cbn [bind].
  destruct (Target.is_ephemeral_model target); [reflexivity|].
  destruct (Target.defer_relation target) as [d|]; [|reflexivity].
  destruct (RuntimeConfig.defer (config self)); [|reflexivity].
  destruct (RuntimeConfig.favor_state (config self) && _); [reflexivity|].
  destruct (Adapter.get_relation _ _ _ _); reflexivity.
Qed.

(** A relation is only built after the filter was computed without error. *)
Lemma runtime_create_relation_cases (cls : RefResolverClass) (self : BaseResolver.t)
      (target : Target.t) (r : Relation.t) (effs : list Effect) :
  runtime_create_relation cls self target = (Ok r, effs) ->
  exists filter,
    resolve_event_time_filter self target = Ok filter
    /\ runtime_create_relation cls self target =
       let limit := resolve_limit cls self in
       let here := Relation.create_from (RunQuoting (config self)) (OfTarget target)
                     limit filter in
       let probe := AdapterGetRelation (Target.database target) (Target.schema target)
                      (Target.identifier target) in
       if Target.is_ephemeral_model target then
         (Ok (Relation.create_ephemeral_from target limit filter),
          [ModelSetCte (Target.unique_id target)])
       else
         match Target.defer_relation target with
         | Some d =>
             let there := Relation.create_from (RunQuoting (config self))
                            (OfDeferRelation d) limit filter in
             if RuntimeConfig.defer (config self) then
               if RuntimeConfig.favor_state (config self)
                  && negb (bool_decide (Target.unique_id target ∈ SELECTED_RESOURCES self))
               then (Ok there, [])
               else if Adapter.get_relation (adapter self) (Target.database target)
                         (Target.schema target) (Target.identifier target)
                    then (Ok here, [probe])
                    else (Ok there, [probe])
             else (Ok here, [])
         | None => (Ok here, [])
         end.
Proof.
  intros Hc.
  destruct (resolve_event_time_filter self target) as [filter|e] eqn:Hf.
  - exists filter. split; [reflexivity|].
    exact (runtime_create_relation_with_filter cls self target filter Hf).
  - exfalso. revert Hc. unfold runtime_create_relation. rewrite Hf. cbn [bind].
    destruct (Target.is_ephemeral_model target); [discriminate|].
    destruct (Target.defer_relation target) as [d|]; [|discriminate].
    destruct (RuntimeConfig.defer (config self)); [|discriminate].
    destruct (RuntimeConfig.favor_state (config self) && _); [discriminate|].
    destruct (negb _); discriminate.
Qed.

Lemma create_relation_ok_inv (cls : RefResolverClass) (self : BaseResolver.t)
      (target : Target.t) (r : Relation.t) (effs : list Effect) :
  create_relation cls self target = (Ok r, effs) ->
  runtime_create_relation cls self target = (Ok r, effs)
  /\ (cls = OperationRefResolver -> Target.is_ephemeral_model target = false).
Proof.
  unfold create_relation. destruct cls; try (intros H; split; [exact H|discriminate]).
  destruct (Target.is_ephemeral_model target); [discriminate|].
  intros H. split; [exact H|reflexivity].
Qed.

(** Every relation a runtime, operation or unit-test [ref] returns carries
    the resolver's limit and the event-time filter computed for the target
    that the manifest resolved: all branches of [create_relation] pass the
    same two values. *)
Theorem runtime_ref_relation_limit_and_filter
        (cls : RefResolverClass) (self : BaseResolver.t)
        (name package version : PyVal) (r : Relation.t) :
  cls <> ParseRefResolver ->
  result (resolve cls self name package version) = Ok r ->
  exists target,
    Manifest.resolve_ref (manifest self) (model self) name package version
      (RuntimeConfig.project_name (config self)) (Node.package_name (model self))
    = RefFound target
    /\ Relation.limit r = resolve_limit cls self
    /\ resolve_event_time_filter self target = Ok (Relation.event_time_filter r).
Proof.
  intros Hcls Hr.
  destruct (resolve_ok_inv cls self name package version r Hcls Hr)
    as [target [effs [Hlook [_ [_ [_ [Hc _]]]]]]].
  exists target. split; [exact Hlook|].
  apply create_relation_ok_inv in Hc as [Hc _].
  destruct (runtime_create_relation_cases cls self target r effs Hc)
    as [filter [Hf Hcases]].
  rewrite Hcases in Hc. rewrite Hf. cbv zeta in Hc.
  destruct (Target.is_ephemeral_model target).
  { injection Hc as <- _. split; reflexivity. }
  destruct (Target.defer_relation target) as [d|].
  2:{ injection Hc as <- _. split; reflexivity. }
  destruct (RuntimeConfig.defer (config self)).
  2:{ injection Hc as <- _. split; reflexivity. }
  destruct (RuntimeConfig.favor_state (config self) && _).
  { injection Hc as <- _. split; reflexivity. }
  destruct (Adapter.get_relation _ _ _ _); injection Hc as <- _; split; reflexivity.
Qed.

Lemma runtime_ref_relation_limit_and_filter_witness :
  let target := Fixtures.events (Some true) None in
  let self := Fixtures.resolver_for target ModelNode
                (Fixtures.run_config (Some (Sample.mk 10 20)) true) in
  exists target',
    RefFound target = RefFound target'
    /\ Some 0 = resolve_limit OperationRefResolver self
    /\ resolve_event_time_filter self target'
       = Ok (Some (EventTimeFilter.mk (Some Fixtures.quoted_ts) 10 20)).
Proof.
  intros target self.
  apply (runtime_ref_relation_limit_and_filter OperationRefResolver self
           (VStr "events") VNone VNone
           (Relation.create_from (RunQuoting (config self)) (OfTarget target) (Some 0)
              (Some (EventTimeFilter.mk (Some Fixtures.quoted_ts) 10 20)))).
  - discriminate.
  - vm_compute. reflexivity.
Defined.

(** A runtime [ref] is answered from the target's deferred counterpart in
    exactly one situation: the target is not ephemeral, it has a deferred
    counterpart, the run defers, and either the target is unselected while
    state is favoured or the adapter does not find the target's own
    relation. *)
Theorem runtime_ref_defers_exactly_when
        (cls : RefResolverClass) (self : BaseResolver.t)
        (name package version : PyVal) (r : Relation.t) :
  cls <> ParseRefResolver ->
  result (resolve cls self name package version) = Ok r ->
  exists target,
    Manifest.resolve_ref (manifest self) (model self) name package version
      (RuntimeConfig.project_name (config self)) (Node.package_name (model self))
    = RefFound target
    /\ forall d,
        (exists limit filter,
            r = Relation.create_from (RunQuoting (config self)) (OfDeferRelation d)
                  limit filter)
        <-> (Target.is_ephemeral_model target = false
             /\ Target.defer_relation target = Some d
             /\ RuntimeConfig.defer (config self) = true
             /\ ((RuntimeConfig.favor_state (config self) = true
                  /\ Target.unique_id target ∉ SELECTED_RESOURCES self)
                 \/ Adapter.get_relation (adapter self) (Target.database target)
                      (Target.schema target) (Target.identifier target) = false)).
Proof.
  intros Hcls Hr.
  destruct (resolve_ok_inv cls self name package version r Hcls Hr)
    as [target [effs [Hlook [_ [_ [_ [Hc _]]]]]]].
  exists target. split; [exact Hlook|]. intros d.
  apply create_relation_ok_inv in Hc as [Hc _].
  destruct (runtime_create_relation_cases cls self target r effs Hc)
    as [filter [_ Hcases]].
  rewrite Hcases in Hc. cbv zeta in Hc.
  destruct (Target.is_ephemeral_model target).
  { injection Hc as <- _. split; [intros [? [? ?]]; discriminate|intros [? _]; discriminate]. }
  destruct (Target.defer_relation target) as [d'|].
  2:{ injection Hc as <- _.
      split; [intros [? [? ?]]; discriminate|intros [_ [? _]]; discriminate]. }
  destruct (RuntimeConfig.defer (config self)).
  2:{ injection Hc as <- _.
      split; [intros [? [? ?]]; discriminate|intros [_ [_ [? _]]]; discriminate]. }
  destruct (RuntimeConfig.favor_state (config self)); cbn [andb] in Hc.
  - destruct (decide (Target.unique_id target ∈ SELECTED_RESOURCES self)) as [Hsel|Hsel].
    + rewrite bool_decide_eq_true_2 in Hc by exact Hsel. cbn [negb] in Hc.
      destruct (Adapter.get_relation _ _ _ _); injection Hc as <- _.
      * split; [intros [? [? ?]]; discriminate|].
        intros [_ [_ [_ [[_ ?]|?]]]]; [contradiction|discriminate].
      * split.
        { intros [? [? [= <-]]]. auto. }
        { intros [_ [[= <-] _]]. eauto. }
    + rewrite bool_decide_eq_false_2 in Hc by exact Hsel. cbn [negb] in Hc.
      injection Hc as <- _. split.
      { intros [? [? [= <-]]]. auto 10. }
      { intros [_ [[= <-] _]]. eauto. }
  - destruct (Adapter.get_relation _ _ _ _); injection Hc as <- _.
    + split; [intros [? [? ?]]; discriminate|].
      intros [_ [_ [_ [[? _]|?]]]]; discriminate.
    + split.
      { intros [? [? [= <-]]]. auto. }
      { intros [_ [[= <-] _]]. eauto. }
Qed.

Lemma runtime_ref_defers_exactly_when_witness :
  let target := Fixtures.orders in
  let d := Fixtures.prod_orders in
  let favouring := Fixtures.deferring_resolver Fixtures.finding_adapter [] target true in
  let probing := Fixtures.deferring_resolver Fixtures.missing_adapter [] target false in
  let selected :=
    Fixtures.deferring_resolver Fixtures.finding_adapter ["model.proj.orders"]
      target true in
  let run self := result (resolve RuntimeRefResolver self (VStr "orders") VNone VNone) in
  let there self :=
    Relation.create_from (RunQuoting (config self)) (OfDeferRelation d) None None in
  let here self :=
    Relation.create_from (RunQuoting (config self)) (OfTarget target) None None in
  let deferred_exactly_when self r :=
    exists target',
      RefFound target = RefFound target'
      /\ forall d',
          (exists limit filter,
              r = Relation.create_from (RunQuoting (config self)) (OfDeferRelation d')
                    limit filter)
          <-> (Target.is_ephemeral_model target' = false
               /\ Target.defer_relation target' = Some d'
               /\ RuntimeConfig.defer (config self) = true
               /\ ((RuntimeConfig.favor_state (config self) = true
                    /\ Target.unique_id target' ∉ SELECTED_RESOURCES self)
                   \/ Adapter.get_relation (adapter self) (Target.database target')
                        (Target.schema target') (Target.identifier target') = false)) in
  (run favouring = Ok (there favouring)
   /\ deferred_exactly_when favouring (there favouring))
  /\ (run probing = Ok (there probing)
      /\ deferred_exactly_when probing (there probing))
  /\ (run selected = Ok (here selected)
      /\ deferred_exactly_when selected (here selected)).
Proof.
  intros target d favouring probing selected run there here deferred_exactly_when.
  assert (Hfavouring : run favouring = Ok (there favouring)) by (vm_compute; reflexivity).
  assert (Hprobing : run probing = Ok (there probing)) by (vm_compute; reflexivity).
  assert (Hselected : run selected = Ok (here selected)) by (vm_compute; reflexivity).
  split; [|split].
  - split; [exact Hfavouring|].
    apply (runtime_ref_defers_exactly_when RuntimeRefResolver favouring
             (VStr "orders") VNone VNone (there favouring));
      [discriminate|exact Hfavouring].
  - split; [exact Hprobing|].
    apply (runtime_ref_defers_exactly_when RuntimeRefResolver probing
             (VStr "orders") VNone VNone (there probing));
      [discriminate|exact Hprobing].
  - split; [exact Hselected|].
    apply (runtime_ref_defers_exactly_when RuntimeRefResolver selected
             (VStr "orders") VNone VNone (here selected));
      [discriminate|exact Hselected].
Defined.

(** The adapter is asked whether the target's relation exists only on the
    one path that needs the answer -- a non-ephemeral target with a deferred
    counterpart, in a deferring run, that is not already settled by the
    favour-state rule -- and an ephemeral target is registered as a CTE of the
    requesting node instead. *)
Theorem runtime_ref_adapter_probe
        (cls : RefResolverClass) (self : BaseResolver.t)
        (name package version : PyVal) (r : Relation.t) :
  cls <> ParseRefResolver ->
  result (resolve cls self name package version) = Ok r ->
  exists target,
    Manifest.resolve_ref (manifest self) (model self) name package version
      (RuntimeConfig.project_name (config self)) (Node.package_name (model self))
    = RefFound target
    /\ (In (AdapterGetRelation (Target.database target) (Target.schema target)
              (Target.identifier target))
           (effects (resolve cls self name package version))
        <-> (Target.is_ephemeral_model target = false
             /\ is_Some (Target.defer_relation target)
             /\ RuntimeConfig.defer (config self) = true
             /\ ~ (RuntimeConfig.favor_state (config self) = true
                   /\ Target.unique_id target ∉ SELECTED_RESOURCES self)))
    /\ (In (ModelSetCte (Target.unique_id target))
           (effects (resolve cls self name package version))
        <-> Target.is_ephemeral_model target = true).
Proof.
  intros Hcls Hr.
  destruct (resolve_ok_inv cls self name package version r Hcls Hr)
    as [target [effs [Hlook [_ [_ [_ [Hc [Heffs _]]]]]]]].
  exists target. split; [exact Hlook|]. rewrite Heffs.
  apply create_relation_ok_inv in Hc as [Hc _].
  destruct (runtime_create_relation_cases cls self target r effs Hc)
    as [filter [_ Hcases]].
  rewrite Hcases in Hc. cbv zeta in Hc.
  assert (Hin : forall e es, In e (ManifestResolveRef name package version :: es) <->
                             (e = ManifestResolveRef name package version \/ In e es)).
  { intros e es. simpl. split; intros [H|H]; auto. }
  rewrite !Hin.
  destruct (Target.is_ephemeral_model target).
  { injection Hc as _ <-. simpl. split; split.
    - intros [|[|[]]]; discriminate.
    - intros [? _]; discriminate.
    - reflexivity.
    - auto. }
  destruct (Target.defer_relation target) as [d|].
  2:{ injection Hc as _ <-. simpl. split; split.
      - intros [|[]]; discriminate.
      - intros [_ [[? ?] _]]; discriminate.
      - intros [|[]]; discriminate.
      - discriminate. }
  destruct (RuntimeConfig.defer (config self)).
  2:{ injection Hc as _ <-. simpl. split; split.
      - intros [|[]]; discriminate.
      - intros [_ [_ [? _]]]; discriminate.
      - intros [|[]]; discriminate.
      - discriminate. }
  assert (Hsetcte : forall es,
             (forall e, In e es -> exists a b c, e = AdapterGetRelation a b c) ->
             (ModelSetCte (Target.unique_id target)
              = ManifestResolveRef name package version
              \/ In (ModelSetCte (Target.unique_id target)) es) <-> false = true).
  { intros es Hes. split; [|discriminate].
    intros [|Hi]; [discriminate|]. destruct (Hes _ Hi) as [? [? [? ?]]]. discriminate. }
  destruct (RuntimeConfig.favor_state (config self)); cbn [andb] in Hc.
  - destruct (decide (Target.unique_id target ∈ SELECTED_RESOURCES self)) as [Hsel|Hsel].
    + rewrite bool_decide_eq_true_2 in Hc by exact Hsel. cbn [negb] in Hc.
      assert (effs = [AdapterGetRelation (Target.database target) (Target.schema target)
                        (Target.identifier target)]) as ->.
      { destruct (Adapter.get_relation _ _ _ _); injection Hc as _ <-; reflexivity. }
      split.
      * split; [|simpl; auto].
        intros _. split; [reflexivity|]. split; [eauto|]. split; [reflexivity|].
        intros [_ ?]. contradiction.
      * apply Hsetcte. intros e [<-|[]]. eauto.
    + rewrite bool_decide_eq_false_2 in Hc by exact Hsel. cbn [negb] in Hc.
      injection Hc as _ <-. split.
      * split; [intros [|[]]; discriminate|].
        intros [_ [_ [_ Hn]]]. exfalso. apply Hn. auto.
      * apply Hsetcte. intros e [].
  - assert (effs = [AdapterGetRelation (Target.database target) (Target.schema target)
                      (Target.identifier target)]) as ->.
    { destruct (Adapter.get_relation _ _ _ _); injection Hc as _ <-; reflexivity. }
    split.
    + split; [|simpl; auto].
      intros _. split; [reflexivity|]. split; [eauto|]. split; [reflexivity|].
      intros [? _]. discriminate.
    + apply Hsetcte. intros e [<-|[]]. eauto.
Qed.

Lemma runtime_ref_adapter_probe_witness :
  let probing :=
    Fixtures.deferring_resolver Fixtures.finding_adapter [] Fixtures.orders false in
  let favouring :=
    Fixtures.deferring_resolver Fixtures.finding_adapter [] Fixtures.orders true in
  let registering :=
    Fixtures.deferring_resolver Fixtures.finding_adapter [] Fixtures.eph false in
  let lookup name := ManifestResolveRef (VStr name) VNone VNone in
  let calls self name := effects (resolve RuntimeRefResolver self (VStr name) VNone VNone) in
  let probe_and_cte self name target :=
    exists target',
      RefFound target = RefFound target'
      /\ (In (AdapterGetRelation (Target.database target') (Target.schema target')
                (Target.identifier target'))
             (calls self name)
          <-> (Target.is_ephemeral_model target' = false
               /\ is_Some (Target.defer_relation target')
               /\ RuntimeConfig.defer (config self) = true
               /\ ~ (RuntimeConfig.favor_state (config self) = true
                     /\ Target.unique_id target' ∉ SELECTED_RESOURCES self)))
      /\ (In (ModelSetCte (Target.unique_id target')) (calls self name)
          <-> Target.is_ephemeral_model target' = true) in
  (calls probing "orders"
   = [lookup "orders"; AdapterGetRelation (Some "db") "main" "orders"]
   /\ probe_and_cte probing "orders" Fixtures.orders)
  /\ (calls favouring "orders" = [lookup "orders"]
      /\ probe_and_cte favouring "orders" Fixtures.orders)
  /\ (calls registering "eph" = [lookup "eph"; ModelSetCte "model.proj.eph"]
      /\ probe_and_cte registering "eph" Fixtures.eph).
Proof.
  intros probing favouring registering lookup calls probe_and_cte.
  split; [|split].
  - split; [vm_compute; reflexivity|].
    apply (runtime_ref_adapter_probe RuntimeRefResolver probing
             (VStr "orders") VNone VNone
             (Relation.create_from (RunQuoting (config probing))
                (OfTarget Fixtures.orders) None None));
      [discriminate|vm_compute; reflexivity].
  - split; [vm_compute; reflexivity|].
    apply (runtime_ref_adapter_probe RuntimeRefResolver favouring
             (VStr "orders") VNone VNone
             (Relation.create_from (RunQuoting (config favouring))
                (OfDeferRelation Fixtures.prod_orders) None None));
      [discriminate|vm_compute; reflexivity].
  - split; [vm_compute; reflexivity|].
    apply (runtime_ref_adapter_probe RuntimeRefResolver registering
             (VStr "eph") VNone VNone
             (Relation.create_ephemeral_from Fixtures.eph None None));
      [discriminate|vm_compute; reflexivity].
Defined.

End RefResolverCases.

(** ** The [ref] resolvers: what each phase refuses *)

Section RefResolverErrors.
Import BaseResolver RefResolver.

(** A found target that passes both access checks ends in [validate] and
    then [create_relation]. *)
Lemma runtime_resolve_found (cls : RefResolverClass) (self : BaseResolver.t)
      (name package version : PyVal) (target : Target.t) :
  Manifest.resolve_ref (manifest self) (model self) name package version
    (RuntimeConfig.project_name (config self)) (Node.package_name (model self))
  = RefFound target ->
  Manifest.is_invalid_private_ref (manifest self) (model self) target
    (RuntimeConfig.dependencies (config self)) = false ->
  Manifest.is_invalid_protected_ref (manifest self) (model self) target
    (RuntimeConfig.dependencies (config self)) = false ->
  runtime_resolve cls self name package version =
  match validate cls self target name package version with
  | Raise e => mkOutcome (Raise e) (model self) [ManifestResolveRef name package version]
  | Ok _ =>
      mkOutcome (fst (create_relation cls self target)) (model self)
        (ManifestResolveRef name package version :: snd (create_relation cls self target))
  end.
Proof.
  intros Hlook Hpriv Hprot. unfold runtime_resolve, current_project.
  rewrite Hlook, Hpriv, Hprot.
  destruct (validate cls self target name package version); [|reflexivity].
  destruct (create_relation cls self target); reflexivity.
Qed.

(** A target the requester did not declare as a dependency is refused by the
    runtime and unit-test resolvers with the bad-context error, after the
    lookup and before any relation is built; the operation resolver skips
    that check and goes on to build the relation. *)
Theorem undeclared_dependency_refused_except_for_operations
        (self : BaseResolver.t) (name package version : PyVal) (target : Target.t) :
  Manifest.resolve_ref (manifest self) (model self) name package version
    (RuntimeConfig.project_name (config self)) (Node.package_name (model self))
  = RefFound target ->
  Manifest.is_invalid_private_ref (manifest self) (model self) target
    (RuntimeConfig.dependencies (config self)) = false ->
  Manifest.is_invalid_protected_ref (manifest self) (model self) target
    (RuntimeConfig.dependencies (config self)) = false ->
  Target.unique_id target ∉ Node.depends_on_nodes (model self) ->
  (forall cls, cls = RuntimeRefResolver \/ cls = RuntimeUnitTestRefResolver ->
     resolve cls self name package version
     = mkOutcome (Raise (RefBadContextError (Node.unique_id (model self))
                           name package version))
         (model self) [ManifestResolveRef name package version])
  /\ result (resolve OperationRefResolver self name package version)
     = fst (create_relation OperationRefResolver self target).
Proof.
  intros Hlook Hpriv Hprot Hdep. split.
  - intros cls Hcls.
    rewrite resolve_not_parse by (destruct Hcls as [->| ->]; discriminate).
    rewrite (runtime_resolve_found cls self name package version target Hlook Hpriv Hprot).
    assert (Hval : validate cls self target name package version
                   = Raise (RefBadContextError (Node.unique_id (model self))
                              name package version)).
    { destruct Hcls as [->| ->]; unfold validate;
        rewrite bool_decide_eq_false_2 by exact Hdep; reflexivity. }
    rewrite Hval. reflexivity.
  - rewrite resolve_not_parse by discriminate.
    rewrite (runtime_resolve_found OperationRefResolver self name package version target
               Hlook Hpriv Hprot).
    reflexivity.
Qed.

Lemma undeclared_dependency_refused_except_for_operations_witness :
  let target := Fixtures.events (Some true) None in
  let self :=
    BaseResolver.mk Fixtures.finding_adapter
      (Fixtures.node ModelNode "model.proj.m" None None)
      (Fixtures.run_config None false)
      (Manifest.mk (fun _ => true) (fun _ _ _ _ _ _ => RefFound target)
         (fun _ _ _ => false) (fun _ _ _ => false))
      [] in
  result (resolve RuntimeRefResolver self (VStr "events") VNone VNone)
  = Raise (RefBadContextError "model.proj.m" (VStr "events") VNone VNone)
  /\ result (resolve OperationRefResolver self (VStr "events") VNone VNone)
     = Ok (Relation.create_from (RunQuoting (config self)) (OfTarget target) None None).
Proof.
  intros target self.
  destruct (undeclared_dependency_refused_except_for_operations self
              (VStr "events") VNone VNone target eq_refl eq_refl eq_refl)
    as [Hruntime Hoperation].
  - simpl. intros H. inversion H.
  - split.
    + rewrite (Hruntime RuntimeRefResolver (or_introl eq_refl)). reflexivity.
    + rewrite Hoperation. vm_compute. reflexivity.
Defined.

(** An ephemeral target: the operation resolver refuses it, naming the
    target, without registering a CTE; the runtime and unit-test resolvers
    register the CTE and return the ephemeral relation of the target. *)
Theorem ephemeral_target_by_phase
        (self : BaseResolver.t) (name package version : PyVal) (target : Target.t) :
  Manifest.resolve_ref (manifest self) (model self) name package version
    (RuntimeConfig.project_name (config self)) (Node.package_name (model self))
  = RefFound target ->
  Manifest.is_invalid_private_ref (manifest self) (model self) target
    (RuntimeConfig.dependencies (config self)) = false ->
  Manifest.is_invalid_protected_ref (manifest self) (model self) target
    (RuntimeConfig.dependencies (config self)) = false ->
  Target.is_ephemeral_model target = true ->
  resolve OperationRefResolver self name package version
  = mkOutcome (Raise (OperationsCannotRefEphemeralNodesError (Target.name target)
                        (Node.unique_id (model self))))
      (model self) [ManifestResolveRef name package version]
  /\ (forall cls, cls = RuntimeRefResolver \/ cls = RuntimeUnitTestRefResolver ->
      Target.unique_id target ∈ Node.depends_on_nodes (model self) ->
      has_event_time_config target = true ->
      exists filter,
        resolve_event_time_filter self target = Ok filter
        /\ resolve cls self name package version
           = mkOutcome (Ok (Relation.create_ephemeral_from target
                              (resolve_limit cls self) filter))
               (model self)
               [ManifestResolveRef name package version;
                ModelSetCte (Target.unique_id target)]).
Proof.
  intros Hlook Hpriv Hprot Heph. split.
  - rewrite resolve_not_parse by discriminate.
    rewrite (runtime_resolve_found OperationRefResolver self name package version target
               Hlook Hpriv Hprot).
    unfold validate, create_relation. rewrite Heph. reflexivity.
  - intros cls Hcls Hdep Hcfg.
    destruct (resolve_event_time_filter_total self target Hcfg) as [filter Hf].
    pose proof (runtime_create_relation_with_filter cls self target filter Hf) as Hcases.
    exists filter. split; [exact Hf|].
    rewrite resolve_not_parse by (destruct Hcls as [->| ->]; discriminate).
    rewrite (runtime_resolve_found cls self name package version target Hlook Hpriv Hprot).
    assert (Hval : validate cls self target name package version = Ok tt).
    { destruct Hcls as [->| ->]; unfold validate;
        rewrite bool_decide_eq_true_2 by exact Hdep; reflexivity. }
    assert (Hcreate : create_relation cls self target
                      = runtime_create_relation cls self target).
    { destruct Hcls as [->| ->]; reflexivity. }
    rewrite Hval, Hcreate, Hcases. cbv zeta. rewrite Heph. reflexivity.
Qed.

Lemma ephemeral_target_by_phase_witness :
  let target :=
    Target.mk "model.proj.eph" "eph" "proj" None (Some "db") "main" "eph"
      (TargetConfig.mk NodeConfig None) [] None true None in
  let self := Fixtures.resolver_for target ModelNode (Fixtures.run_config None true) in
  result (resolve OperationRefResolver self (VStr "eph") VNone VNone)
  = Raise (OperationsCannotRefEphemeralNodesError "eph" "model.proj.requester")
  /\ result (resolve RuntimeRefResolver self (VStr "eph") VNone VNone)
     = Ok (Relation.create_ephemeral_from target (Some 0) None).
Proof.
  intros target self.
  destruct (ephemeral_target_by_phase self (VStr "eph") VNone VNone target
              eq_refl eq_refl eq_refl eq_refl) as [Hop Hrun].
  split.
  - rewrite Hop. reflexivity.
  - destruct (Hrun RuntimeRefResolver (or_introl eq_refl)) as [filter [Hf ->]].
    + simpl. left.
    + reflexivity.
    + simpl. f_equal. f_equal. vm_compute in Hf. congruence.
Defined.

(** Access checks run in every runtime phase, operations included, before
    the dependency check, and the private check comes first: a target that
    fails it is reported as private with its group as scope (the empty
    string when it has none); one that only fails the protected check is
    reported as protected with its package as scope. *)
Theorem access_violation_reported
        (cls : RefResolverClass) (self : BaseResolver.t)
        (name package version : PyVal) (target : Target.t) :
  cls <> ParseRefResolver ->
  Manifest.resolve_ref (manifest self) (model self) name package version
    (RuntimeConfig.project_name (config self)) (Node.package_name (model self))
  = RefFound target ->
  (Manifest.is_invalid_private_ref (manifest self) (model self) target
     (RuntimeConfig.dependencies (config self)) = true ->
   resolve cls self name package version
   = mkOutcome (Raise (DbtReferenceError (Node.unique_id (model self))
                         (Target.unique_id target) Private
                         (default "" (Target.group target))))
       (model self) [ManifestResolveRef name package version])
  /\ (Manifest.is_invalid_private_ref (manifest self) (model self) target
        (RuntimeConfig.dependencies (config self)) = false ->
      Manifest.is_invalid_protected_ref (manifest self) (model self) target
        (RuntimeConfig.dependencies (config self)) = true ->
      resolve cls self name package version
      = mkOutcome (Raise (DbtReferenceError (Node.unique_id (model self))
                            (Target.unique_id target) Protected
                            (Target.package_name target)))
          (model self) [ManifestResolveRef name package version]).
Proof.
  intros Hcls Hlook. rewrite (resolve_not_parse cls self name package version Hcls).
  unfold runtime_resolve, current_project. rewrite Hlook. split.
  - intros ->. reflexivity.
  - intros -> ->. reflexivity.
Qed.

Lemma access_violation_reported_witness :
  let target := Fixtures.events None None in
  let self :=
    BaseResolver.mk Fixtures.finding_adapter
      (Fixtures.node ModelNode "model.proj.m" None None)
      (Fixtures.run_config None false)
      (Manifest.mk (fun _ => true) (fun _ _ _ _ _ _ => RefFound target)
         (fun _ _ _ => true) (fun _ _ _ => true))
      [] in
  result (resolve OperationRefResolver self (VStr "events") VNone VNone)
  = Raise (DbtReferenceError "model.proj.m" "source.proj.raw.events" Private "").
Proof.
  intros target self.
  destruct (access_violation_reported OperationRefResolver self (VStr "events") VNone VNone
              target ltac:(discriminate) eq_refl) as [Hprivate _].
  rewrite (Hprivate eq_refl). reflexivity.
Defined.

(** A [ref] call with no positional argument or more than two is refused in
    every phase with the arguments error naming the node and carrying the
    arguments; nothing is looked up and the node is left as it was. *)
Theorem ref_call_bad_arity
        (cls : RefResolverClass) (self : BaseResolver.t) (args : list PyVal)
        (kwargs : gmap string PyVal) :
  length args <> 1%nat ->
  length args <> 2%nat ->
  __call__ cls self args kwargs
  = mkOutcome (Raise (RefArgsError (Node.unique_id (model self)) args)) (model self) [].
Proof.
  intros H1 H2. unfold __call__.
  destruct args as [|a1 [|a2 [|a3 rest]]]; simpl in *; try reflexivity; congruence.
Qed.

Lemma ref_call_bad_arity_witness :
  let self := Fixtures.resolver (Fixtures.empty_manifest false)
                (Fixtures.node ModelNode "model.proj.m" None None)
                (Fixtures.run_config None false) in
  result (__call__ RuntimeRefResolver self [VStr "a"; VStr "b"; VStr "c"] ∅)
  = Raise (RefArgsError "model.proj.m" [VStr "a"; VStr "b"; VStr "c"])
  /\ result (__call__ ParseRefResolver self [] ∅) = Raise (RefArgsError "model.proj.m" []).
Proof.
  intros self. split.
  - rewrite (ref_call_bad_arity RuntimeRefResolver self [VStr "a"; VStr "b"; VStr "c"] ∅);
      [reflexivity|simpl; lia|simpl; lia].
  - rewrite (ref_call_bad_arity ParseRefResolver self [] ∅);
      [reflexivity|simpl; lia|simpl; lia].
Defined.

(** Arguments of the wrong type are refused before the resolver acts: in
    every phase a call whose name is not a string, whose package is neither
    absent nor a string, or whose version is neither absent nor a string,
    integer or float raises a compilation error without any manifest lookup
    and without touching the node.  The name is checked first, then the
    package, then the version. *)
Theorem ref_call_type_errors_before_resolution
        (cls : RefResolverClass) (self : BaseResolver.t) (args : list PyVal)
        (kwargs : gmap string PyVal) (name package : PyVal) :
  (args = [name] /\ package = VNone) \/ args = [package; name] ->
  let version := py_or (dict_get kwargs "version") (dict_get kwargs "v") in
  let refused (msg : CompilationMsg) :=
    __call__ cls self args kwargs
    = mkOutcome (Raise (CompilationError msg)) (model self) [] in
  (isinstance_str name = false -> refused (RefNameNotStr name))
  /\ (isinstance_str name = true ->
      is_none package = false -> isinstance_str package = false ->
      refused (RefPackageNotStr package))
  /\ (isinstance_str name = true ->
      (is_none package || isinstance_str package) = true ->
      is_none version = false -> isinstance_str_int_float version = false ->
      refused (RefVersionBadType version)).
Proof.
  intros Hargs version refused. subst refused. cbv beta.
  assert (Hcall : __call__ cls self args kwargs =
                  match validate_args name package version with
                  | Raise e => mkOutcome (Raise e) (model self) []
                  | Ok _ => resolve cls self name package version
                  end).
  { unfold __call__. destruct Hargs as [[-> ->]| ->]; reflexivity. }
  rewrite Hcall. unfold validate_args. split; [|split].
  - intros ->. reflexivity.
  - intros -> -> ->. reflexivity.
  - intros -> Hpkg -> ->.
    destruct (is_none package), (isinstance_str package); try discriminate; reflexivity.
Qed.

Lemma ref_call_type_errors_before_resolution_witness :
  let target := Fixtures.events None None in
  let self := Fixtures.resolver_for target ModelNode (Fixtures.run_config None false) in
  __call__ RuntimeRefResolver self [VInt 1; VInt 2] ∅
  = mkOutcome (Raise (CompilationError (RefNameNotStr (VInt 2)))) (model self) []
  /\ __call__ RuntimeRefResolver self [VInt 1; VStr "events"] ∅
     = mkOutcome (Raise (CompilationError (RefPackageNotStr (VInt 1)))) (model self) [].
Proof.
  intros target self. split.
  - destruct (ref_call_type_errors_before_resolution RuntimeRefResolver self
                [VInt 1; VInt 2] ∅ (VInt 2) (VInt 1) (or_intror eq_refl)) as [H _].
    exact (H eq_refl).
  - destruct (ref_call_type_errors_before_resolution RuntimeRefResolver self
                [VInt 1; VStr "events"] ∅ (VStr "events") (VInt 1) (or_intror eq_refl))
      as [_ [H _]].
    exact (H eq_refl eq_refl eq_refl).
Defined.

End RefResolverErrors.

(** ** The [ref] resolvers: the version keywords *)

Section RefVersionKeywords.
Import BaseResolver RefResolver.

Lemma ref_call_version_only (cls : RefResolverClass) (self : BaseResolver.t)
      (args : list PyVal) (kwargs kwargs' : gmap string PyVal) :
  py_or (dict_get kwargs "version") (dict_get kwargs "v")
  = py_or (dict_get kwargs' "version") (dict_get kwargs' "v") ->
  __call__ cls self args kwargs = __call__ cls self args kwargs'.
Proof. intros H. unfold __call__. rewrite H. reflexivity. Qed.

(** [ref] reads its version from two keywords.  A truthy [version] decides
    alone, whatever [v] says; when [version] is missing or falsy (such as
    [0] or the empty string) the call behaves as if only [v] had been given,
    and as a call without any version when [v] is missing too. *)
Theorem ref_version_keyword_precedence
        (cls : RefResolverClass) (self : BaseResolver.t) (args : list PyVal)
        (kwargs : gmap string PyVal) :
  (forall x, kwargs !! "version" = Some x -> truthy x = true ->
     __call__ cls self args kwargs = __call__ cls self args {[ "version" := x ]})
  /\ ((kwargs !! "version" = None
       \/ exists x, kwargs !! "version" = Some x /\ truthy x = false) ->
      __call__ cls self args kwargs
      = __call__ cls self args
          (match kwargs !! "v" with
           | Some y => {[ "v" := y ]}
           | None => ∅
           end)).
Proof.
  split.
  - intros x Hx Htruthy. apply ref_call_version_only. unfold dict_get.
    rewrite Hx, lookup_singleton_eq. simpl. unfold py_or. rewrite Htruthy. reflexivity.
  - intros Hversion. apply ref_call_version_only.
    assert (Hleft : py_or (dict_get kwargs "version") (dict_get kwargs "v")
                    = dict_get kwargs "v").
    { unfold py_or, dict_get.
      destruct Hversion as [->|[x [-> Hx]]]; simpl; [reflexivity|].
      rewrite Hx. reflexivity. }
    rewrite Hleft. unfold dict_get, py_or.
    destruct (kwargs !! "v") as [y|].
    + rewrite lookup_singleton_ne by discriminate.
      rewrite lookup_singleton_eq. reflexivity.
    + rewrite !lookup_empty. reflexivity.
Qed.

Lemma ref_version_keyword_precedence_witness :
  let self := Fixtures.resolver (Fixtures.empty_manifest false)
                (Fixtures.node ModelNode "model.proj.m" None None)
                (Fixtures.run_config None false) in
  __call__ ParseRefResolver self [VStr "orders"] {[ "version" := VInt 0 ]}
  = __call__ ParseRefResolver self [VStr "orders"] ∅.
Proof.
  intros self.
  pose (kwargs := {[ "version" := VInt 0 ]} : gmap string PyVal).
  assert (Hversion : kwargs !! "version" = Some (VInt 0)) by (vm_compute; reflexivity).
  assert (Hv : kwargs !! "v" = None) by (vm_compute; reflexivity).
  pose proof (proj2 (ref_version_keyword_precedence ParseRefResolver self [VStr "orders"]
                       kwargs)
                (or_intror (ex_intro _ (VInt 0) (conj Hversion eq_refl)))) as H.
  rewrite Hv in H. exact H.
Defined.

End RefVersionKeywords.

(** ** Macro dispatch: soundness, exhaustion, unknown packages *)

Section DispatchCases.
Import BaseDatabaseWrapper.

Lemma in_candidates (self : BaseDatabaseWrapper.t) (macro_name : string)
      (search_packages : list (option string)) (c : option string * string) :
  In c (candidates self macro_name search_packages) <->
  exists prefix,
    In (fst c) search_packages
    /\ In prefix (adapter_type_names self ++ ["default"])
    /\ snd c = prefix +:+ "__" +:+ macro_name.
Proof.
  unfold candidates, _get_adapter_macro_prefixes. rewrite in_flat_map. split.
  - intros [p [Hp Hc]]. apply in_map_iff in Hc as [prefix [<- Hprefix]].
    exists prefix. auto.
  - intros [prefix [Hp [Hprefix Hsnd]]]. exists (fst c). split; [exact Hp|].
    apply in_map_iff. exists prefix. split; [|exact Hprefix].
    destruct c as [p n]. simpl in *. congruence.
Qed.

Lemma scan_some_in (self : BaseDatabaseWrapper.t) (cands : list (option string * string))
      (attempts attempts' : list string) (m : MacroGenerator) :
  scan self cands attempts = (Some m, attempts') ->
  exists c, In c cands /\ found self c = Some m.
Proof.
  revert attempts. induction cands as [|c cands IH]; intros attempts; simpl; [discriminate|].
  destruct (found self c) as [m'|] eqn:Hc.
  - intros [= -> _]. eauto.
  - intros H. destruct (IH _ H) as [c' [Hin Hf]]. eauto.
Qed.

Lemma scan_none_all (self : BaseDatabaseWrapper.t) (cands : list (option string * string))
      (attempts attempts' : list string) :
  scan self cands attempts = (None, attempts') ->
  Forall (fun c => found self c = None) cands
  /\ attempts' = attempts ++ map (fun c => attempt (fst c) (snd c)) cands.
Proof.
  revert attempts. induction cands as [|c cands IH]; intros attempts; simpl.
  - intros [= <-]. split; [constructor|]. rewrite app_nil_r. reflexivity.
  - destruct (found self c) as [m'|] eqn:Hc; [discriminate|].
    intros H. destruct (IH _ H) as [Hall ->]. split; [constructor; assumption|].
    rewrite <- app_assoc. reflexivity.
Qed.

Lemma length_candidates (self : BaseDatabaseWrapper.t) (macro_name : string)
      (search_packages : list (option string)) :
  length (candidates self macro_name search_packages)
  = (length search_packages * S (length (adapter_type_names self)))%nat.
Proof.
  unfold candidates, _get_adapter_macro_prefixes.
  induction search_packages as [|p rest IH]; simpl; [reflexivity|].
  rewrite length_app, length_map, length_app, IH. simpl. lia.
Qed.

(** A macro returned by [dispatch] is one the namespace holds under a
    dispatch name: some search package and some prefix -- an adapter type
    name or ["default"] -- for which the namespace answers the lookup of
    ["{prefix}__{macro_name}"] with that macro. *)
Theorem dispatch_returns_namespace_macro
        (self : BaseDatabaseWrapper.t) (macro_name : string) (macro_namespace : PyVal)
        (packages : option (list string)) (m : MacroGenerator) :
  dispatch self macro_name macro_namespace packages = Ok m ->
  contains_dot macro_name = false
  /\ packages = None
  /\ exists search_packages package_name prefix,
       _get_search_packages self macro_namespace = Ok search_packages
       /\ In package_name search_packages
       /\ In prefix (adapter_type_names self ++ ["default"])
       /\ get_from_package self package_name (prefix +:+ "__" +:+ macro_name)
          = LookupMacro m.
Proof.
  unfold dispatch.
  destruct (contains_dot macro_name).
  { destruct (split_first_dot macro_name). discriminate. }
  destruct packages; [discriminate|].
  destruct (_get_search_packages self macro_namespace) as [search_packages|e] eqn:Hpk;
    [|discriminate].
  cbn [bind]. rewrite dispatch_packages_scan.
  destruct (scan self _ []) as [[m'|] attempts] eqn:Hscan; [|discriminate].
  intros [= ->]. split; [reflexivity|]. split; [reflexivity|].
  destruct (scan_some_in self _ _ _ _ Hscan) as [[p n] [Hin Hfound]].
  apply in_candidates in Hin as [prefix [Hp [Hprefix Hname]]]. simpl in *.
  exists search_packages, p, prefix. split; [reflexivity|]. split; [exact Hp|].
  split; [exact Hprefix|].
  unfold found in Hfound. simpl in Hfound. rewrite <- Hname.
  destruct (get_from_package self p n); congruence.
Qed.

Lemma dispatch_returns_namespace_macro_witness :
  contains_dot "other" = false
  /\ (None : option (list string)) = None
  /\ exists search_packages package_name prefix,
       _get_search_packages Fixtures.postgres_wrapper (VStr "utils") = Ok search_packages
       /\ In package_name search_packages
       /\ In prefix (adapter_type_names Fixtures.postgres_wrapper ++ ["default"])
       /\ get_from_package Fixtures.postgres_wrapper package_name
            (prefix +:+ "__" +:+ "other")
          = LookupMacro (MacroGen "macro.utils.postgres__other").
Proof.
  apply (dispatch_returns_namespace_macro Fixtures.postgres_wrapper "other" (VStr "utils")
           None (MacroGen "macro.utils.postgres__other")).
  vm_compute. reflexivity.
Defined.

(** When [dispatch] gives up, it really has tried everything: no pair of a
    search package and a prefix names a macro, and the error lists one
    attempt per pair -- the number of search packages times one more than
    the number of adapter type names. *)
Theorem dispatch_exhaustion_is_complete
        (self : BaseDatabaseWrapper.t) (macro_name : string) (macro_namespace namespace' : PyVal)
        (name' : string) (searched : list string) :
  dispatch self macro_name macro_namespace None
  = Raise (CompilationError (DispatchNoMacro name' namespace' searched)) ->
  exists search_packages,
    _get_search_packages self macro_namespace = Ok search_packages
    /\ (forall package_name prefix,
          In package_name search_packages ->
          In prefix (adapter_type_names self ++ ["default"]) ->
          forall m, get_from_package self package_name (prefix +:+ "__" +:+ macro_name)
                    <> LookupMacro m)
    /\ length searched
       = (length search_packages * S (length (adapter_type_names self)))%nat.
Proof.
  unfold dispatch.
  destruct (contains_dot macro_name).
  { destruct (split_first_dot macro_name). discriminate. }
  destruct (_get_search_packages self macro_namespace) as [search_packages|e] eqn:Hpk.
  2:{ cbn [bind]. unfold _get_search_packages in Hpk.
      destruct macro_namespace as [| | | |ns|]; try (injection Hpk as <-; discriminate);
        try discriminate.
      destruct (get_macro_search_order self ns) as [[|? ?]|];
        destruct (dependencies self) as [deps|]; try discriminate;
        try (destruct (bool_decide _); discriminate);
        injection Hpk as <-; discriminate. }
  cbn [bind]. rewrite dispatch_packages_scan.
  destruct (scan self _ []) as [[m'|] attempts] eqn:Hscan; [discriminate|].
  intros [= _ _ <-]. exists search_packages. split; [reflexivity|].
  destruct (scan_none_all self _ _ _ Hscan) as [Hall ->]. split.
  - intros p prefix Hp Hprefix m Hm.
    rewrite Forall_forall in Hall.
    assert (Hin : In (p, prefix +:+ "__" +:+ macro_name)
                     (candidates self macro_name search_packages)).
    { apply in_candidates. exists prefix. auto. }
    apply list_elem_of_In in Hin.
    specialize (Hall _ Hin). unfold found in Hall. simpl in Hall.
    rewrite Hm in Hall. discriminate.
  - simpl. rewrite length_map. apply length_candidates.
Qed.

Lemma dispatch_exhaustion_is_complete_witness :
  exists search_packages,
    _get_search_packages Fixtures.postgres_wrapper (VStr "utils") = Ok search_packages
    /\ (forall package_name prefix,
          In package_name search_packages ->
          In prefix (adapter_type_names Fixtures.postgres_wrapper ++ ["default"]) ->
          forall m, get_from_package Fixtures.postgres_wrapper package_name
                      (prefix +:+ "__" +:+ "missing")
                    <> LookupMacro m)
    /\ length ["proj.postgres__missing"; "proj.default__missing";
               "utils.postgres__missing"; "utils.default__missing"]
       = (length search_packages
          * S (length (adapter_type_names Fixtures.postgres_wrapper)))%nat.
Proof.
  apply (dispatch_exhaustion_is_complete Fixtures.postgres_wrapper "missing" (VStr "utils")
           (VStr "utils") "missing").
  vm_compute. reflexivity.
Defined.

End DispatchCases.

Section DispatchNamespaces.
Import BaseDatabaseWrapper.

(** A namespace string that has no macro search order and is not a
    dependency does not make [dispatch] fail: the search falls back to the
    unqualified namespace, and the call returns what the call without a
    namespace returns (on exhaustion, the same attempts under the given
    namespace's name). *)
Theorem dispatch_unknown_namespace_is_unqualified
        (self : BaseDatabaseWrapper.t) (macro_name namespace : string)
        (deps : list string) :
  get_macro_search_order self namespace = None
  \/ get_macro_search_order self namespace = Some [] ->
  dependencies self = Some deps ->
  namespace ∉ deps ->
  dispatch self macro_name (VStr namespace) None =
  match dispatch self macro_name VNone None with
  | Raise (CompilationError (DispatchNoMacro name _ searched)) =>
      Raise (CompilationError (DispatchNoMacro name (VStr namespace) searched))
  | answer => answer
  end.
Proof.
  intros Horder Hdeps Hnot.
  assert (Hpk : _get_search_packages self (VStr namespace) = Ok [None]).
  { unfold _get_search_packages.
    destruct Horder as [-> | ->]; rewrite Hdeps;
      rewrite bool_decide_eq_false_2 by exact Hnot; reflexivity. }
  unfold dispatch. rewrite Hpk.
  destruct (contains_dot macro_name).
  { destruct (split_first_dot macro_name). reflexivity. }
  cbn [bind _get_search_packages].
  destruct (dispatch_packages self macro_name [None] []) as [[m|] attempts]; reflexivity.
Qed.

Lemma dispatch_unknown_namespace_is_unqualified_witness :
  dispatch Fixtures.postgres_wrapper "some_macro" (VStr "elsewhere") None
  = Ok (MacroGen "macro.dbt.default__some_macro").
Proof.
  rewrite (dispatch_unknown_namespace_is_unqualified Fixtures.postgres_wrapper
             "some_macro" "elsewhere" ["utils"] (or_introl eq_refl) eq_refl).
  - reflexivity.
  - intros H. apply list_elem_of_In in H. simpl in H. destruct H as [H|[]]. discriminate.
Defined.

Lemma dispatch_prefixes_quiet (self : BaseDatabaseWrapper.t) (macro_name : string)
      (package_name : option string) (prefixes attempts : list string) :
  dispatch_prefixes (quiet_namespace self) macro_name package_name prefixes attempts
  = dispatch_prefixes self macro_name package_name prefixes attempts.
Proof.
  revert attempts. induction prefixes as [|prefix rest IH]; intros attempts; simpl;
    [reflexivity|].
  destruct (get_from_package self package_name (prefix +:+ "__" +:+ macro_name));
    try reflexivity; apply IH.
Qed.

Lemma dispatch_packages_quiet (self : BaseDatabaseWrapper.t) (macro_name : string)
      (search_packages : list (option string)) (attempts : list string) :
  dispatch_packages (quiet_namespace self) macro_name search_packages attempts
  = dispatch_packages self macro_name search_packages attempts.
Proof.
  revert attempts. induction search_packages as [|p rest IH]; intros attempts; simpl;
    [reflexivity|].
  rewrite dispatch_prefixes_quiet.
  change (_get_adapter_macro_prefixes (quiet_namespace self))
    with (_get_adapter_macro_prefixes self).
  destruct (dispatch_prefixes self macro_name p (_get_adapter_macro_prefixes self) attempts)
    as [[m|] attempts']; [reflexivity|apply IH].
Qed.

(** A search package the namespace does not know is skipped, not fatal: the
    compilation error of such a lookup counts as "no macro here", so
    [dispatch] answers exactly as it would if those lookups had returned
    [None]. *)
Theorem dispatch_skips_unknown_packages
        (self : BaseDatabaseWrapper.t) (macro_name : string) (macro_namespace : PyVal)
        (packages : option (list string)) :
  dispatch self macro_name macro_namespace packages
  = dispatch (quiet_namespace self) macro_name macro_namespace packages.
Proof.
  unfold dispatch.
  destruct (contains_dot macro_name); [reflexivity|].
  destruct packages; [reflexivity|].
  change (_get_search_packages (quiet_namespace self) macro_namespace)
    with (_get_search_packages self macro_namespace).
  destruct (_get_search_packages self macro_namespace) as [pk|e]; [|reflexivity].
  cbn [bind]. rewrite dispatch_packages_quiet. reflexivity.
Qed.

End DispatchNamespaces.

(** ** Stored query results: independence of keys, keys never vanish *)

Section StoredResultKeys.
Import ProviderContext.

(** What [load_result] returns for a key depends only on that key's slot. *)
Lemma load_result_slot {h : AgateHelper} (key : string) (results results' : sql_results h) :
  results !! key = results' !! key ->
  fst (load_result key results) = fst (load_result key results').
Proof.
  intros H. unfold load_result. rewrite <- H.
  destruct (results !! key) as [[v|]|]; destruct (String.eqb key "main"); reflexivity.
Qed.

Lemma run_call_other_key {h : AgateHelper} (key : string) (c : ResultCall h)
      (results : sql_results h) :
  result_call_name c <> key ->
  run_call c results !! key = results !! key.
Proof.
  intros Hne. destruct c as [name|name response agate_table]; simpl in *.
  - unfold load_result.
    destruct (results !! name) as [slot|]; [|reflexivity].
    destruct (String.eqb name "main"); [reflexivity|].
    destruct slot as [v|]; [|reflexivity]. simpl.
    apply lookup_insert_ne. exact Hne.
  - apply lookup_insert_ne. exact Hne.
Qed.

(** Stored results are independent per key: loads and stores that name other
    keys, however many, do not change what [load_result(key)] returns. *)
Theorem load_result_unaffected_by_other_keys {h : AgateHelper}
        (key : string) (cs : list (ResultCall h)) (results : sql_results h) :
  Forall (fun c => result_call_name c <> key) cs ->
  fst (load_result key (run_calls cs results)) = fst (load_result key results).
Proof.
  intros Hcs. apply load_result_slot.
  revert results. induction Hcs as [|c cs Hc _ IH]; intros results; [reflexivity|].
  simpl. fold (run_calls cs (run_call c results)).
  rewrite IH. apply run_call_other_key. exact Hc.
Qed.

Lemma load_result_unaffected_by_other_keys_witness :
  fst (load_result "x"
         (run_calls [StoreResult "y" VNone None; LoadResult "y"; LoadResult "y";
                     LoadResult "main"]
            (snd (store_result (h := Fixtures.rows_helper) "x" (VStr "OK") None ∅))))
  = Ok (Some (stored_value (h := Fixtures.rows_helper) (VStr "OK") None)).
Proof.
  rewrite (load_result_unaffected_by_other_keys (h := Fixtures.rows_helper) "x"
             [StoreResult "y" VNone None; LoadResult "y"; LoadResult "y";
              LoadResult "main"]).
  - vm_compute. reflexivity.
  - repeat constructor; discriminate.
Defined.

Lemma run_call_keeps_key {h : AgateHelper} (key : string) (c : ResultCall h)
      (results : sql_results h) :
  is_Some (results !! key) -> is_Some (run_call c results !! key).
Proof.
  intros Hkey. destruct c as [name|name response agate_table]; simpl.
  - unfold load_result.
    destruct (results !! name) as [slot|]; [|exact Hkey].
    destruct (String.eqb name "main"); [exact Hkey|].
    destruct slot as [v|]; [|exact Hkey]. simpl.
    destruct (decide (name = key)) as [->|Hne].
    + rewrite lookup_insert_eq. eauto.
    + rewrite lookup_insert_ne by exact Hne. exact Hkey.
  - destruct (decide (name = key)) as [->|Hne].
    + rewrite lookup_insert_eq. eauto.
    + rewrite lookup_insert_ne by exact Hne. exact Hkey.
Qed.

(** No call removes a key.  A key that was ever stored therefore never reads
    as "never stored" again: whatever loads and stores follow, loading a
    key other than ["main"] returns a value or raises the already-loaded
    error, and does not return [None]. *)
Theorem stored_key_never_reads_as_absent {h : AgateHelper}
        (key : string) (cs : list (ResultCall h)) (results : sql_results h) :
  key <> "main" ->
  is_Some (results !! key) ->
  is_Some (run_calls cs results !! key)
  /\ ((exists v, fst (load_result key (run_calls cs results)) = Ok (Some v))
      \/ fst (load_result key (run_calls cs results))
         = Raise (MacroResultAlreadyLoadedError key)).
Proof.
  intros Hne Hkey.
  assert (Hafter : is_Some (run_calls cs results !! key)).
  { revert results Hkey. induction cs as [|c cs IH]; intros results Hkey; [exact Hkey|].
    simpl. apply IH. apply run_call_keeps_key. exact Hkey. }
  split; [exact Hafter|].
  destruct Hafter as [[v|] Hslot].
  - left. exists v. rewrite (load_result_available key v _ Hne Hslot). reflexivity.
  - right. rewrite (load_result_consumed key _ Hne Hslot). reflexivity.
Qed.

Lemma stored_key_never_reads_as_absent_witness :
  let results :=
    snd (store_result (h := Fixtures.rows_helper) "x" (VStr "OK") None ∅) in
  is_Some (run_calls [LoadResult "x"; LoadResult "x"] results !! "x")
  /\ ((exists v, fst (load_result "x" (run_calls [LoadResult "x"; LoadResult "x"] results))
                 = Ok (Some v))
      \/ fst (load_result "x" (run_calls [LoadResult "x"; LoadResult "x"] results))
         = Raise (MacroResultAlreadyLoadedError "x")).
Proof.
  intros results.
  apply (stored_key_never_reads_as_absent (h := Fixtures.rows_helper) "x"
           [LoadResult "x"; LoadResult "x"] results).
  - discriminate.
  - subst results. rewrite store_result_lookup. eauto.
Defined.

End StoredResultKeys.

(** ** Parse-phase config: normal form, [set] *)

Section ParseConfigNormalForm.
Import ParseConfigObject.

Lemma transform_key_size (self : ParseConfigObject.t) (oldkey : string)
      (opts renamed : gmap string PyVal) :
  transform_key self oldkey opts = Ok renamed -> size renamed = size opts.
Proof.
  unfold transform_key.
  destruct (opts !! oldkey) as [v|] eqn:Hold; [|intros [= <-]; reflexivity].
  destruct (opts !! replace_underscore oldkey) as [w|] eqn:Hnew; [discriminate|].
  intros [= <-].
  rewrite map_size_insert_None.
  - rewrite map_size_delete_Some by eauto.
    destruct (size opts) eqn:Hsize; [|reflexivity].
    apply map_size_empty_iff in Hsize. subst opts. rewrite lookup_empty in Hold.
    discriminate.
  - rewrite lookup_delete_ne by congruence. exact Hnew.
Qed.

Lemma transform_key_absent (self : ParseConfigObject.t) (oldkey : string)
      (opts : gmap string PyVal) :
  opts !! oldkey = None -> transform_key self oldkey opts = Ok opts.
Proof. intros H. unfold transform_key. rewrite H. reflexivity. Qed.

(** Normalized options are in normal form: neither underscore hook key is
    left, no option was lost or added (the number of keys is the same), and
    normalizing again changes nothing. *)
Theorem transform_config_normal_form
        (self : ParseConfigObject.t) (opts normalized : gmap string PyVal) :
  _transform_config self opts = Ok normalized ->
  normalized !! "pre_hook" = None
  /\ normalized !! "post_hook" = None
  /\ size normalized = size opts
  /\ _transform_config self normalized = Ok normalized.
Proof.
  intros Hok.
  pose proof (transform_config_spec self opts) as Hspec. rewrite Hok in Hspec.
  destruct Hspec as [_ [_ Hlookup]].
  assert (Hpre : normalized !! "pre_hook" = None) by (rewrite Hlookup; reflexivity).
  assert (Hpost : normalized !! "post_hook" = None) by (rewrite Hlookup; reflexivity).
  split; [exact Hpre|]. split; [exact Hpost|]. split.
  - revert Hok. unfold _transform_config, transform_keys.
    destruct (transform_key self "pre_hook" opts) as [renamed|e] eqn:H1; [|discriminate].
    cbn [bind].
    destruct (transform_key self "post_hook" renamed) as [final|e] eqn:H2; [|discriminate].
    cbn [bind]. intros [= <-].
    rewrite (transform_key_size _ _ _ _ H2). exact (transform_key_size _ _ _ _ H1).
  - unfold _transform_config, transform_keys.
    rewrite (transform_key_absent self "pre_hook" normalized Hpre). cbn [bind].
    rewrite (transform_key_absent self "post_hook" normalized Hpost). reflexivity.
Qed.

Lemma transform_config_normal_form_witness :
  let self := ParseConfigObject.mk "model.proj.m" None false None in
  let opts : gmap string PyVal := {[ "pre_hook" := VStr "x"; "materialized" := VStr "view" ]} in
  exists normalized,
    _transform_config self opts = Ok normalized
    /\ normalized !! "pre_hook" = None
    /\ size normalized = size opts.
Proof.
  intros self opts.
  destruct (_transform_config self opts) as [normalized|e] eqn:Hok.
  - exists normalized. split; [reflexivity|].
    destruct (transform_config_normal_form self opts normalized Hok) as [H1 [_ [H3 _]]].
    split; assumption.
  - exfalso. vm_compute in Hok. discriminate.
Defined.

(** [config.set(name, value)] on a config object with a context config
    always succeeds: a single option can neither have the wrong shape nor
    conflict with itself.  It records one call holding exactly that option,
    under the hyphenated key when [name] is [pre_hook] or [post_hook], and
    returns the empty string. *)
Theorem parse_config_set_records_one_option
        (self : ParseConfigObject.t) (name : string) (value : PyVal)
        (cc : ContextConfig.t) :
  context_config self = Some cc ->
  exists cc',
    ParseConfigMembers.set self name value = (Ok "", Some cc')
    /\ ContextConfig.config_calls cc'
       = ContextConfig.config_calls cc ++ [{[ recorded_config_key name := value ]}].
Proof.
  intros Hcc. unfold ParseConfigMembers.set.
  rewrite (call_accepted_shape self [{[ name := value ]}] ∅ {[ name := value ]})
    by (left; split; reflexivity).
  pose proof (transform_config_spec self {[ name := value ]}) as Hspec.
  assert (Hnoconflict : forall oldkey,
             oldkey <> replace_underscore oldkey ->
             hook_conflict ({[ name := value ]} : gmap string PyVal) oldkey = false).
  { intros oldkey Hdiff. unfold hook_conflict.
    destruct (decide (name = oldkey)) as [->|Hne].
    - rewrite (bool_decide_eq_false_2 (is_Some (_ !! replace_underscore oldkey))).
      + apply andb_false_r.
      + rewrite lookup_singleton_ne by exact Hdiff. intros [? ?]. discriminate.
    - rewrite (bool_decide_eq_false_2 (is_Some (_ !! oldkey))); [reflexivity|].
      rewrite lookup_singleton_ne by exact Hne. intros [? ?]. discriminate. }
  destruct (_transform_config self {[ name := value ]}) as [normalized|e].
  2:{ exfalso. destruct Hspec as [[Hc _]|[_ [Hc _]]];
        rewrite Hnoconflict in Hc by discriminate; discriminate. }
  destruct Hspec as [_ [_ Hlookup]]. rewrite Hcc.
  eexists. split; [reflexivity|].
  assert (Hnormalized : normalized = {[ recorded_config_key name := value ]}).
  { apply map_eq. intros key. rewrite Hlookup.
    unfold normalized_lookup, recorded_config_key.
    destruct (String.eqb_spec name "pre_hook") as [->|Hn1].
    { cbn [orb]. change (replace_underscore "pre_hook") with "pre-hook".
      destruct (String.eqb_spec key "pre_hook") as [->|Hk1]; [reflexivity|].
      destruct (String.eqb_spec key "post_hook") as [->|Hk2]; [reflexivity|].
      cbn [orb].
      destruct (String.eqb_spec key "pre-hook") as [->|Hk3].
      { rewrite !lookup_singleton_eq. reflexivity. }
      destruct (String.eqb_spec key "post-hook") as [->|Hk4].
      { rewrite !lookup_singleton_ne by discriminate. reflexivity. }
      rewrite !lookup_singleton_ne by congruence. reflexivity. }
    destruct (String.eqb_spec name "post_hook") as [->|Hn2].
    { cbn [orb]. change (replace_underscore "post_hook") with "post-hook".
      destruct (String.eqb_spec key "pre_hook") as [->|Hk1]; [reflexivity|].
      destruct (String.eqb_spec key "post_hook") as [->|Hk2]; [reflexivity|].
      cbn [orb].
      destruct (String.eqb_spec key "pre-hook") as [->|Hk3].
      { rewrite !lookup_singleton_ne by discriminate. reflexivity. }
      destruct (String.eqb_spec key "post-hook") as [->|Hk4].
      { rewrite !lookup_singleton_eq. reflexivity. }
      rewrite !lookup_singleton_ne by congruence. reflexivity. }
    cbn [orb].
    destruct (String.eqb_spec key "pre_hook") as [->|Hk1].
    { cbn [orb]. rewrite lookup_singleton_ne by exact Hn1. reflexivity. }
    destruct (String.eqb_spec key "post_hook") as [->|Hk2].
    { cbn [orb]. rewrite lookup_singleton_ne by exact Hn2. reflexivity. }
    cbn [orb].
    rewrite (lookup_singleton_ne name "pre_hook") by exact Hn1.
    rewrite (lookup_singleton_ne name "post_hook") by exact Hn2.
    destruct (String.eqb_spec key "pre-hook") as [->|Hk3]; [reflexivity|].
    destruct (String.eqb_spec key "post-hook") as [->|Hk4]; reflexivity. }
  rewrite Hnormalized. simpl.
  destruct (state_modified_compare_more_unrendered_values self); [|reflexivity].
  destruct (unrendered_config self) as [u|]; [|reflexivity].
  destruct (bool_decide (size u = 0%nat)); reflexivity.
Qed.

Lemma parse_config_set_records_one_option_witness :
  let self := ParseConfigObject.mk "model.proj.m" (Some (ContextConfig.mk [] [])) false None in
  exists cc',
    ParseConfigMembers.set self "post_hook" (VStr "grant") = (Ok "", Some cc')
    /\ ContextConfig.config_calls cc' = [] ++ [{[ "post-hook" := VStr "grant" ]}].
Proof.
  intros self.
  exact (parse_config_set_records_one_option self "post_hook" (VStr "grant")
           (ContextConfig.mk [] []) eq_refl).
Defined.

End ParseConfigNormalForm.

(** ** Execution-phase config *)

Section RuntimeConfig.
Import RuntimeConfigObject.

(** [config.require(name)] returns exactly the values the model's config
    holds under [name]; when the model has no config or no such key it
    raises the missing-config error naming the model and the key, and a
    validator, if given, is not consulted. *)
Theorem runtime_config_require
        (self : RuntimeConfigObject.t) (name : string) :
  (forall v, require self name None = Returns v <->
             exists c, config self = Some c /\ c !! name = Some v)
  /\ (config self = None \/ (exists c, config self = Some c /\ c !! name = None) ->
      forall validator,
        require self name validator = Raises (MissingConfigError (unique_id self) name)).
Proof.
  unfold require, _lookup. split.
  - intros v. destruct (config self) as [c|].
    + destruct (c !! name) as [w|] eqn:Hw.
      * split; [intros [= <-]; eauto|]. intros [c' [[= <-] Hc']]. congruence.
      * split; [discriminate|]. intros [c' [[= <-] Hc']]. congruence.
    + split; [discriminate|]. intros [c' [? _]]. discriminate.
  - intros [->|[c [-> ->]]] validator; reflexivity.
Qed.

Lemma runtime_config_require_witness :
  require (RuntimeConfigObject.mk "macro.proj.m" None) "unique_key"
    (Some (fun _ => Some (DbtValidationError "rejected")))
  = Raises (MissingConfigError "macro.proj.m" "unique_key").
Proof.
  apply (proj2 (runtime_config_require (RuntimeConfigObject.mk "macro.proj.m" None)
                  "unique_key")).
  left. reflexivity.
Defined.

Lemma runtime_config_get_plain (self : RuntimeConfigObject.t) (name : string)
      (dflt : ConfigVal) :
  get self name dflt None
  = Returns (match config self with
             | Some c => default dflt (c !! name)
             | None => dflt
             end).
Proof.
  unfold get, _lookup. destruct (config self) as [c|]; [|reflexivity].
  destruct (c !! name); reflexivity.
Qed.

(** [config.get(name, default, validator)] never raises the missing-config
    error: without a validator it returns the stored value, or the default
    when the model has no config or no such key.  The validator runs only
    when a default other than [None] was supplied; it then judges whatever
    is returned, the default itself included. *)
Theorem runtime_config_get
        (self : RuntimeConfigObject.t) (name : string) (dflt : ConfigVal) :
  let found :=
    match config self with
    | Some c => default dflt (c !! name)
    | None => dflt
    end in
  get self name dflt None = Returns found
  /\ (forall validator, get self name (CScalar VNone) validator
                        = get self name (CScalar VNone) None)
  /\ (forall validator,
        dflt <> CScalar VNone ->
        get self name dflt (Some validator)
        = match validator found with
          | Some e => Raises e
          | None => Returns found
          end).
Proof.
  intros found.
  assert (Hlookup : _lookup self name (Given dflt) = Returns found).
  { subst found. unfold _lookup. destruct (config self) as [c|]; [|reflexivity].
    destruct (c !! name); reflexivity. }
  split; [|split].
  - unfold get. rewrite Hlookup. reflexivity.
  - intros [validator|]; [|reflexivity]. unfold get.
    destruct (_lookup self name (Given (CScalar VNone))); reflexivity.
  - intros validator Hdflt. unfold get. rewrite Hlookup.
    assert (Hnot : default_is_not_none dflt = true).
    { destruct dflt as [[]|]; try reflexivity. congruence. }
    rewrite Hnot. unfold _validate. destruct (validator found); reflexivity.
Qed.

Lemma runtime_config_get_witness :
  let self := RuntimeConfigObject.mk "model.proj.m" (Some ∅) in
  get self "unique_key" (CScalar (VStr "id"))
    (Some (fun v => match v with
                    | CScalar (VStr _) => Some (DbtValidationError "no strings")
                    | _ => None
                    end))
  = Raises (DbtValidationError "no strings").
Proof.
  intros self.
  rewrite (proj2 (proj2 (runtime_config_get self "unique_key" (CScalar (VStr "id")))));
    [|discriminate].
  vm_compute. reflexivity.
Defined.

(** [persist_relation_docs] and [persist_column_docs] read the keys
    [relation] and [columns] of the [persist_docs] mapping, with [False] for
    a missing key and for a model without [persist_docs]; a [persist_docs]
    that is not a mapping raises the value-type error carrying it. *)
Theorem persist_docs_flags (self : RuntimeConfigObject.t) :
  let persist_docs :=
    match config self with
    | Some c => default (CDict ∅) (c !! "persist_docs")
    | None => CDict ∅
    end in
  match persist_docs with
  | CDict d =>
      persist_relation_docs self = Returns (default (VBool false) (d !! "relation"))
      /\ persist_column_docs self = Returns (default (VBool false) (d !! "columns"))
  | CScalar v =>
      persist_relation_docs self = Raises (PersistDocsValueTypeError (CScalar v))
      /\ persist_column_docs self = Raises (PersistDocsValueTypeError (CScalar v))
  end.
Proof.
  intros persist_docs.
  unfold persist_relation_docs, persist_column_docs, persist_docs_flag.
  rewrite runtime_config_get_plain. fold persist_docs. destruct persist_docs; split; reflexivity.
Qed.

End RuntimeConfig.

(** ** The [source] resolvers *)

Section SourceResolvers.
Import SourceResolver.

Lemma source_call_strings (cls : SourceResolverClass) (self : SourceResolver.t)
      (source_name table_name : string) :
  __call__ cls self [VStr source_name; VStr table_name]
  = resolve cls self source_name table_name.
Proof. reflexivity. Qed.

(** A [source] call that does not have exactly two arguments, or whose
    arguments are not both strings, is refused in every phase before
    anything happens: no lookup, nothing recorded. *)
Theorem source_call_refusals
        (cls : SourceResolverClass) (self : SourceResolver.t) (args : list PyVal) :
  (length args <> 2%nat ->
   __call__ cls self args
   = mkOutcome (Raises (NumberSourceArgsError args (node self))) (sources self) [])
  /\ (forall a0 a1, args = [a0; a1] ->
        (isinstance_str a0 = false ->
         __call__ cls self args
         = mkOutcome (Raises (SourceNameNotStr a0)) (sources self) [])
        /\ (isinstance_str a0 = true -> isinstance_str a1 = false ->
            __call__ cls self args
            = mkOutcome (Raises (SourceTableNotStr a1)) (sources self) [])).
Proof.
  split.
  - intros Hlen. unfold __call__.
    destruct args as [|a0 [|a1 [|a2 rest]]]; simpl in *; try reflexivity. congruence.
  - intros a0 a1 ->. unfold __call__, validate_args. split.
    + intros ->. reflexivity.
    + intros -> ->. reflexivity.
Qed.

Lemma source_call_refusals_witness :
  let self :=
    SourceResolver.mk
      (Fixtures.resolver (Fixtures.empty_manifest false)
         (Fixtures.node ModelNode "model.proj.m" None None)
         (Fixtures.run_config None false))
      (fun _ _ _ _ => RefAbsent) [] in
  __call__ RuntimeSourceResolver self [VStr "raw"]
  = mkOutcome (Raises (NumberSourceArgsError [VStr "raw"] "model.proj.m")) [] []
  /\ __call__ RuntimeSourceResolver self [VStr "raw"; VInt 3]
     = mkOutcome (Raises (SourceTableNotStr (VInt 3))) [] [].
Proof.
  intros self. split.
  - apply (proj1 (source_call_refusals RuntimeSourceResolver self [VStr "raw"])).
    simpl. lia.
  - apply (proj2 (source_call_refusals RuntimeSourceResolver self [VStr "raw"; VInt 3])
             (VStr "raw") (VInt 3) eq_refl); reflexivity.
Defined.

(** At parse time [source(s, t)] records the pair [[s, t]] at the end of the
    requesting node's sources, looks nothing up, and returns a relation
    built from the run configuration and the requesting node itself. *)
Theorem parse_source_records_pair
        (self : SourceResolver.t) (source_name table_name : string) :
  __call__ ParseSourceResolver self [VStr source_name; VStr table_name]
  = mkOutcome
      (Returns (Relation.create_from (RunQuoting (BaseResolver.config (base self)))
                  (OfModel (BaseResolver.model (base self))) None None))
      (sources self ++ [[VStr source_name; VStr table_name]])
      [].
Proof. reflexivity. Qed.

(** A relation returned by the runtime [source] resolver is built from the
    resolved source with the empty source quoting configuration, never with
    the run's own quoting, and carries the resolver's limit and the
    event-time filter computed for that source. *)
Theorem runtime_source_relation
        (self : SourceResolver.t) (source_name table_name : string) (r : Relation.t) :
  result (__call__ RuntimeSourceResolver self [VStr source_name; VStr table_name])
  = Returns r ->
  exists target filter,
    lookup self source_name table_name = RefFound target
    /\ BaseResolver.resolve_event_time_filter (base self) target = Ok filter
    /\ r = Relation.create_from SourceQuotingBaseConfig (OfTarget target)
             (BaseResolver.resolve_limit (base self)) filter
    /\ sources_after (__call__ RuntimeSourceResolver self
                        [VStr source_name; VStr table_name])
       = sources self.
Proof.
  rewrite source_call_strings. unfold resolve, runtime_resolve.
  destruct (lookup self source_name table_name) as [|d|target]; cbn [result];
    try discriminate.
  destruct (BaseResolver.resolve_event_time_filter (base self) target) as [filter|e]
    eqn:Hf; [|discriminate].
  intros [= <-]. exists target, filter. auto.
Qed.

Lemma runtime_source_relation_witness :
  let target := Fixtures.events (Some true) None in
  let self :=
    SourceResolver.mk
      (Fixtures.resolver (Fixtures.empty_manifest false)
         (Fixtures.node ModelNode "model.proj.m" None None)
         (Fixtures.run_config (Some (Sample.mk 10 20)) true))
      (fun _ _ _ _ => RefFound target) [] in
  exists target' filter,
    lookup self "raw" "events" = RefFound target'
    /\ BaseResolver.resolve_event_time_filter (base self) target' = Ok filter
    /\ Relation.create_from SourceQuotingBaseConfig (OfTarget target) (Some 0)
         (Some (EventTimeFilter.mk (Some Fixtures.quoted_ts) 10 20))
       = Relation.create_from SourceQuotingBaseConfig (OfTarget target')
           (BaseResolver.resolve_limit (base self)) filter
    /\ sources_after (__call__ RuntimeSourceResolver self [VStr "raw"; VStr "events"])
       = sources self.
Proof.
  intros target self.
  apply (runtime_source_relation self "raw" "events").
  vm_compute. reflexivity.
Defined.

(** A source that the manifest does not know, or knows as disabled, makes
    both runtime resolvers raise the target-not-found error of kind
    ["source"], named ["<source>.<table>"], with the disabled flag telling
    the two cases apart and no package passed. *)
Theorem runtime_source_not_found
        (cls : SourceResolverClass) (self : SourceResolver.t)
        (source_name table_name : string) :
  cls <> ParseSourceResolver ->
  lookup self source_name table_name = RefAbsent
  \/ (exists d, lookup self source_name table_name = RefDisabled d) ->
  exists disabled,
    __call__ cls self [VStr source_name; VStr table_name]
    = mkOutcome
        (Raises (TargetNotFound (node self) (source_name +:+ "." +:+ table_name) "source"
                   None (Some disabled)))
        (sources self) [ManifestResolveSource source_name table_name]
    /\ (disabled = true <-> exists d, lookup self source_name table_name = RefDisabled d).
Proof.
  intros Hcls Hlook. rewrite source_call_strings.
  assert (Hres : resolve cls self source_name table_name
                 = match lookup self source_name table_name with
                   | RefAbsent => not_found self source_name table_name false
                   | RefDisabled _ => not_found self source_name table_name true
                   | RefFound t => resolve cls self source_name table_name
                   end).
  { destruct cls; [congruence| |]; unfold resolve, runtime_resolve, unit_test_resolve;
      destruct (lookup self source_name table_name); reflexivity. }
  rewrite Hres. destruct Hlook as [Habs|[d Hdis]].
  - rewrite Habs. exists false. split; [reflexivity|].
    split; [discriminate|]. intros [d Hd]. discriminate.
  - rewrite Hdis. exists true. split; [reflexivity|]. split; [eauto|reflexivity].
Qed.

Lemma runtime_source_not_found_witness :
  let self :=
    SourceResolver.mk
      (Fixtures.resolver (Fixtures.empty_manifest false)
         (Fixtures.node ModelNode "model.proj.m" None None)
         (Fixtures.run_config None false))
      (fun _ _ _ _ => RefDisabled Fixtures.plain_model) [] in
  exists disabled,
    __call__ RuntimeUnitTestSourceResolver self [VStr "raw"; VStr "events"]
    = mkOutcome (Raises (TargetNotFound "model.proj.m" "raw.events" "source" None
                           (Some disabled)))
        [] [ManifestResolveSource "raw" "events"]
    /\ (disabled = true <-> exists d, lookup self "raw" "events" = RefDisabled d).
Proof.
  intros self.
  apply (runtime_source_not_found RuntimeUnitTestSourceResolver self "raw" "events").
  - discriminate.
  - right. eexists. reflexivity.
Defined.

(** The unit-test [source] resolver never builds a real relation: whatever
    the flags, the sample window, the requester and the source's event-time
    configuration, a successful call registers the resolved target as a CTE
    and returns its ephemeral relation without limit or filter. *)
Theorem unit_test_source_is_ephemeral_stand_in
        (self : SourceResolver.t) (source_name table_name : string) (r : Relation.t) :
  result (__call__ RuntimeUnitTestSourceResolver self [VStr source_name; VStr table_name])
  = Returns r ->
  exists target,
    lookup self source_name table_name = RefFound target
    /\ r = Relation.create_ephemeral_from target None None
    /\ effects (__call__ RuntimeUnitTestSourceResolver self
                  [VStr source_name; VStr table_name])
       = [ManifestResolveSource source_name table_name; SetCte (Target.unique_id target)].
Proof.
  rewrite source_call_strings. unfold resolve, unit_test_resolve.
  destruct (lookup self source_name table_name) as [|d|target]; cbn [result effects];
    try discriminate.
  intros [= <-]. eauto.
Qed.

Lemma unit_test_source_is_ephemeral_stand_in_witness :
  let target := Fixtures.events (Some true) None in
  let self :=
    SourceResolver.mk
      (Fixtures.resolver (Fixtures.empty_manifest false)
         (Fixtures.node ModelNode "model.proj.m" None None)
         (Fixtures.run_config (Some (Sample.mk 10 20)) true))
      (fun _ _ _ _ => RefFound target) [] in
  exists target',
    lookup self "raw" "events" = RefFound target'
    /\ Relation.create_ephemeral_from target None None
       = Relation.create_ephemeral_from target' None None
    /\ effects (__call__ RuntimeUnitTestSourceResolver self [VStr "raw"; VStr "events"])
       = [ManifestResolveSource "raw" "events"; SetCte (Target.unique_id target')].
Proof.
  intros target self.
  apply (unit_test_source_is_ephemeral_stand_in self "raw" "events").
  reflexivity.
Defined.

End SourceResolvers.

(** ** The [metric] resolvers and the resolvers of exposures *)

Section MetricAndExposureResolvers.

(** At parse time [metric(...)] with string arguments records its positional
    arguments exactly as they were given -- [[name]] or [[package, name]] --
    looks nothing up and returns the unresolved metric reference. *)
Theorem parse_metric_records_arguments
        (self : MetricResolver.t) (args : list PyVal) (name : string)
        (package : option string) :
  args = match package with
         | Some p => [VStr p; VStr name]
         | None => [VStr name]
         end ->
  MetricResolver.__call__ ParseMetricResolver self args
  = MetricResolver.mkOutcome
      (Returns (MetricReference name
                  (match package with Some p => VStr p | None => VNone end)))
      (MetricResolver.metrics self ++ [args]) [].
Proof. intros ->. destruct package; reflexivity. Qed.

Lemma parse_metric_records_arguments_witness :
  let self :=
    MetricResolver.mk
      (Fixtures.resolver (Fixtures.empty_manifest false)
         (Fixtures.node ModelNode "model.proj.m" None None)
         (Fixtures.run_config None false))
      (fun _ _ _ _ => MetricAbsent) [] in
  MetricResolver.__call__ ParseMetricResolver self [VStr "pkg"; VStr "revenue"]
  = MetricResolver.mkOutcome (Returns (MetricReference "revenue" (VStr "pkg")))
      ([] ++ [[VStr "pkg"; VStr "revenue"]]) [].
Proof.
  intros self.
  exact (parse_metric_records_arguments self [VStr "pkg"; VStr "revenue"] "revenue"
           (Some "pkg") eq_refl).
Defined.

(** For a metric the runtime resolver does not tell a disabled target from a
    missing one: both raise the same target-not-found error of kind
    ["metric"] with the attempted name and package, and no disabled flag is
    passed. *)
Theorem runtime_metric_not_found
        (self : MetricResolver.t) (target_name : string) (target_package : PyVal) :
  let looked_up :=
    MetricResolver.resolve_metric self target_name target_package
      (RuntimeConfig.project_name (BaseResolver.config (MetricResolver.base self)))
      (Node.package_name (BaseResolver.model (MetricResolver.base self))) in
  looked_up = MetricAbsent \/ (exists d, looked_up = MetricDisabled d) ->
  MetricResolver.resolve RuntimeMetricResolver self target_name target_package
  = MetricResolver.mkOutcome
      (Raises (TargetNotFound (MetricResolver.node self) target_name "metric"
                 (Some target_package) None))
      (MetricResolver.metrics self)
      [ManifestResolveMetric target_name target_package].
Proof.
  intros looked_up Hlook. unfold MetricResolver.resolve, MetricResolver.runtime_resolve.
  fold looked_up. destruct Hlook as [->|[d ->]]; reflexivity.
Qed.

Lemma runtime_metric_not_found_witness :
  let self :=
    MetricResolver.mk
      (Fixtures.resolver (Fixtures.empty_manifest false)
         (Fixtures.node ModelNode "model.proj.m" None None)
         (Fixtures.run_config None false))
      (fun _ _ _ _ => MetricDisabled (Metric.mk "metric.proj.revenue" "revenue" "proj")) [] in
  MetricResolver.resolve RuntimeMetricResolver self "revenue" VNone
  = MetricResolver.mkOutcome
      (Raises (TargetNotFound "model.proj.m" "revenue" "metric" (Some VNone) None))
      [] [ManifestResolveMetric "revenue" VNone].
Proof.
  intros self.
  apply (runtime_metric_not_found self "revenue" VNone).
  right. eexists. reflexivity.
Defined.

(** The [ref] of an exposure checks the number of arguments and nothing
    else: with one or two positional arguments of any type it returns the
    empty string and appends exactly one reference.  The [ref] of a semantic
    model additionally insists on a string name, and only on that: a package
    of any type is recorded. *)
Theorem exposure_ref_records_without_validation
        (self : ExposureResolvers.t) (args : list PyVal) (kwargs : gmap string PyVal)
        (name package : PyVal) :
  (args = [name] /\ package = VNone) \/ args = [package; name] ->
  let entry := RefArgs.mk package name (ExposureResolvers.version_of kwargs) in
  let recorded := ExposureResolvers.append_ref self package name
                    (ExposureResolvers.version_of kwargs) in
  ExposureResolvers.refs recorded = ExposureResolvers.refs self ++ [entry]
  /\ ExposureResolvers.ref self args kwargs = (Returns "", recorded)
  /\ ExposureResolvers.semantic_model_ref self args kwargs
     = if isinstance_str name then (Returns "", recorded)
       else (Raises (ParsingError (ExposureResolvers.original_file_path self)), self).
Proof.
  intros Hargs entry recorded. split; [reflexivity|].
  unfold ExposureResolvers.ref, ExposureResolvers.semantic_model_ref.
  destruct Hargs as [[-> ->]| ->]; destruct (isinstance_str name); split; reflexivity.
Qed.

Lemma exposure_ref_records_without_validation_witness :
  let self := ExposureResolvers.mk "exposure.proj.e" "models/e.yml" [] [] [] in
  ExposureResolvers.ref self [VInt 7; VInt 42] ∅
  = (Returns "",
     ExposureResolvers.mk "exposure.proj.e" "models/e.yml"
       [RefArgs.mk (VInt 7) (VInt 42) VNone] [] [])
  /\ ExposureResolvers.semantic_model_ref self [VInt 7; VStr "orders"] ∅
     = (Returns "",
        ExposureResolvers.mk "exposure.proj.e" "models/e.yml"
          [RefArgs.mk (VInt 7) (VStr "orders") VNone] [] []).
Proof.
  intros self. split.
  - destruct (exposure_ref_records_without_validation self [VInt 7; VInt 42] ∅
                (VInt 42) (VInt 7) (or_intror eq_refl)) as [_ [H _]].
    rewrite H. vm_compute. reflexivity.
  - destruct (exposure_ref_records_without_validation self [VInt 7; VStr "orders"] ∅
                (VStr "orders") (VInt 7) (or_intror eq_refl)) as [_ [_ H]].
    rewrite H. vm_compute. reflexivity.
Defined.

End MetricAndExposureResolvers.

(** ** [env_var] *)

Section EnvVars.
Import EnvVar.

(** [env_var] refuses and reports without side effects: a name with the
    secret prefix always raises the secret-location error, whatever the
    environment and the default; a name that is neither set nor given a
    default raises the missing-variable error; in both cases the manifest is
    left as it was. *)
Theorem env_var_refusals
        (self : EnvVar.t) (var : string) (dflt : option string)
        (manifest : ManifestEnv.t) :
  (String.prefix (SECRET_ENV_PREFIX self) var = true ->
   env_var self var dflt manifest = (Raises (SecretEnvVarLocationError var), manifest))
  /\ (String.prefix (SECRET_ENV_PREFIX self) var = false ->
      env self !! var = None ->
      env_var self var None manifest = (Raises (EnvVarMissingError var), manifest)).
Proof.
  unfold env_var. split.
  - intros ->. reflexivity.
  - intros -> ->. reflexivity.
Qed.

Lemma env_var_refusals_witness :
  let self := EnvVar.mk "DBT_ENV_SECRET" "__dbt_placeholder__"
                {[ "DBT_ENV_SECRET_TOKEN" := "hunter2" ]} false None in
  env_var self "DBT_ENV_SECRET_TOKEN" (Some "fallback") (ManifestEnv.mk ∅ ∅)
  = (Raises (SecretEnvVarLocationError "DBT_ENV_SECRET_TOKEN"), ManifestEnv.mk ∅ ∅).
Proof.
  intros self.
  apply (proj1 (env_var_refusals self "DBT_ENV_SECRET_TOKEN" (Some "fallback")
                  (ManifestEnv.mk ∅ ∅))).
  reflexivity.
Defined.

(** For a name without the secret prefix the environment wins over the
    default, and a default is returned as given, the empty string included.
    While parsing, the manifest remembers the variable: with its value when
    it came from the environment, but with the placeholder constant, never
    the default's text, when the default was used.  For a node that is
    already compiled nothing is recorded. *)
Theorem env_var_value_and_record
        (self : EnvVar.t) (var : string) (dflt : option string)
        (manifest : ManifestEnv.t) :
  String.prefix (SECRET_ENV_PREFIX self) var = false ->
  (forall value, env self !! var = Some value ->
     fst (env_var self var dflt manifest) = Returns value
     /\ (compiled self = false ->
         ManifestEnv.env_vars (snd (env_var self var dflt manifest)) !! var = Some value))
  /\ (forall d, env self !! var = None -> dflt = Some d ->
        fst (env_var self var dflt manifest) = Returns d
        /\ (compiled self = false ->
            ManifestEnv.env_vars (snd (env_var self var dflt manifest)) !! var
            = Some (DEFAULT_ENV_PLACEHOLDER self)))
  /\ (compiled self = true -> snd (env_var self var dflt manifest) = manifest).
Proof.
  intros Hsecret. unfold env_var. rewrite Hsecret. split; [|split].
  - intros value Henv. rewrite Henv. simpl. split; [reflexivity|].
    intros Hc. unfold record_use. rewrite Hc, Henv. simpl. apply lookup_insert_eq.
  - intros d Henv ->. rewrite Henv. simpl. split; [reflexivity|].
    intros Hc. unfold record_use. rewrite Hc, Henv. simpl. apply lookup_insert_eq.
  - intros Hc. destruct (env self !! var) as [value|]; [|destruct dflt]; simpl;
      unfold record_use; rewrite ?Hc; reflexivity.
Qed.

Lemma env_var_value_and_record_witness :
  let self := EnvVar.mk "DBT_ENV_SECRET" "__dbt_placeholder__" ∅ false None in
  fst (env_var self "TARGET_SCHEMA" (Some "") (ManifestEnv.mk ∅ ∅)) = Returns ""
  /\ ManifestEnv.env_vars (snd (env_var self "TARGET_SCHEMA" (Some "") (ManifestEnv.mk ∅ ∅)))
       !! "TARGET_SCHEMA"
     = Some "__dbt_placeholder__".
Proof.
  intros self.
  destruct (env_var_value_and_record self "TARGET_SCHEMA" (Some "") (ManifestEnv.mk ∅ ∅)
              eq_refl) as [_ [H _]].
  destruct (H "" (lookup_empty _) eq_refl) as [Hvalue Hrecord].
  split; [exact Hvalue|exact (Hrecord eq_refl)].
Defined.

(** The bookkeeping of [env_var] on the node's source file, for a node that
    is not compiled: on every successful call, whether the value came from
    the environment or from the default, the variable is appended to the
    file's list, so two calls leave it there twice, while the manifest's own
    table is the same after the second call as after the first.  Schema
    files are never touched. *)
Theorem env_var_file_bookkeeping
        (self : EnvVar.t) (var value : string) (dflt : option string)
        (manifest : ManifestEnv.t) (fid : string) (source_file : SourceFile.t) :
  compiled self = false ->
  fst (env_var self var dflt manifest) = Returns value ->
  file_id self = Some fid ->
  ManifestEnv.files manifest !! fid = Some source_file ->
  let once := snd (env_var self var dflt manifest) in
  let twice := snd (env_var self var dflt once) in
  fst (env_var self var dflt once) = Returns value
  /\ ManifestEnv.env_vars twice = ManifestEnv.env_vars once
  /\ (SourceFile.parse_file_type source_file <> "schema" ->
      (SourceFile.env_vars <$> ManifestEnv.files once !! fid)
      = Some (SourceFile.env_vars source_file ++ [var])
      /\ (SourceFile.env_vars <$> ManifestEnv.files twice !! fid)
         = Some (SourceFile.env_vars source_file ++ [var; var]))
  /\ (SourceFile.parse_file_type source_file = "schema" ->
      ManifestEnv.files twice = ManifestEnv.files manifest).
Proof.
  intros Hc Hok Hfid Hfile once twice.
  assert (Hstep : forall m, env_var self var dflt m
                            = (Returns value, record_use self var value m)).
  { intros m. revert Hok. unfold env_var.
    destruct (String.prefix (SECRET_ENV_PREFIX self) var); [discriminate|].
    destruct (env self !! var) as [v|]; [|destruct dflt as [d|]];
      cbn [fst]; try discriminate; intros [= ->]; reflexivity. }
  subst twice once. rewrite !Hstep. cbn [fst snd].
  split; [reflexivity|].
  unfold record_use.
  rewrite Hc, Hfid, Hfile. cbn [ManifestEnv.env_vars ManifestEnv.files].
  split; [apply insert_insert_eq|].
  destruct (String.eqb_spec (SourceFile.parse_file_type source_file) "schema") as [Hs|Hs];
    cbn [negb ManifestEnv.files].
  - rewrite Hfile, Hs. cbn [String.eqb negb]. split; [contradiction|].
    intros _. change (String.eqb "schema" "schema") with true. reflexivity.
  - split; [|contradiction]. intros _.
    rewrite !lookup_insert_eq. cbn [SourceFile.parse_file_type SourceFile.env_vars].
    destruct (String.eqb_spec (SourceFile.parse_file_type source_file) "schema");
      [contradiction|].
    cbn [negb ManifestEnv.files]. rewrite lookup_insert_eq. simpl.
    rewrite <- app_assoc. split; reflexivity.
Qed.

Lemma env_var_file_bookkeeping_witness :
  let from_default := EnvVar.mk "DBT_ENV_SECRET" "__dbt_placeholder__" ∅
                        false (Some "proj://models/m.sql") in
  let from_env := EnvVar.mk "DBT_ENV_SECRET" "__dbt_placeholder__" {[ "REGION" := "eu" ]}
                    false (Some "proj://models/m.sql") in
  let manifest :=
    ManifestEnv.mk ∅ {[ "proj://models/m.sql" := SourceFile.mk "model" [] ]} in
  let twice self dflt :=
    snd (env_var self "REGION" dflt (snd (env_var self "REGION" dflt manifest))) in
  (fst (env_var from_default "REGION" (Some "us") manifest) = Returns "us"
   /\ (SourceFile.env_vars
         <$> ManifestEnv.files (twice from_default (Some "us")) !! "proj://models/m.sql")
      = Some ([] ++ ["REGION"; "REGION"]))
  /\ (fst (env_var from_env "REGION" None manifest) = Returns "eu"
      /\ (SourceFile.env_vars
            <$> ManifestEnv.files (twice from_env None) !! "proj://models/m.sql")
         = Some ([] ++ ["REGION"; "REGION"])).
Proof.
  intros from_default from_env manifest twice.
  assert (Hdefault : fst (env_var from_default "REGION" (Some "us") manifest)
                     = Returns "us") by (vm_compute; reflexivity).
  assert (Henv : fst (env_var from_env "REGION" None manifest) = Returns "eu")
    by (vm_compute; reflexivity).
  assert (Hfile : ManifestEnv.files manifest !! "proj://models/m.sql"
                  = Some (SourceFile.mk "model" [])) by (vm_compute; reflexivity).
  split.
  - split; [exact Hdefault|].
    destruct (env_var_file_bookkeeping from_default "REGION" "us" (Some "us") manifest
                "proj://models/m.sql" (SourceFile.mk "model" [])
                eq_refl Hdefault eq_refl Hfile) as [_ [_ [H _]]].
    destruct (H ltac:(discriminate)) as [_ Htwice]. exact Htwice.
  - split; [exact Henv|].
    destruct (env_var_file_bookkeeping from_env "REGION" "eu" None manifest
                "proj://models/m.sql" (SourceFile.mk "model" [])
                eq_refl Henv eq_refl Hfile) as [_ [_ [H _]]].
    destruct (H ltac:(discriminate)) as [_ Htwice]. exact Htwice.
Defined.

(** A unit test's override of an environment variable is returned as it is,
    before any check: it hides the environment's value, it is returned even
    for a name with the secret prefix, and nothing is recorded in the
    manifest.  Without an override for the name the call is the ordinary
    [env_var]. *)
Theorem unit_test_env_var_override
        (overrides : gmap string string) (self : EnvVar.t) (var : string)
        (dflt : option string) (manifest : ManifestEnv.t) :
  (forall value, overrides !! var = Some value ->
     unit_test_env_var (Some overrides) self var dflt manifest = (Returns value, manifest))
  /\ (overrides !! var = None ->
      unit_test_env_var (Some overrides) self var dflt manifest
      = env_var self var dflt manifest).
Proof.
  unfold unit_test_env_var. split.
  - intros value ->. reflexivity.
  - intros ->. reflexivity.
Qed.

Lemma unit_test_env_var_override_witness :
  let self := EnvVar.mk "DBT_ENV_SECRET" "__dbt_placeholder__"
                {[ "DBT_ENV_SECRET_TOKEN" := "real" ]} false None in
  unit_test_env_var (Some {[ "DBT_ENV_SECRET_TOKEN" := "fake" ]}) self
    "DBT_ENV_SECRET_TOKEN" None (ManifestEnv.mk ∅ ∅)
  = (Returns "fake", ManifestEnv.mk ∅ ∅).
Proof.
  intros self.
  apply (proj1 (unit_test_env_var_override {[ "DBT_ENV_SECRET_TOKEN" := "fake" ]} self
                  "DBT_ENV_SECRET_TOKEN" None (ManifestEnv.mk ∅ ∅))).
  apply lookup_singleton_eq.
Defined.

End EnvVars.

(** ** The database wrappers *)

Section DatabaseWrappers.
Import DatabaseWrapper.



End DatabaseWrappers.

(** ** The macros of a test's namespace *)

Section TestNamespace.
Import TestContext.

Lemma extend_with_dependencies_spec (macro_resolver : MacroResolver.t)
      (lookup_macros depends_on_macros : list string) :
  extend_with_dependencies macro_resolver lookup_macros depends_on_macros
  = depends_on_macros
    ++ flat_map (fun id => match MacroResolver.macros macro_resolver !! id with
                           | Some m => Macro.depends_on_macros m
                           | None => []
                           end) lookup_macros.
Proof.
  revert depends_on_macros.
  induction lookup_macros as [|id rest IH]; intros depends_on_macros; simpl.
  - rewrite app_nil_r. reflexivity.
  - destruct (MacroResolver.macros macro_resolver !! id) as [m|]; rewrite IH.
    + rewrite <- app_assoc. reflexivity.
    + reflexivity.
Qed.

(** The namespace of a test holds the [get_where_subquery] macro, the macros
    the test depends on, and the macros those depend on directly -- one
    level, not the transitive closure: a macro is listed exactly when it is
    one of the first two kinds or a direct dependency of one of them. *)
Theorem test_namespace_one_level_of_dependencies
        (macro_resolver : MacroResolver.t) (model_macros : option (list string))
        (id : string) :
  let roots :=
    match MacroResolver.macros_by_name macro_resolver !! "get_where_subquery" with
    | Some m => [Macro.unique_id m]
    | None => []
    end ++ default [] model_macros in
  In id (_build_test_namespace macro_resolver model_macros) <->
  In id roots
  \/ exists root m,
       In root roots
       /\ MacroResolver.macros macro_resolver !! root = Some m
       /\ In id (Macro.depends_on_macros m).
Proof.
  intros roots. unfold _build_test_namespace.
  assert (Hroots : match model_macros with
                   | Some (m :: ms) =>
                       match MacroResolver.macros_by_name macro_resolver
                             !! "get_where_subquery" with
                       | Some g => [Macro.unique_id g]
                       | None => []
                       end ++ m :: ms
                   | _ =>
                       match MacroResolver.macros_by_name macro_resolver
                             !! "get_where_subquery" with
                       | Some g => [Macro.unique_id g]
                       | None => []
                       end
                   end = roots).
  { subst roots. destruct model_macros as [[|m ms]|]; simpl;
      rewrite ?app_nil_r; reflexivity. }
  rewrite Hroots, extend_with_dependencies_spec, in_app_iff, in_flat_map.
  split.
  - intros [H|[root [Hroot Hdep]]]; [left; exact H|].
    right. destruct (MacroResolver.macros macro_resolver !! root) as [m|] eqn:Hm;
      [|destruct Hdep].
    exists root, m. auto.
  - intros [H|[root [m [Hroot [Hm Hdep]]]]]; [left; exact H|].
    right. exists root. split; [exact Hroot|]. rewrite Hm. exact Hdep.
Qed.

Lemma test_namespace_one_level_of_dependencies_witness :
  let resolver :=
    MacroResolver.mk ∅
      {[ "macro.a" := Macro.mk "macro.a" ["macro.b"];
         "macro.b" := Macro.mk "macro.b" ["macro.c"] ]} in
  In "macro.b" (_build_test_namespace resolver (Some ["macro.a"]))
  /\ ~ In "macro.c" (_build_test_namespace resolver (Some ["macro.a"])).
Proof.
  intros resolver.
  assert (Ha : MacroResolver.macros resolver !! "macro.a"
               = Some (Macro.mk "macro.a" ["macro.b"])) by (vm_compute; reflexivity).
  split.
  - apply (proj2 (test_namespace_one_level_of_dependencies resolver (Some ["macro.a"])
                    "macro.b")).
    right. exists "macro.a", (Macro.mk "macro.a" ["macro.b"]).
    split; [left; reflexivity|]. split; [exact Ha|left; reflexivity].
  - intros Hin.
    apply (proj1 (test_namespace_one_level_of_dependencies resolver (Some ["macro.a"])
                    "macro.c")) in Hin.
    destruct Hin as [[H|[]]|[root [m [[<-|[]] [Hm Hdep]]]]]; [discriminate|].
    rewrite Ha in Hm. injection Hm as <-. destruct Hdep as [H|[]]. discriminate.
Defined.

End TestNamespace.
